(** * SwarSeva service model: eligibility, fees, documents, multilingual text

    A shallow embedding of the instance methods of the Mongoose model in
    [server/src/models/Service.js] ([getDetailsInLanguage],
    [checkEligibility], [calculateFees], [getServiceSummary],
    [validateDocuments]) together with the fragment of JavaScript they run
    on: dynamically typed values, the coercions behind [<], [>=], [===],
    [||] and [if], property reads that throw on [null]/[undefined], and
    [try]/[catch].

    JavaScript numbers are IEEE-754 binary64 values, modelled by Rocq's
    primitive [float].  Strings are sequences of code units, modelled by
    [string].  What only the JavaScript runtime knows (the clock, the [Date]
    constructor on a primitive, the numeric value of a string, the string
    form of a number, lower-casing) is gathered in the record [Runtime].
    Values are plain data, as [JSON.parse] and the database produce them:
    no property of an object is a function. *)

From Stdlib Require Uint63 SpecFloat FloatOps.
From Stdlib Require Import PrimFloat ZArith String Ascii Bool List.
From stdpp Require Import gmap strings list.

#[local] Open Scope string_scope.
#[local] Set Warnings "-register-all".

(** ** JavaScript values *)

(** The values that reach the service: what [JSON.parse] produces for a
    request body, what Mongoose hands back for a [Mixed] path, and
    [undefined] for whatever is not there. *)
Inductive JsVal : Type :=
| JUndefined
| JNull
| JBool (b : bool)
| JNum (x : float)
| JStr (s : string)
| JArr (elems : list JsVal)
| JObj (props : gmap string JsVal).

(** A plain-data user profile: the own properties of the request body. *)
Abbreviation Profile := (gmap string JsVal).

(** ** Completions: a call either returns or throws *)

Inductive JsError : Type :=
| TypeError.

Inductive Completion (A : Type) : Type :=
| Normal (a : A)
| Throw (e : JsError).

Arguments Normal {A} a.
Arguments Throw {A} e.

Definition bind {A B : Type} (c : Completion A) (k : A -> Completion B) : Completion B :=
  match c with
  | Normal a => k a
  | Throw e => Throw e
  end.

Notation "'let*' x ':=' c 'in' k" := (bind c (fun x => k))
  (at level 10, x pattern, c at level 100, k at level 200).

(** [arr.forEach(f)] where the callback updates an accumulator in place:
    a left fold that stops at the first exception. *)
Fixpoint forEach {A S : Type} (f : S -> A -> Completion S) (l : list A) (s : S) : Completion S :=
  match l with
  | [] => Normal s
  | a :: rest => let* s' := f s a in forEach f rest s'
  end.

(** [arr.some(p)]: stops at the first element that satisfies [p], or at the
    first exception. *)
Fixpoint some {A : Type} (p : A -> Completion bool) (l : list A) : Completion bool :=
  match l with
  | [] => Normal false
  | a :: rest => let* b := p a in if b then Normal true else some p rest
  end.

(** [arr.find(p)] for a predicate that cannot throw. *)
Definition find {A : Type} (p : A -> bool) (l : list A) : option A := List.find p l.

(** ** Dates *)

(** The local calendar fields of a valid [Date]; [getMonth] counts from 0. *)
Record Calendar : Type := mkCalendar {
  getFullYear : Z;
  getMonth : Z;
  getDate : Z
}.

(** A [Date] object: a valid instant, or the Invalid Date whose getters all
    return [NaN]. *)
Inductive JsDate : Type :=
| ValidDate (c : Calendar)
| InvalidDate.

(** ** The runtime *)

Record Runtime : Type := mkRuntime {
  (** [new Date()]: the clock, always a valid date *)
  now : Calendar;
  (** [new Date(p)] for a primitive [p] *)
  newDate : JsVal -> JsDate;
  (** [Number(s)] for a string [s] *)
  stringToNumber : string -> float;
  (** [String(x)] for a number [x] *)
  numberToString : float -> string;
  (** [s.toLowerCase()] *)
  toLowerCase : string -> string
}.

(** ** Coercions and operators *)

(** The number with integer value [z], exact for the magnitudes of calendar
    years. *)
Definition numberOfZ (z : Z) : float :=
  match z with
  | Z0 => 0%float
  | Zpos _ => of_uint63 (Uint63.of_Z z)
  | Zneg p => (- of_uint63 (Uint63.of_Z (Zpos p)))%float
  end.

(** [Boolean(v)], the test behind [if (v)], [!v], [a && b] and [a || b]. *)
Definition ToBoolean (v : JsVal) : bool :=
  match v with
  | JUndefined | JNull => false
  | JBool b => b
  | JNum x => negb (PrimFloat.is_zero x || PrimFloat.is_nan x)
  | JStr s => negb (String.eqb s "")
  | JArr _ | JObj _ => true
  end.

(** [a || b] on values. *)
Definition js_or (a b : JsVal) : JsVal := if ToBoolean a then a else b.

(** [s || d] for a string-or-undefined [s] and a string literal [d]. *)
Definition strOr (s : option string) (d : string) : string :=
  match s with
  | Some t => if String.eqb t "" then d else t
  | None => d
  end.

(** A string-or-undefined schema path as a value. *)
Definition ofOptStr (s : option string) : JsVal :=
  match s with
  | Some t => JStr t
  | None => JUndefined
  end.

Section Operators.
Variable rt : Runtime.

(** [String(p)] for a primitive [p]. *)
Definition primitiveToString (p : JsVal) : string :=
  match p with
  | JUndefined => "undefined"
  | JNull => "null"
  | JBool true => "true"
  | JBool false => "false"
  | JNum x => numberToString rt x
  | JStr s => s
  | JArr _ | JObj _ => ""
  end.

(** [ToString].  A plain object answers through [Object.prototype.toString]
    unless it has an own property [toString], which for plain data is not
    callable: then neither [toString] nor the inherited [valueOf] yields a
    primitive and a [TypeError] is thrown.  An array answers through
    [join]: its elements in order, [undefined] and [null] as empty
    strings, separated by commas. *)
Fixpoint ToString (v : JsVal) : Completion string :=
  match v with
  | JArr elems =>
      (fix joinFrom (l : list JsVal) : Completion string :=
         match l with
         | [] => Normal ""
         | e :: rest =>
             let* s := match e with
                       | JUndefined | JNull => Normal ""
                       | _ => ToString e
                       end in
             match rest with
             | [] => Normal s
             | _ :: _ => let* t := joinFrom rest in Normal (s ++ "," ++ t)
             end
         end) elems
  | JObj props =>
      match props !! "toString" with
      | Some _ => Throw TypeError
      | None => Normal "[object Object]"
      end
  | p => Normal (primitiveToString p)
  end.

(** [ToPrimitive]: a primitive is left alone; an array or a plain object
    turns into its string, under either hint, or throws. *)
Definition ToPrimitive (v : JsVal) : Completion JsVal :=
  match v with
  | JArr _ | JObj _ => let* s := ToString v in Normal (JStr s)
  | _ => Normal v
  end.

(** The primitive that [ToPrimitive] turns a value into, the value itself
    where [ToPrimitive] throws. *)
Definition primitiveOf (v : JsVal) : JsVal :=
  match ToPrimitive v with
  | Normal p => p
  | Throw _ => v
  end.

(** [ToNumber] of a primitive. *)
Definition ToNumber (p : JsVal) : float :=
  match p with
  | JUndefined => nan
  | JNull => 0%float
  | JBool true => 1%float
  | JBool false => 0%float
  | JNum x => x
  | JStr s => stringToNumber rt s
  | JArr _ | JObj _ => nan
  end.

(** The abstract relational comparison [x < y] of two primitives; [None]
    is its [undefined] answer, given when a side is [NaN]. *)
Definition IsLessThan (x y : JsVal) : option bool :=
  match x, y with
  | JStr sx, JStr sy => Some (String.ltb sx sy)
  | px, py =>
      let nx := ToNumber px in
      let ny := ToNumber py in
      if PrimFloat.is_nan nx || PrimFloat.is_nan ny then None else Some (nx <? ny)%float
  end.

(** [x < y], [x > y], [x <= y], [x >= y] on primitives. *)
Definition js_lt (x y : JsVal) : bool :=
  match IsLessThan x y with Some true => true | _ => false end.
Definition js_gt (x y : JsVal) : bool :=
  match IsLessThan y x with Some true => true | _ => false end.
Definition js_le (x y : JsVal) : bool :=
  match IsLessThan y x with Some false => true | _ => false end.
Definition js_ge (x y : JsVal) : bool :=
  match IsLessThan x y with Some false => true | _ => false end.

(** The four operators on any two values: the left operand is made
    primitive, then the right one, then the primitives are compared. *)
Definition compareWith (op : JsVal -> JsVal -> bool) (x y : JsVal) : Completion bool :=
  let* px := ToPrimitive x in
  let* py := ToPrimitive y in
  Normal (op px py).

Definition lessThan : JsVal -> JsVal -> Completion bool := compareWith js_lt.
Definition greaterThan : JsVal -> JsVal -> Completion bool := compareWith js_gt.
Definition lessOrEqual : JsVal -> JsVal -> Completion bool := compareWith js_le.
Definition greaterOrEqual : JsVal -> JsVal -> Completion bool := compareWith js_ge.

(** [p == s] for a primitive [p] and a string [s]: a string is compared
    as such, a number or a boolean with the number that [s] denotes,
    [undefined] and [null] equal no string. *)
Definition looseEqualsString (p : JsVal) (s : string) : bool :=
  match p with
  | JStr t => String.eqb t s
  | JNum _ | JBool _ => (ToNumber p =? stringToNumber rt s)%float
  | _ => false
  end.

(** [isBsonType(v, 'ObjectId')]: [v != null && v._bsontype === 'ObjectId'] *)
Definition isObjectId (v : JsVal) : bool :=
  match v with
  | JObj props =>
      match props !! "_bsontype" with
      | Some (JStr t) => String.eqb t "ObjectId"
      | _ => false
      end
  | _ => false
  end.

(** [strings.includes(v)] on a Mongoose array of strings: [indexOf]
    replaces a value marked as an ObjectId by [v.toString()] (releases that
    test [instanceof ObjectId] instead skip this step for plain data), then
    walks the array with [v == strings[i]] and stops at the first hit; each
    comparison makes an object or array [v] primitive first. *)
Definition includes (strings : list string) (v : JsVal) : Completion bool :=
  let* obj := if isObjectId v then let* s := ToString v in Normal (JStr s)
              else Normal v in
  some (fun s => let* p := ToPrimitive obj in Normal (looseEqualsString p s)) strings.
End Operators.

(** A number-or-undefined schema path as a value. *)
Definition ofOptNum (x : option float) : JsVal :=
  match x with
  | Some n => JNum n
  | None => JUndefined
  end.

(** [x === y] where the two sides come from different places (one from the
    request, one from the stored service, or a literal): two arrays or two
    objects are then never the same reference. *)
Definition strictEquals (x y : JsVal) : bool :=
  match x, y with
  | JUndefined, JUndefined => true
  | JNull, JNull => true
  | JBool a, JBool b => Bool.eqb a b
  | JNum a, JNum b => (a =? b)%float
  | JStr a, JStr b => String.eqb a b
  | _, _ => false
  end.

(** [v.key] for the property names the service reads: a [TypeError] on
    [undefined] and [null], the own property of an object, [undefined] on
    anything else. *)
Definition getProp (v : JsVal) (key : string) : Completion JsVal :=
  match v with
  | JUndefined | JNull => Throw TypeError
  | JObj props => Normal (default JUndefined (props !! key))
  | _ => Normal JUndefined
  end.

(** [s.split('.').pop()]: what follows the last dot, the whole string when
    there is none. *)
Fixpoint afterLastDotFrom (s cur : string) : string :=
  match s with
  | EmptyString => cur
  | String c rest =>
      if Ascii.eqb c "." then afterLastDotFrom rest rest else afterLastDotFrom rest cur
  end.

Definition splitDotPop (s : string) : string := afterLastDotFrom s s.

(** ** Data model: the sub-schemas of [ServiceSchema] *)

(** The twelve language paths of [MultilingualTextSchema]. *)
Inductive Lang : Type :=
| L_en | L_hi | L_bn | L_ta | L_te | L_mr | L_gu | L_kn | L_ml | L_pa | L_or | L_as.

(** [MultilingualTextSchema]: one optional string per language.  The schema
    requires [en] when a document is saved; the methods still guard against
    its absence, so the model keeps it optional. *)
Record MultilingualText : Type := mkText {
  mt_en : option string;
  mt_hi : option string;
  mt_bn : option string;
  mt_ta : option string;
  mt_te : option string;
  mt_mr : option string;
  mt_gu : option string;
  mt_kn : option string;
  mt_ml : option string;
  mt_pa : option string;
  mt_or : option string;
  mt_as : option string
}.

(** [field[language]] *)
Definition textIn (field : MultilingualText) (language : Lang) : option string :=
  match language with
  | L_en => mt_en field | L_hi => mt_hi field | L_bn => mt_bn field
  | L_ta => mt_ta field | L_te => mt_te field | L_mr => mt_mr field
  | L_gu => mt_gu field | L_kn => mt_kn field | L_ml => mt_ml field
  | L_pa => mt_pa field | L_or => mt_or field | L_as => mt_as field
  end.

Definition emptyText : MultilingualText :=
  mkText None None None None None None None None None None None None.

Definition english (s : string) : MultilingualText :=
  mkText (Some s) None None None None None None None None None None None.

(** [EligibilityCriteriaSchema] *)
Inductive CriteriaType : Type :=
| CT_age | CT_income | CT_residence | CT_education | CT_gender
| CT_marital | CT_occupation | CT_category | CT_disability | CT_other.

Definition criteriaTypeName (t : CriteriaType) : string :=
  match t with
  | CT_age => "age" | CT_income => "income" | CT_residence => "residence"
  | CT_education => "education" | CT_gender => "gender" | CT_marital => "marital"
  | CT_occupation => "occupation" | CT_category => "category"
  | CT_disability => "disability" | CT_other => "other"
  end.

Inductive ValidationMethod : Type :=
| VM_range | VM_exact | VM_minimum | VM_maximum | VM_list | VM_boolean | VM_custom.

(** [minValue] and [maxValue] are [Mixed] paths without a default: a bound
    that was never set reads as [undefined], one stored as [null] reads as
    [null]. *)
Record EligibilityCriteria : Type := mkCriteria {
  criteriaType : CriteriaType;
  ec_name : MultilingualText;
  ec_description : option MultilingualText;
  minValue : JsVal;
  maxValue : JsVal;
  allowedValues : list string;
  validationMethod : ValidationMethod
}.

(** [FeeSchema] *)
Record VariableFactor : Type := mkFactor {
  factor : option string;
  calculation : option string
}.

(** [waiver] is a nested path: [eligibility] is an array (empty by default),
    [description] a sub-document that is [undefined] unless it was given. *)
Record Waiver : Type := mkWaiver {
  w_eligibility : list string;
  w_description : option MultilingualText
}.

Record Fee : Type := mkFee {
  feeType : string;
  fee_name : MultilingualText;
  fee_description : option MultilingualText;
  amount : float;
  currency : option string;
  variableFactors : list VariableFactor;
  waiver : option Waiver
}.

(** [RequirementSchema] *)
Record Requirement : Type := mkRequirement {
  documentType : string;
  req_name : MultilingualText;
  req_description : option MultilingualText;
  isMandatory : bool;
  allowedFileTypes : list string;
  maxFileSizeKB : option float
}.

(** The paths of a service document that the methods below read. *)
Record Service : Type := mkService {
  name : MultilingualText;
  description : MultilingualText;
  requirements : list Requirement;
  eligibilityCriteria : list EligibilityCriteria;
  fees : list Fee
}.

(** ** [getFallbackText], the closure of [getDetailsInLanguage] and of
       [getServiceSummary] *)

(** [a || b] on strings that may be [undefined]; [None] is the falsy
    outcome. *)
Definition firstTruthy (a b : option string) : option string :=
  match a with
  | Some s => if String.eqb s "" then b else Some s
  | None => b
  end.

(** [if (!field) return null; return field[language] || field.en || null;]
    with [None] for [null]. *)
Definition getFallbackText (language : Lang) (field : option MultilingualText) : option string :=
  match field with
  | None => None
  | Some f => firstTruthy (textIn f language) (firstTruthy (mt_en f) None)
  end.

(** [getDetailsInLanguage]: the entries of the returned object that come
    from the paths of [Service]; each text goes through [getFallbackText]. *)
Record LocalizedEntry : Type := mkEntry {
  le_name : option string;
  le_description : option string
}.

Record LocalizedFee : Type := mkLocalizedFee {
  lf_name : option string;
  lf_description : option string;
  (** [fee.waiver ? {eligibility, description} : null] *)
  lf_waiver : option (list string * option string)
}.

Record ServiceDetails : Type := mkDetails {
  sd_name : option string;
  sd_description : option string;
  sd_requirements : list LocalizedEntry;
  sd_eligibilityCriteria : list LocalizedEntry;
  sd_fees : list LocalizedFee
}.

Definition getDetailsInLanguage (this : Service) (language : Lang) : ServiceDetails :=
  mkDetails
    (getFallbackText language (Some (name this)))
    (getFallbackText language (Some (description this)))
    (map (fun req => mkEntry (getFallbackText language (Some (req_name req)))
                             (getFallbackText language (req_description req)))
         (requirements this))
    (map (fun criteria => mkEntry (getFallbackText language (Some (ec_name criteria)))
                                  (getFallbackText language (ec_description criteria)))
         (eligibilityCriteria this))
    (map (fun fee => mkLocalizedFee
                       (getFallbackText language (Some (fee_name fee)))
                       (getFallbackText language (fee_description fee))
                       (match waiver fee with
                        | Some w => Some (w_eligibility w,
                                          getFallbackText language (w_description w))
                        | None => None
                        end))
         (fees this)).

(** [getServiceSummary]: likewise, with the counts and the fee estimate.
    Nothing in its [try] block throws on these paths. *)
Record ServiceSummary : Type := mkSummary {
  ss_name : option string;
  ss_description : option string;
  requirementCount : nat;
  mandatoryRequirementCount : nat;
  eligibilityCriteriaCount : nat;
  feeEstimate : float;
  ss_currency : option string
}.

Definition getServiceSummary (this : Service) (language : Lang) : ServiceSummary :=
  mkSummary
    (getFallbackText language (Some (name this)))
    (getFallbackText language (Some (description this)))
    (length (requirements this))
    (length (List.filter isMandatory (requirements this)))
    (length (eligibilityCriteria this))
    (fold_left (fun sum fee => (sum + amount fee)%float) (fees this) 0%float)
    (match fees this with
     | first :: _ => currency first
     | [] => Some "INR"
     end).

(** ** [try]/[catch] and short-circuit operators over completions *)

Definition tryCatch {A : Type} (body : Completion A) (handler : JsError -> Completion A)
    : Completion A :=
  match body with
  | Normal a => Normal a
  | Throw e => handler e
  end.

(** [c && rhs] and [c || rhs] where only the right operand can throw. *)
Definition andAlso (c : bool) (rhs : Completion bool) : Completion bool :=
  if c then rhs else Normal false.

Definition orElse (c : bool) (rhs : Completion bool) : Completion bool :=
  if c then Normal true else rhs.

(** ** [checkEligibility] *)

(** The text of [required] in a failed entry, kept as the template that
    was chosen and the values that fill it. *)
Inductive RequiredText : Type :=
| Between (lo hi : JsVal)
| OneOf (allowed : list string)
| MethodColon (method : ValidationMethod) (shown : JsVal).

Record FailedCriterion : Type := mkFailed {
  fc_type : CriteriaType;
  fc_name : string;
  fc_userValue : JsVal;
  fc_required : RequiredText
}.

Record MissingDatum : Type := mkMissing {
  md_field : string;
  md_criteria : string
}.

(** The two arrays of the local [results] object while the loop runs. *)
Record Results : Type := mkResults {
  r_failedCriteria : list FailedCriterion;
  r_missingData : list MissingDatum
}.

(** The returned object; a [None] list is a property the object lacks. *)
Record EligibilityResult : Type := mkEligibility {
  eligible : JsVal;
  message : string;
  failedCriteria : option (list FailedCriterion);
  missingData : option (list MissingDatum)
}.

Definition pushMissing (m : MissingDatum) (results : Results) : Results :=
  mkResults (r_failedCriteria results) (r_missingData results ++ [m]).

Definition pushFailed (f : FailedCriterion) (results : Results) : Results :=
  mkResults (r_failedCriteria results ++ [f]) (r_missingData results).

(** How the first [switch] of the callback ends: with [return] after
    recording a missing date of birth, or with a value in [userValue]. *)
Inductive Resolved : Type :=
| ReturnedEarly (m : MissingDatum)
| UserValue (v : JsVal).

(** The age expression: year difference, less one when today's month and
    day come before the birth month and day.  Every getter of an Invalid
    Date is [NaN], and so is the result. *)
Definition ageOn (today : Calendar) (birthDate : JsDate) : float :=
  match birthDate with
  | InvalidDate => nan
  | ValidDate b =>
      numberOfZ (getFullYear today - getFullYear b -
                 (if (getMonth today <? getMonth b)%Z ||
                     ((getMonth today =? getMonth b)%Z && (getDate today <? getDate b)%Z)
                  then 1 else 0))%Z
  end.

Section CheckEligibility.
Variable rt : Runtime.

(** The first [switch]: the user data that goes with the criteria type.
    The [other] case, which is also the [default] case, reads the property
    named by the lower-cased criteria type. *)
Definition resolveUserValue (criteria : EligibilityCriteria) (criteriaName : string)
    (userData : JsVal) : Completion Resolved :=
  match criteriaType criteria with
  | CT_age =>
      let* dateOfBirth := getProp userData "dateOfBirth" in
      if negb (ToBoolean dateOfBirth)
      then Normal (ReturnedEarly (mkMissing "dateOfBirth" criteriaName))
      else
        let today := now rt in
        let* primitive := ToPrimitive rt dateOfBirth in
        let birthDate := newDate rt primitive in
        Normal (UserValue (JNum (ageOn today birthDate)))
  | CT_income =>
      let* v := getProp userData "income" in Normal (UserValue v)
  | CT_residence =>
      let* address := getProp userData "address" in
      if ToBoolean address
      then let* v := getProp address "state" in Normal (UserValue v)
      else Normal (UserValue JUndefined)
  | CT_education =>
      let* education := getProp userData "education" in
      if ToBoolean education
      then let* v := getProp education "level" in Normal (UserValue v)
      else Normal (UserValue JUndefined)
  | CT_gender =>
      let* v := getProp userData "gender" in Normal (UserValue v)
  | CT_marital =>
      let* v := getProp userData "maritalStatus" in Normal (UserValue v)
  | CT_occupation =>
      let* v := getProp userData "occupation" in Normal (UserValue v)
  | CT_category =>
      let* v := getProp userData "category" in Normal (UserValue v)
  | CT_disability =>
      let* v := getProp userData "hasDisability" in Normal (UserValue v)
  | CT_other =>
      let customFieldName := toLowerCase rt (criteriaTypeName (criteriaType criteria)) in
      let* v := getProp userData customFieldName in Normal (UserValue v)
  end.

(** The second [switch]: the value assigned to [criteriaResult], or the
    exception of a comparison. *)
Definition evaluateCriterion (criteria : EligibilityCriteria) (userValue : JsVal)
    : Completion bool :=
  match validationMethod criteria with
  | VM_range =>
      let* lower := orElse (strictEquals (minValue criteria) JNull)
                      (greaterOrEqual rt userValue (minValue criteria)) in
      andAlso lower
        (orElse (strictEquals (maxValue criteria) JNull)
           (lessOrEqual rt userValue (maxValue criteria)))
  | VM_exact => Normal (strictEquals userValue (minValue criteria))
  | VM_minimum => greaterOrEqual rt userValue (minValue criteria)
  | VM_maximum => lessOrEqual rt userValue (maxValue criteria)
  | VM_list => includes rt (allowedValues criteria) userValue
  | VM_boolean => Normal (ToBoolean userValue)
  | VM_custom => Normal true
  end.

(** The value that the second [switch] assigns to [criteriaResult] when
    none of its comparisons throws. *)
Definition criteriaResult (criteria : EligibilityCriteria) (userValue : JsVal) : bool :=
  match validationMethod criteria with
  | VM_range =>
      (strictEquals (minValue criteria) JNull ||
       js_ge rt (primitiveOf rt userValue) (primitiveOf rt (minValue criteria))) &&
      (strictEquals (maxValue criteria) JNull ||
       js_le rt (primitiveOf rt userValue) (primitiveOf rt (maxValue criteria)))
  | VM_exact => strictEquals userValue (minValue criteria)
  | VM_minimum => js_ge rt (primitiveOf rt userValue) (primitiveOf rt (minValue criteria))
  | VM_maximum => js_le rt (primitiveOf rt userValue) (primitiveOf rt (maxValue criteria))
  | VM_list =>
      existsb (looseEqualsString rt (primitiveOf rt userValue)) (allowedValues criteria)
  | VM_boolean => ToBoolean userValue
  | VM_custom => true
  end.

(** The value shown after the method name in the third template of
    [required]. *)
Definition shownBound (criteria : EligibilityCriteria) : JsVal :=
  js_or (minValue criteria) (js_or (maxValue criteria) (JStr "Custom validation")).

(** The template literal of [required]: every value that fills a hole is
    turned into a string, which can throw; the strings of [allowedValues]
    are joined as they are. *)
Definition requiredText (criteria : EligibilityCriteria) : Completion RequiredText :=
  match validationMethod criteria with
  | VM_range =>
      let* _ := ToString rt (minValue criteria) in
      let* _ := ToString rt (maxValue criteria) in
      Normal (Between (minValue criteria) (maxValue criteria))
  | VM_list => Normal (OneOf (allowedValues criteria))
  | m =>
      let* _ := ToString rt (shownBound criteria) in
      Normal (MethodColon m (shownBound criteria))
  end.

(** The callback of [this.eligibilityCriteria.forEach]. *)
Definition checkCriterion (userData : JsVal) (results : Results)
    (criteria : EligibilityCriteria) : Completion Results :=
  let criteriaName := strOr (mt_en (ec_name criteria)) "Unnamed criterion" in
  let* resolved := resolveUserValue criteria criteriaName userData in
  match resolved with
  | ReturnedEarly m => Normal (pushMissing m results)
  | UserValue userValue =>
      if strictEquals userValue JUndefined
      then Normal (pushMissing
                     (mkMissing (criteriaTypeName (criteriaType criteria)) criteriaName)
                     results)
      else
        let* passed := evaluateCriterion criteria userValue in
        if negb passed
        then
          let* required := requiredText criteria in
          Normal (pushFailed
                    (mkFailed (criteriaType criteria) criteriaName userValue required)
                    results)
        else Normal results
  end.

(** The decision taken after the loop. *)
Definition decide_eligibility (results : Results) : EligibilityResult :=
  if (0 <? length (r_failedCriteria results))%nat
  then mkEligibility (JBool false) "User does not meet eligibility criteria"
         (Some (r_failedCriteria results)) (Some (r_missingData results))
  else if (0 <? length (r_missingData results))%nat
  then mkEligibility (JStr "unknown") "Missing required information to determine eligibility"
         (Some (r_failedCriteria results)) (Some (r_missingData results))
  else mkEligibility (JBool true) "User meets all eligibility criteria"
         (Some (r_failedCriteria results)) (Some (r_missingData results)).

Definition checkEligibility (this : Service) (userData : JsVal)
    : Completion EligibilityResult :=
  match eligibilityCriteria this with
  | [] => Normal (mkEligibility (JBool true) "No eligibility criteria specified" None None)
  | _ :: _ =>
      let* results := forEach (checkCriterion userData) (eligibilityCriteria this)
                              (mkResults [] []) in
      Normal (decide_eligibility results)
  end.
End CheckEligibility.

(** ** [calculateFees] *)

Record BreakdownEntry : Type := mkBreakdown {
  b_feeType : string;
  b_name : JsVal;
  b_amount : float;
  b_description : JsVal
}.

Record WaiverEntry : Type := mkWaiverEntry {
  wv_feeType : string;
  wv_name : JsVal;
  wv_amount : float;
  wv_reason : string
}.

(** The parts of the local [result] object that the loop updates. *)
Record Totals : Type := mkTotals {
  t_totalAmount : float;
  t_breakdown : list BreakdownEntry;
  t_waivers : list WaiverEntry
}.

(** The returned object; [None] is a property the object lacks. *)
Record FeeResult : Type := mkFeeResult {
  totalAmount : float;
  resultCurrency : string;
  breakdown : list BreakdownEntry;
  waivers : option (list WaiverEntry);
  feeMessage : option string;
  feeError : option string
}.

Section CalculateFees.
Variable rt : Runtime.

(** The callback of [fee.waiver.eligibility.some]: five guarded
    [return true] statements, then [return false]. *)
Definition waiverCategoryMatches (userData : JsVal) (category : string) : Completion bool :=
  let* bpl := andAlso (String.eqb category "bpl")
                (let* v := getProp userData "isBPL" in Normal (ToBoolean v)) in
  if bpl then Normal true else
  let* senior := andAlso (String.eqb category "senior")
                   (let* v := getProp userData "age" in greaterOrEqual rt v (JNum 60)) in
  if senior then Normal true else
  let* student := andAlso (String.eqb category "student")
                    (let* v := getProp userData "isStudent" in Normal (ToBoolean v)) in
  if student then Normal true else
  let* disability := andAlso (String.eqb category "disability")
                       (let* v := getProp userData "hasDisability" in Normal (ToBoolean v)) in
  if disability then Normal true else
  let* female := andAlso (String.eqb category "female")
                   (let* v := getProp userData "gender" in
                    Normal (strictEquals v (JStr "female"))) in
  if female then Normal true else
  Normal false.

(** The callback of [fee.variableFactors.forEach], acting on the running
    [feeAmount].  A property of [userData] is read once here where the
    source reads it again in the nested test; for plain data the reads
    agree. *)
Definition applyFactor (userData : JsVal) (feeAmount : float) (f : VariableFactor)
    : Completion float :=
  let* afterIncome :=
    if strictEquals (ofOptStr (factor f)) (JStr "income") then
      let* income := getProp userData "income" in
      if ToBoolean income then
        let* below := lessThan rt income (JNum 300000) in
        if below then Normal (feeAmount * 0.5)%float
        else
          let* above := greaterThan rt income (JNum 1000000) in
          if above then Normal (feeAmount * 1.5)%float
          else Normal feeAmount
      else Normal feeAmount
    else Normal feeAmount in
  if strictEquals (ofOptStr (factor f)) (JStr "age") then
    let* age := getProp userData "age" in
    if ToBoolean age then
      let* minor := lessThan rt age (JNum 18) in
      if minor then Normal (afterIncome * 0.5)%float
      else
        let* senior := greaterOrEqual rt age (JNum 60) in
        if senior then Normal (afterIncome * 0.75)%float
        else Normal afterIncome
    else Normal afterIncome
  else Normal afterIncome.

(** The waiver block of the fee callback: the new value of [waived] and
    of [result.waivers].  Reading [.en] of a waiver description that is
    [undefined] throws. *)
Definition checkWaiver (userData : JsVal) (result : Totals) (fee : Fee)
    : Completion (bool * Totals) :=
  match waiver fee with
  | Some w =>
      if (0 <? length (w_eligibility w))%nat then
        let* eligibleForWaiver := some (waiverCategoryMatches userData) (w_eligibility w) in
        if eligibleForWaiver then
          let* waiverDescription :=
            match w_description w with
            | Some d => Normal d
            | None => Throw TypeError
            end in
          Normal (true,
                  mkTotals (t_totalAmount result) (t_breakdown result)
                    (t_waivers result ++
                     [mkWaiverEntry (feeType fee) (ofOptStr (mt_en (fee_name fee)))
                        (amount fee)
                        (strOr (mt_en waiverDescription) "Eligible for fee waiver")]))
        else Normal (false, result)
      else Normal (false, result)
  | None => Normal (false, result)
  end.

(** The callback of [this.fees.forEach]. *)
Definition processFee (userData : JsVal) (result : Totals) (fee : Fee) : Completion Totals :=
  let feeAmount := amount fee in
  let* (waived, result1) := checkWaiver userData result fee in
  let* feeAmount1 :=
    if negb waived && (0 <? length (variableFactors fee))%nat
    then forEach (applyFactor userData) (variableFactors fee) feeAmount
    else Normal feeAmount in
  if negb waived then
    Normal (mkTotals (t_totalAmount result1 + feeAmount1)%float
              (t_breakdown result1 ++
               [mkBreakdown (feeType fee) (ofOptStr (mt_en (fee_name fee))) feeAmount1
                  (match fee_description fee with
                   | Some d => ofOptStr (mt_en d)
                   | None => JNull
                   end)])
              (t_waivers result1))
  else Normal result1.

Definition calculateFees (this : Service) (userData : JsVal) : Completion FeeResult :=
  match fees this with
  | [] =>
      Normal (mkFeeResult 0 "INR" [] None
                (Some "No fees associated with this service") None)
  | first :: _ =>
      let resultCurrency := strOr (currency first) "INR" in
      tryCatch
        (let* result := forEach (processFee userData) (fees this) (mkTotals 0 [] []) in
         Normal (mkFeeResult (t_totalAmount result) resultCurrency
                   (t_breakdown result) (Some (t_waivers result)) None None))
        (fun _ =>
           Normal (mkFeeResult 0 "INR" [] None None (Some "Error calculating fees")))
  end.
End CalculateFees.

(** ** [validateDocuments] *)

(** An entry [{type, name}] of [validDocuments] or [missingMandatory]. *)
Record NamedDocument : Type := mkNamed {
  nd_type : JsVal;
  nd_name : JsVal
}.

(** The [reason] of an invalid entry, kept as the template that was chosen
    and the values that fill it. *)
Inductive InvalidReason : Type :=
| NotRequiredForService
| InvalidFileType (allowed : list string)
| FileTooLarge (maximumKB : JsVal).

Record InvalidDocument : Type := mkInvalid {
  inv_type : JsVal;
  inv_reason : InvalidReason
}.

(** The local [result] object. *)
Record Validation : Type := mkValidation {
  valid : bool;
  validDocuments : list NamedDocument;
  invalidDocuments : list InvalidDocument;
  missingMandatory : list NamedDocument
}.

(** The three shapes of object that [validateDocuments] returns. *)
Inductive ValidationResult : Type :=
| InvalidFormat (missingTypes : list string)
| Checked (result : Validation) (resultMessage : string)
| ValidationError.

(** The [valid] property of the returned object. *)
Definition validOf (r : ValidationResult) : bool :=
  match r with
  | InvalidFormat _ => false
  | Checked result _ => valid result
  | ValidationError => false
  end.

Section ValidateDocuments.
Variable rt : Runtime.

(** The callback of the first loop, over [this.requirements]. *)
Definition checkMandatory (documents : list JsVal) (result : Validation)
    (requirement : Requirement) : Completion Validation :=
  if isMandatory requirement then
    let* found := some (fun doc => let* type := getProp doc "type" in
                                   Normal (strictEquals type (JStr (documentType requirement))))
                       documents in
    if negb found then
      Normal (mkValidation false (validDocuments result) (invalidDocuments result)
                (missingMandatory result ++
                 [mkNamed (JStr (documentType requirement))
                          (ofOptStr (mt_en (req_name requirement)))]))
    else Normal result
  else Normal result.

(** [document.file.split('.').pop().toLowerCase()]: only a string has a
    [split] method. *)
Definition fileExtensionOf (document : JsVal) : Completion string :=
  let* file := getProp document "file" in
  match file with
  | JStr s => Normal (toLowerCase rt (splitDotPop s))
  | _ => Throw TypeError
  end.

(** [requirement.maxFileSizeKB && document.sizeKB > requirement.maxFileSizeKB] *)
Definition exceedsMaxSize (requirement : Requirement) (sizeKB : JsVal) : Completion bool :=
  andAlso (ToBoolean (ofOptNum (maxFileSizeKB requirement)))
    (greaterThan rt sizeKB (ofOptNum (maxFileSizeKB requirement))).

(** The callback of the second loop, over [documents].  [document.type]
    is read first: the source reads it in the [find] callback or, when
    there is no requirement at all, in the entry it pushes. *)
Definition validateDocument (requirements : list Requirement) (result : Validation)
    (document : JsVal) : Completion Validation :=
  let* type := getProp document "type" in
  match find (fun r => strictEquals (JStr (documentType r)) type) requirements with
  | None =>
      Normal (mkValidation (valid result) (validDocuments result)
                (invalidDocuments result ++ [mkInvalid type NotRequiredForService])
                (missingMandatory result))
  | Some requirement =>
      let* typeRejected :=
        if (0 <? length (allowedFileTypes requirement))%nat then
          let* fileExtension := fileExtensionOf document in
          let* listed := includes rt (allowedFileTypes requirement) (JStr fileExtension) in
          Normal (negb listed)
        else Normal false in
      if typeRejected then
        Normal (mkValidation false (validDocuments result)
                  (invalidDocuments result ++
                   [mkInvalid type (InvalidFileType (allowedFileTypes requirement))])
                  (missingMandatory result))
      else
        let* sizeKB := getProp document "sizeKB" in
        let* tooLarge := exceedsMaxSize requirement sizeKB in
        if tooLarge then
          Normal (mkValidation false (validDocuments result)
                    (invalidDocuments result ++
                     [mkInvalid type (FileTooLarge (ofOptNum (maxFileSizeKB requirement)))])
                    (missingMandatory result))
        else
          Normal (mkValidation (valid result)
                    (validDocuments result ++
                     [mkNamed type (ofOptStr (mt_en (req_name requirement)))])
                    (invalidDocuments result) (missingMandatory result))
  end.

Definition resultMessageOf (result : Validation) : string :=
  if valid result then "All required documents validated successfully"
  else if (0 <? length (missingMandatory result))%nat then "Missing mandatory documents"
  else "Some documents failed validation".

Definition validateDocuments (this : Service) (documents : JsVal)
    : Completion ValidationResult :=
  match documents with
  | JArr docs =>
      tryCatch
        (let* result1 := forEach (checkMandatory docs) (requirements this)
                           (mkValidation true [] [] []) in
         let* result2 := forEach (validateDocument (requirements this)) docs result1 in
         Normal (Checked result2 (resultMessageOf result2)))
        (fun _ => Normal ValidationError)
  | _ =>
      Normal (InvalidFormat
                (map documentType (List.filter isMandatory (requirements this))))
  end.
End ValidateDocuments.

(** ** A runtime for the examples

    A server with a fixed clock in a time zone at a fixed offset from UTC.
    Its [Date] constructor knows the date-only form [YYYY-MM-DD], which
    JavaScript reads as midnight UTC of that day, and time values in
    milliseconds since the epoch; the getters then give the calendar day in
    the zone of the server.  A string of any other form is taken as
    unparseable.  [Number(s)] knows white space, a sign and decimal digits
    with a fraction, up to fifteen digits; [String(x)] knows the integers
    up to fifteen digits, [NaN] and the infinities; lower-casing is that of
    ASCII.  The examples stay within these forms. *)

Definition digitOf (c : ascii) : option Z :=
  let n := Z.of_N (N_of_ascii c) in
  if ((48 <=? n) && (n <=? 57))%Z then Some (n - 48)%Z else None.

Fixpoint digitsFrom (s : string) (acc : Z) : option Z :=
  match s with
  | EmptyString => Some acc
  | String c rest =>
      match digitOf c with
      | Some d => digitsFrom rest (10 * acc + d)%Z
      | None => None
      end
  end.

Definition decimalOf (s : string) : option Z :=
  match s with
  | EmptyString => None
  | _ => digitsFrom s 0%Z
  end.

(** Days since 1970-01-01 of the day [d] of month [m] (from 1) of year [y]
    in the proleptic Gregorian calendar, and back.  A day number past the
    end of its month runs on into the months that follow. *)
Definition daysFromCivil (y m d : Z) : Z :=
  let y' := (if m <=? 2 then y - 1 else y)%Z in
  let era := (y' / 400)%Z in
  let yoe := (y' - era * 400)%Z in
  let mp := ((m + 9) mod 12)%Z in
  let doy := ((153 * mp + 2) / 5 + d - 1)%Z in
  let doe := (yoe * 365 + yoe / 4 - yoe / 100 + doy)%Z in
  (era * 146097 + doe - 719468)%Z.

Definition civilFromDays (days : Z) : Calendar :=
  let z := (days + 719468)%Z in
  let era := (z / 146097)%Z in
  let doe := (z - era * 146097)%Z in
  let yoe := ((doe - doe / 1460 + doe / 36524 - doe / 146096) / 365)%Z in
  let doy := (doe - (365 * yoe + yoe / 4 - yoe / 100))%Z in
  let mp := ((5 * doy + 2) / 153)%Z in
  let d := (doy - (153 * mp + 2) / 5 + 1)%Z in
  let m := (if mp <? 10 then mp + 3 else mp - 9)%Z in
  let y := (yoe + era * 400 + (if m <=? 2 then 1 else 0))%Z in
  mkCalendar y (m - 1) d.

Abbreviation msPerDay := 86400000%Z.

(** The calendar day, [zone] minutes east of UTC, of the instant [t]
    milliseconds after the epoch; no instant beyond 100,000,000 days. *)
Definition localDay (zone t : Z) : JsDate :=
  if (Z.abs t <=? 100000000 * msPerDay)%Z
  then ValidDate (civilFromDays ((t + zone * 60000) / msPerDay))
  else InvalidDate.

(** The date-only form of the date-time string format. *)
Definition isoDate (zone : Z) (s : string) : JsDate :=
  if (String.length s =? 10)%nat && String.eqb (substring 4 1 s) "-"
     && String.eqb (substring 7 1 s) "-"
  then
    match decimalOf (substring 0 4 s), decimalOf (substring 5 2 s),
          decimalOf (substring 8 2 s) with
    | Some y, Some m, Some d =>
        if ((1 <=? m) && (m <=? 12) && (1 <=? d) && (d <=? 31))%Z
        then localDay zone (daysFromCivil y m d * msPerDay)
        else InvalidDate
    | _, _, _ => InvalidDate
    end
  else InvalidDate.

(** The integer part of a finite number, rounded towards zero. *)
Definition truncate (x : float) : option Z :=
  match FloatOps.Prim2SF x with
  | SpecFloat.S754_zero _ => Some 0%Z
  | SpecFloat.S754_finite negative m e =>
      let magnitude := (if 0 <=? e then Zpos m * 2 ^ e else Zpos m / 2 ^ (- e))%Z in
      Some (if negative then - magnitude else magnitude)%Z
  | SpecFloat.S754_infinity _ | SpecFloat.S754_nan => None
  end.

(** [new Date(x)] for a number [x]. *)
Definition dateOfNumber (zone : Z) (x : float) : JsDate :=
  match truncate x with
  | Some t => localDay zone t
  | None => InvalidDate
  end.

Definition asciiLower (c : ascii) : ascii :=
  let n := N_of_ascii c in
  if ((65 <=? n) && (n <=? 90))%N then ascii_of_N (n + 32) else c.

Fixpoint lowerAscii (s : string) : string :=
  match s with
  | EmptyString => EmptyString
  | String c rest => String (asciiLower c) (lowerAscii rest)
  end.

(** Tab, line feed, vertical tab, form feed, carriage return, space. *)
Definition asciiSpace (c : ascii) : bool :=
  let n := N_of_ascii c in
  (((9 <=? n) && (n <=? 13)) || (n =? 32))%N.

Fixpoint dropSpaces (s : string) : string :=
  match s with
  | EmptyString => EmptyString
  | String c rest => if asciiSpace c then dropSpaces rest else s
  end.

Fixpoint dropTrailingSpaces (s : string) : string :=
  match s with
  | EmptyString => EmptyString
  | String c rest =>
      match dropTrailingSpaces rest with
      | EmptyString => if asciiSpace c then EmptyString else String c EmptyString
      | kept => String c kept
      end
  end.

(** The digits before and after the first dot of [s]. *)
Fixpoint splitAtDot (s : string) : string * option string :=
  match s with
  | EmptyString => (EmptyString, None)
  | String c rest =>
      if Ascii.eqb c "." then (EmptyString, Some rest)
      else let (whole, fraction) := splitAtDot rest in (String c whole, fraction)
  end.

(** An unsigned decimal literal of at most fifteen digits: the quotient of
    two numbers that are exact, rounded once. *)
Definition unsignedDecimal (s : string) : float :=
  let (whole, fraction) := splitAtDot s in
  let digits := String.append whole (default EmptyString fraction) in
  if (String.length digits =? 0)%nat || (15 <? String.length digits)%nat then nan
  else
    match digitsFrom digits 0%Z with
    | Some n =>
        (numberOfZ n / numberOfZ (10 ^ Z.of_nat (String.length (default EmptyString fraction))))%float
    | None => nan
    end.

(** [Number(s)]: the empty string and white space alone are 0. *)
Definition decimalNumber (s : string) : float :=
  match dropTrailingSpaces (dropSpaces s) with
  | EmptyString => 0%float
  | String c rest as trimmed =>
      if Ascii.eqb c "-" then (- unsignedDecimal rest)%float
      else if Ascii.eqb c "+" then unsignedDecimal rest
      else unsignedDecimal trimmed
  end.

Fixpoint digitsOfPositive (fuel : nat) (n : Z) (acc : string) : string :=
  match fuel with
  | O => acc
  | S fuel' =>
      let acc' := String (ascii_of_N (Z.to_N (48 + n mod 10))) acc in
      if (n <? 10)%Z then acc' else digitsOfPositive fuel' (n / 10)%Z acc'
  end.

(** [String(x)]: [NaN], the infinities, and the integers, in decimal
    digits. *)
Definition decimalString (x : float) : string :=
  match FloatOps.Prim2SF x with
  | SpecFloat.S754_nan => "NaN"
  | SpecFloat.S754_infinity negative => if negative then "-Infinity" else "Infinity"
  | SpecFloat.S754_zero _ => "0"
  | SpecFloat.S754_finite negative _ _ =>
      match truncate x with
      | Some n =>
          String.append (if negative then "-" else "")
                        (digitsOfPositive 400 (Z.abs n) EmptyString)
      | None => "NaN"
      end
  end.

(** [new Date(p)] for a primitive [p]: a string is parsed, anything else
    is taken as a number. *)
Definition dateOfPrimitive (zone : Z) (p : JsVal) : JsDate :=
  match p with
  | JStr s => isoDate zone s
  | JNum x => dateOfNumber zone x
  | JBool true => dateOfNumber zone 1
  | JBool false | JNull => dateOfNumber zone 0
  | JUndefined | JArr _ | JObj _ => InvalidDate
  end.

Definition testRuntime (zone : Z) (clock : Calendar) : Runtime :=
  {| now := clock;
     newDate := dateOfPrimitive zone;
     stringToNumber := decimalNumber;
     numberToString := decimalString;
     toLowerCase := lowerAscii |}.

(** ** [getVoiceCommands] *)

(** [VoiceCommandSchema].  [examples] and [synonyms] are kept optional, as
    the method guards them with [|| []]. *)
Record VoiceCommand : Type := mkVoiceCommand {
  vc_language : string;
  vc_triggers : list string;
  vc_examples : option (list string);
  vc_synonyms : option (list string);
  vc_responseTemplate : option string
}.

(** A service document: the paths modelled in [Service] and the further
    paths that the voice method, the save hook and the controllers read. *)
Record ServiceDocument : Type := mkDocument {
  doc : Service;
  shortName : string;
  status : string;
  voiceCommands : list VoiceCommand
}.

(** One entry of [commands] in the returned object. *)
Record VoiceCommandView : Type := mkVoiceView {
  vv_triggers : list string;
  vv_examples : list string;
  vv_synonyms : list string;
  vv_responseTemplate : option string
}.

(** The two shapes of object that [getVoiceCommands] returns: without
    commands in any usable language, or with the four properties
    [available], [language], [isFallback] and [commands]. *)
Inductive VoiceCommandsResult : Type :=
| NoVoiceCommands
| VoiceCommands (available : bool) (language : string) (isFallback : bool)
    (commands : list VoiceCommandView).

(** [cmd => ({triggers, examples: cmd.examples || [], synonyms:
    cmd.synonyms || [], responseTemplate})] *)
Definition viewOf (cmd : VoiceCommand) : VoiceCommandView :=
  mkVoiceView (vc_triggers cmd) (default [] (vc_examples cmd)) (default [] (vc_synonyms cmd))
              (vc_responseTemplate cmd).

(** [this.voiceCommands.filter(cmd => cmd.language === language)] *)
Definition commandsIn (this : ServiceDocument) (language : string) : list VoiceCommand :=
  List.filter (fun cmd => String.eqb (vc_language cmd) language) (voiceCommands this).

(** Nothing in the [try] block of the method throws on these paths. *)
Definition getVoiceCommands (this : ServiceDocument) (language : string) : VoiceCommandsResult :=
  let commands := commandsIn this language in
  if (length commands =? 0)%nat && negb (String.eqb language "en") then
    let englishCommands := commandsIn this "en" in
    if (length englishCommands =? 0)%nat then NoVoiceCommands
    else VoiceCommands true "en" true (map viewOf englishCommands)
  else VoiceCommands (0 <? length commands)%nat language false (map viewOf commands).

(** The [voiceEnabled] entry of the object built by [getServiceSummary]:
    [this.voiceCommands.some(cmd => cmd.language === language ||
    cmd.language === 'en')]. *)
Definition voiceEnabled (this : ServiceDocument) (language : string) : bool :=
  existsb (fun cmd => String.eqb (vc_language cmd) language || String.eqb (vc_language cmd) "en")
          (voiceCommands this).

(** ** The save hook: [shortName] *)

(** The first statement of [ServiceSchema.pre('save')]:
    [this.shortName = this.shortName.trim().replace(/\s+/g, '_').toLowerCase()].
    [trim] and [\s] share one set of white-space code units, the
    parameter [isSpace]. *)
Section ShortName.
Variable isSpace : ascii -> bool.
Variable rt : Runtime.

Fixpoint trimStart (s : string) : string :=
  match s with
  | EmptyString => EmptyString
  | String c rest => if isSpace c then trimStart rest else s
  end.

Fixpoint trimEnd (s : string) : string :=
  match s with
  | EmptyString => EmptyString
  | String c rest =>
      match trimEnd rest with
      | EmptyString => if isSpace c then EmptyString else String c EmptyString
      | kept => String c kept
      end
  end.

(** [s.trim()] *)
Definition trim (s : string) : string := trimEnd (trimStart s).

(** [s.replace(/\s+/g, '_')]: every maximal run of white space becomes one
    underscore; [inRun] tells that the previous code unit was white
    space. *)
Fixpoint underscoreRuns (inRun : bool) (s : string) : string :=
  match s with
  | EmptyString => EmptyString
  | String c rest =>
      if isSpace c
      then (if inRun then underscoreRuns true rest else String "_" (underscoreRuns true rest))
      else String c (underscoreRuns false rest)
  end.

Definition normalizeShortName (shortName : string) : string :=
  toLowerCase rt (underscoreRuns false (trim shortName)).

(** The hook's effect on the paths of [ServiceDocument]. *)
Definition preSave (this : ServiceDocument) : ServiceDocument :=
  mkDocument (doc this) (normalizeShortName (shortName this)) (status this)
             (voiceCommands this).
End ShortName.

(** ** The controllers of the three rules-engine endpoints *)

(** What a controller sends: the status code with the JSON body reduced to
    the parts that vary.  The 200 bodies repeat [eligible], [valid] and
    [message] of [data] at the top level. *)
Inductive Response (D : Type) : Type :=
| Ok (serviceName : JsVal) (serviceShortName : string) (data : D)
| BadRequest (message : string)
| NotFound (message : string)
| ServerError (message : string).

Arguments Ok {D} serviceName serviceShortName data.
Arguments BadRequest {D} message.
Arguments NotFound {D} message.
Arguments ServerError {D} message.

Definition statusCode {D : Type} (r : Response D) : nat :=
  match r with
  | Ok _ _ _ => 200
  | BadRequest _ => 400
  | NotFound _ => 404
  | ServerError _ => 500
  end.

(** The [catch] block of a controller: whatever was thrown, a 500 with the
    controller's message. *)
Definition respond {D : Type} (body : Completion (Response D)) (failure : string) : Response D :=
  match body with
  | Normal r => r
  | Throw _ => ServerError failure
  end.

(** The awaited query [findById(id)] or [findOne({shortName:
    id.toLowerCase()})]: a document, [null], or a rejection. *)
Abbreviation Lookup := (Completion (option ServiceDocument)).

Section Controllers.
Variable rt : Runtime.

(** [exports.checkEligibility], with [req.body] and the outcome of the
    query. *)
Definition checkEligibilityController (reqBody : JsVal) (lookup : Lookup)
    : Response EligibilityResult :=
  respond
    (if negb (ToBoolean reqBody)
     then Normal (BadRequest "User data is required for eligibility check")
     else
       let* service := lookup in
       match service with
       | None => Normal (NotFound "Service not found")
       | Some s =>
           if negb (String.eqb (status s) "active")
           then Normal (BadRequest "This service is currently not active")
           else
             let* eligibilityResult := checkEligibility rt (doc s) reqBody in
             Normal (Ok (ofOptStr (mt_en (name (doc s)))) (shortName s) eligibilityResult)
       end)
    "Error checking eligibility".


(** [exports.validateDocuments]: [const { documents } = req.body] throws
    on a body that is [undefined] or [null]; the service status is not
    looked at. *)
Definition validateDocumentsController (reqBody : JsVal) (lookup : Lookup)
    : Response ValidationResult :=
  respond
    (let* documents := getProp reqBody "documents" in
     match documents with
     | JArr _ =>
         let* service := lookup in
         match service with
         | None => Normal (NotFound "Service not found")
         | Some s =>
             let* validationResult := validateDocuments rt (doc s) documents in
             Normal (Ok (ofOptStr (mt_en (name (doc s)))) (shortName s) validationResult)
         end
     | _ => Normal (BadRequest "Valid documents array is required")
     end)
    "Error validating documents".
End Controllers.

(** * The vocabulary of the statements *)

(** ** Multilingual resolution *)

(** A text that is there and not the empty string. *)
Definition presentNonEmpty (o : option string) (s : string) : Prop :=
  o = Some s /\ s <> "".

(** A text that is [undefined] or the empty string. *)
Definition absentOrEmpty (o : option string) : Prop :=
  o = None \/ o = Some "".

(** The twelve languages, and a field that carries a text of its own in
    each of them. *)
Definition allLanguages : list Lang :=
  [L_en; L_hi; L_bn; L_ta; L_te; L_mr; L_gu; L_kn; L_ml; L_pa; L_or; L_as].

Definition greeting : MultilingualText :=
  mkText (Some "Hello") (Some "Namaste") (Some "Nomoshkar") (Some "Vanakkam")
         (Some "Namaskaram") (Some "Namaskar") (Some "Kem cho") (Some "Namaskara")
         (Some "Namaskaaram") (Some "Sat sri akal") (Some "Namaskar ji") (Some "Nomoskar").

(** A field with an English and a Hindi text, whose Tamil text is the
    empty string. *)
Definition tamilLeftEmpty : MultilingualText :=
  mkText (Some "Hello") (Some "Namaste") None (Some "") None None None None None None None None.

(** ** Values that can be compared *)

(** A value that the relational operators, a template literal and the
    [Date] constructor can turn into a primitive: not an object with an own
    property [toString], which in plain data is no function, and not an
    array that holds such an object at any depth. *)
Fixpoint convertible (v : JsVal) : bool :=
  match v with
  | JObj props =>
      match props !! "toString" with
      | Some _ => false
      | None => true
      end
  | JArr elems => forallb convertible elems
  | _ => true
  end.

(** [profile.key] on an object profile. *)
Definition field (profile : Profile) (key : string) : JsVal :=
  default JUndefined (profile !! key).

(** [v.key] for a value [v] that is neither [undefined] nor [null]. *)
Definition propertyOf (v : JsVal) (key : string) : JsVal :=
  match v with
  | JObj props => field props key
  | _ => JUndefined
  end.

(** [v ? v.key : undefined] *)
Definition within (v : JsVal) (key : string) : JsVal :=
  if ToBoolean v then propertyOf v key else JUndefined.

(** ** Eligibility *)

(** What one criterion contributes to [results]. *)
Inductive Outcome : Type :=
| Missing (m : MissingDatum)
| Failed (f : FailedCriterion)
| Passed.

Definition isFailed (o : Outcome) : bool :=
  match o with Failed _ => true | _ => false end.

Definition isMissing (o : Outcome) : bool :=
  match o with Missing _ => true | _ => false end.

Definition failedOf (o : Outcome) : option FailedCriterion :=
  match o with Failed f => Some f | _ => None end.

Definition missingOf (o : Outcome) : option MissingDatum :=
  match o with Missing m => Some m | _ => None end.

Definition record (results : Results) (o : Outcome) : Results :=
  match o with
  | Missing m => pushMissing m results
  | Failed f => pushFailed f results
  | Passed => results
  end.

Definition criteriaNameOf (criteria : EligibilityCriteria) : string :=
  strOr (mt_en (ec_name criteria)) "Unnamed criterion".

(** The missing-data entry of a criterion: the [age] case names
    [dateOfBirth], every other case names the criteria type. *)
Definition missingEntryFor (criteria : EligibilityCriteria) : MissingDatum :=
  mkMissing (match criteriaType criteria with
             | CT_age => "dateOfBirth"
             | t => criteriaTypeName t
             end)
            (criteriaNameOf criteria).

(** Today's month and day come before the birth month and day: the
    birthday of this year is still ahead. *)
Definition monthDayPrecedes (today birth : Calendar) : Prop :=
  (getMonth today < getMonth birth)%Z \/
  (getMonth today = getMonth birth /\ (getDate today < getDate birth)%Z).

Section EligibilityVocabulary.
Variable rt : Runtime.

(** The user data that goes with a criteria type: the property the
    criterion is about; for [age] it is the date of birth. *)
Definition inputOf (criteria : EligibilityCriteria) (userData : JsVal) : JsVal :=
  match criteriaType criteria with
  | CT_age => propertyOf userData "dateOfBirth"
  | CT_income => propertyOf userData "income"
  | CT_residence => within (propertyOf userData "address") "state"
  | CT_education => within (propertyOf userData "education") "level"
  | CT_gender => propertyOf userData "gender"
  | CT_marital => propertyOf userData "maritalStatus"
  | CT_occupation => propertyOf userData "occupation"
  | CT_category => propertyOf userData "category"
  | CT_disability => propertyOf userData "hasDisability"
  | CT_other => propertyOf userData (toLowerCase rt "other")
  end.

(** The content of the variable [userValue] when the first [switch] is
    over: the age for an [age] criterion with a truthy date of birth, the
    input for every other type; it is still [undefined] when the callback
    returned from inside the [age] case. *)
Definition userValueOf (criteria : EligibilityCriteria) (userData : JsVal) : JsVal :=
  match criteriaType criteria with
  | CT_age =>
      if ToBoolean (inputOf criteria userData)
      then JNum (ageOn (now rt) (newDate rt (primitiveOf rt (inputOf criteria userData))))
      else JUndefined
  | _ => inputOf criteria userData
  end.

(** The criterion can be evaluated on the user data: the input and the two
    bounds can be turned into primitives. *)
Definition evaluable (criteria : EligibilityCriteria) (userData : JsVal) : bool :=
  convertible (inputOf criteria userData) &&
  convertible (minValue criteria) && convertible (maxValue criteria).

(** The requirement shown in a failed entry. *)
Definition requiredShown (criteria : EligibilityCriteria) : RequiredText :=
  match validationMethod criteria with
  | VM_range => Between (minValue criteria) (maxValue criteria)
  | VM_list => OneOf (allowedValues criteria)
  | m => MethodColon m (if ToBoolean (minValue criteria) then minValue criteria
                        else if ToBoolean (maxValue criteria) then maxValue criteria
                        else JStr "Custom validation")
  end.

(** The outcome of one criterion: missing when there is no user value,
    else passed or failed as the validation method says. *)
Definition outcomeOf (userData : JsVal) (criteria : EligibilityCriteria) : Outcome :=
  let userValue := userValueOf criteria userData in
  match userValue with
  | JUndefined => Missing (missingEntryFor criteria)
  | _ =>
      if criteriaResult rt criteria userValue then Passed
      else Failed (mkFailed (criteriaType criteria) (criteriaNameOf criteria) userValue
                            (requiredShown criteria))
  end.

(** Some criterion of the list fails on the user data. *)
Definition someFails (criteria : list EligibilityCriteria) (userData : JsVal) : bool :=
  existsb (fun c => isFailed (outcomeOf userData c)) criteria.

(** Some criterion of the list lacks its user data. *)
Definition someMissing (criteria : list EligibilityCriteria) (userData : JsVal) : bool :=
  existsb (fun c => isMissing (outcomeOf userData c)) criteria.

(** The criteria whose [userValue] is [undefined]. *)
Definition undefinedValued (criteria : list EligibilityCriteria) (userData : JsVal)
    : list EligibilityCriteria :=
  List.filter (fun c => match userValueOf c userData with
                        | JUndefined => true
                        | _ => false
                        end) criteria.
End EligibilityVocabulary.

(** ** Fixtures of the examples *)

Definition criterion (t : CriteriaType) (m : ValidationMethod) (lo hi : JsVal)
    : EligibilityCriteria :=
  mkCriteria t (english (criteriaTypeName t)) None lo hi [] m.

Definition serviceWith (criteria : list EligibilityCriteria) (feeList : list Fee)
    (reqs : list Requirement) : Service :=
  mkService (english "Service") (english "A citizen service") reqs criteria feeList.

Definition profileOf (props : list (string * JsVal)) : Profile := list_to_map props.

(** A server on UTC, with the clock on the eve, on the day and on the
    morrow of 15 June 2024. *)
Definition rtEve : Runtime := testRuntime 0 (mkCalendar 2024 5 14).
Definition rtDay : Runtime := testRuntime 0 (mkCalendar 2024 5 15).
Definition rtMorrow : Runtime := testRuntime 0 (mkCalendar 2024 5 16).

(** A server five hours west of UTC and one five and a half hours east of
    it, with the clock on 14 June 2024. *)
Definition rtWestEve : Runtime := testRuntime (-300) (mkCalendar 2024 5 14).
Definition rtEastEve : Runtime := testRuntime 330 (mkCalendar 2024 5 14).

(** An object whose own property [toString] is the number 1. *)
Definition unprintable : JsVal := JObj (list_to_map [("toString", JNum 1)]).

Definition bornMidJune2000 : Profile := profileOf [("dateOfBirth", JStr "2000-06-15")].

Definition ageBetween (lo hi : JsVal) : EligibilityCriteria := criterion CT_age VM_range lo hi.

Definition oneOf (t : CriteriaType) (allowed : list string) : EligibilityCriteria :=
  mkCriteria t (english (criteriaTypeName t)) None JUndefined JUndefined allowed VM_list.

(** A scholarship with one criterion for each validation method: aged 18
    to 60, income up to 300000, education level at least 10, resident of
    Kerala or Goa, female, with a disability, and a custom rule. *)
Definition scholarship : Service :=
  serviceWith
    [ageBetween (JNum 18) (JNum 60);
     criterion CT_income VM_maximum JNull (JNum 300000);
     criterion CT_education VM_minimum (JNum 10) JNull;
     oneOf CT_residence ["Kerala"; "Goa"];
     criterion CT_gender VM_exact (JStr "female") JNull;
     criterion CT_disability VM_boolean JNull JNull;
     criterion CT_other VM_custom JNull JNull]
    [] [].


(** An applicant who fails the first six criteria and says nothing under
    [other]. *)
Definition outsider : Profile :=
  profileOf [("dateOfBirth", JStr "2010-01-01"); ("income", JNum 400000);
             ("education", JObj (profileOf [("level", JNum 8)]));
             ("address", JObj (profileOf [("state", JStr "Punjab")]));
             ("gender", JStr "male"); ("hasDisability", JBool false)].

(** ** Fees *)

(** Two profiles that carry the same value, or both nothing, under every
    property name other than [dateOfBirth]. *)
Definition agreeExceptDateOfBirth (p q : Profile) : Prop :=
  forall key : string, key <> "dateOfBirth" -> p !! key = q !! key.

Section FeeVocabulary.
Variable rt : Runtime.

(** The table of waiver categories. *)
Definition categoryApplies (profile : Profile) (category : string) : bool :=
  if String.eqb category "bpl" then ToBoolean (field profile "isBPL")
  else if String.eqb category "senior"
  then js_ge rt (primitiveOf rt (field profile "age")) (JNum 60)
  else if String.eqb category "student" then ToBoolean (field profile "isStudent")
  else if String.eqb category "disability" then ToBoolean (field profile "hasDisability")
  else if String.eqb category "female" then strictEquals (field profile "gender") (JStr "female")
  else false.

(** The fee rule declares a waiver with a non-empty category set, one of
    whose categories applies to the profile. *)
Definition waiverApplies (profile : Profile) (fee : Fee) : bool :=
  match waiver fee with
  | Some w => existsb (categoryApplies profile) (w_eligibility w)
  | None => false
  end.

(** The income adjustment in the words of the specification, for an
    income that is there. *)
Definition incomeScaled (income : JsVal) (feeAmount : float) : float :=
  if js_lt rt (primitiveOf rt income) (JNum 300000) then (feeAmount * 0.5)%float
  else if js_gt rt (primitiveOf rt income) (JNum 1000000) then (feeAmount * 1.5)%float
  else feeAmount.
End FeeVocabulary.

(** ** Fixtures of the fee examples *)

Definition incomeFactor : VariableFactor := mkFactor (Some "income") None.

(** Amount 1000, scaled by income, waived for seniors; the waiver comes
    with or without a description. *)
Definition seniorWaivedFee (waiverDescription : option MultilingualText) : Fee :=
  mkFee "application" (english "Application fee") None 1000 (Some "INR") [incomeFactor]
        (Some (mkWaiver ["senior"] waiverDescription)).

(** The [waiver] of a stored rule that declares none: the nested path is
    always there, with an empty array of categories. *)
Definition noWaiver : option Waiver := Some (mkWaiver [] None).

(** Amount 1000, scaled by income, no waiver declared. *)
Definition incomeScaledFee : Fee :=
  mkFee "processing" (english "Processing fee") None 1000 (Some "INR") [incomeFactor]
        noWaiver.

Definition withIncome (income : JsVal) : Profile := profileOf [("income", income)].

Definition richSenior : Profile := profileOf [("age", JNum 65); ("income", JNum 1500000)].

(** ** Documents *)

(** [document.type], [document.file] and [document.sizeKB] of a submitted
    object. *)
Definition typeOf (document : JsVal) : JsVal := propertyOf document "type".

Definition sizeOf (document : JsVal) : JsVal := propertyOf document "sizeKB".

Definition fileOf (document : JsVal) : string :=
  match propertyOf document "file" with
  | JStr s => s
  | _ => ""
  end.

(** A submitted document of the shape [{type, file, sizeKB}]: an object
    whose [file] is a string and whose [sizeKB] can be compared. *)
Definition wellFormedDocument (document : JsVal) : Prop :=
  exists (props : Profile) (file : string),
    document = JObj props /\ props !! "file" = Some (JStr file) /\
    convertible (field props "sizeKB") = true.

(** The document is of the given type. *)
Definition hasType (document : JsVal) (type : string) : bool :=
  match typeOf document with
  | JStr t => String.eqb t type
  | _ => false
  end.

(** The requirement a document is checked against: the first one of its
    type. *)
Fixpoint requirementFor (reqs : list Requirement) (document : JsVal) : option Requirement :=
  match reqs with
  | [] => None
  | r :: rest =>
      if hasType document (documentType r) then Some r else requirementFor rest document
  end.

(** A mandatory requirement for which no document of its type was
    submitted. *)
Definition missingRequirement (documents : list JsVal) (r : Requirement) : bool :=
  isMandatory r && negb (existsb (fun d => hasType d (documentType r)) documents).

Definition missingEntry (r : Requirement) : NamedDocument :=
  mkNamed (JStr (documentType r)) (ofOptStr (mt_en (req_name r))).

(** A string without a dot. *)
Fixpoint dotFree (s : string) : bool :=
  match s with
  | EmptyString => true
  | String c rest => negb (Ascii.eqb c ".") && dotFree rest
  end.

(** What follows the last dot of a file name; the whole name when it has
    no dot. *)
Fixpoint lastSegment (s : string) : string :=
  match s with
  | EmptyString => EmptyString
  | String c rest =>
      if dotFree rest then (if Ascii.eqb c "." then rest else s) else lastSegment rest
  end.

Section DocumentVocabulary.
Variable rt : Runtime.

(** The requirement lists file types and the extension of the file,
    lower-cased, is not among them. *)
Definition fileTypeMismatch (r : Requirement) (document : JsVal) : bool :=
  match allowedFileTypes r with
  | [] => false
  | allowed =>
      negb (existsb (String.eqb (toLowerCase rt (lastSegment (fileOf document)))) allowed)
  end.

(** The requirement has a size limit, other than 0, and the size of the
    document is greater. *)
Definition sizeExcess (r : Requirement) (document : JsVal) : bool :=
  match maxFileSizeKB r with
  | Some limit =>
      ToBoolean (JNum limit) && js_gt rt (primitiveOf rt (sizeOf document)) (JNum limit)
  | None => false
  end.

(** A document that has a requirement and breaks its file-type or size
    rule. *)
Definition rejected (reqs : list Requirement) (document : JsVal) : bool :=
  match requirementFor reqs document with
  | Some r => fileTypeMismatch r document || sizeExcess r document
  | None => false
  end.

(** What the second loop does with one well-formed document. *)
Definition fileDocument (reqs : list Requirement) (result : Validation) (document : JsVal)
    : Validation :=
  match requirementFor reqs document with
  | None =>
      mkValidation (valid result) (validDocuments result)
        (invalidDocuments result ++ [mkInvalid (typeOf document) NotRequiredForService])
        (missingMandatory result)
  | Some r =>
      if fileTypeMismatch r document then
        mkValidation false (validDocuments result)
          (invalidDocuments result ++
           [mkInvalid (typeOf document) (InvalidFileType (allowedFileTypes r))])
          (missingMandatory result)
      else if sizeExcess r document then
        mkValidation false (validDocuments result)
          (invalidDocuments result ++
           [mkInvalid (typeOf document) (FileTooLarge (ofOptNum (maxFileSizeKB r)))])
          (missingMandatory result)
      else
        mkValidation (valid result)
          (validDocuments result ++
           [mkNamed (typeOf document) (ofOptStr (mt_en (req_name r)))])
          (invalidDocuments result) (missingMandatory result)
  end.
End DocumentVocabulary.

(** What the first loop does with one requirement. *)
Definition noteMissing (documents : list JsVal) (result : Validation) (r : Requirement)
    : Validation :=
  if missingRequirement documents r
  then mkValidation false (validDocuments result) (invalidDocuments result)
         (missingMandatory result ++ [missingEntry r])
  else result.

(** ** Fixtures of the document examples *)

Definition aadhar : Requirement :=
  mkRequirement "aadhar" (english "Aadhar card") None true ["pdf"; "jpg"] (Some 500%float).

Definition photo : Requirement :=
  mkRequirement "photo" (english "Photograph") None false ["jpg"] (Some 200%float).

Definition documentOf (type file : string) (sizeKB : float) : JsVal :=
  JObj (profileOf [("type", JStr type); ("file", JStr file); ("sizeKB", JNum sizeKB)]).


(** ** Further vocabulary *)

(** The property names [checkEligibility] reads from the profile, and the
    ones [calculateFees] reads. *)
Definition eligibilityKeys : list string :=
  ["dateOfBirth"; "income"; "address"; "education"; "gender"; "maritalStatus";
   "occupation"; "category"; "hasDisability"; "other"].

Definition feeKeys : list string :=
  ["isBPL"; "age"; "isStudent"; "hasDisability"; "gender"; "income"].

(** Two profiles that carry the same value, or both nothing, under every
    name of the list. *)
Definition agreeOn (keys : list string) (p q : Profile) : Prop :=
  forall key : string, In key keys -> p !! key = q !! key.

(** The sum of a list of amounts, added left to right from 0 as a running
    total is. *)
Definition sumAmounts (amounts : list float) : float :=
  fold_left (fun sum a => (sum + a)%float) amounts 0%float.

(** A fee rule that can only cost its base amount: it declares no waiver
    category and none of its variable factors is named ["income"] or
    ["age"]. *)
Definition plainFee (fee : Fee) : Prop :=
  (forall w, waiver fee = Some w -> w_eligibility w = []) /\
  (forall f, In f (variableFactors fee) ->
             factor f <> Some "income" /\ factor f <> Some "age").

Section FurtherFeeVocabulary.
Variable rt : Runtime.

(** The age adjustment, for an age that is there. *)
Definition ageScaled (age : JsVal) (feeAmount : float) : float :=
  if js_lt rt (primitiveOf rt age) (JNum 18) then (feeAmount * 0.5)%float
  else if js_ge rt (primitiveOf rt age) (JNum 60) then (feeAmount * 0.75)%float
  else feeAmount.
End FurtherFeeVocabulary.

(** A string with a white-space code unit in it. *)
Fixpoint hasSpace (isSpace : ascii -> bool) (s : string) : bool :=
  match s with
  | EmptyString => false
  | String c rest => isSpace c || hasSpace isSpace rest
  end.

(** ** Further fixtures *)

Definition ageFactor : VariableFactor := mkFactor (Some "age") None.

Definition plainCertificateFee : Fee :=
  mkFee "certification" (english "Certificate fee") None 250 (Some "INR")
        [mkFactor (Some "urgency") None] noWaiver.

Definition incomeAndAgeFee : Fee :=
  mkFee "processing" (english "Processing fee") None 1000 (Some "INR")
        [incomeFactor; ageFactor] noWaiver.

Definition poorSenior : Profile := profileOf [("age", JNum 65); ("income", JNum 250000)].

Definition command (language trigger : string) : VoiceCommand :=
  mkVoiceCommand language [trigger] None None None.

Definition pensionDocument (commands : list VoiceCommand) (serviceStatus : string)
    : ServiceDocument :=
  mkDocument
    (serviceWith [ageBetween (JNum 60) JNull] [incomeScaledFee] [aadhar; photo])
    "old_age_pension" serviceStatus commands.



(** What the fee callback does with a rule that is billed at its base
    amount. *)
Definition billInFull (result : Totals) (fee : Fee) : Totals :=
  mkTotals (t_totalAmount result + amount fee)%float
    (t_breakdown result ++
     [mkBreakdown (feeType fee) (ofOptStr (mt_en (fee_name fee))) (amount fee)
        (match fee_description fee with
         | Some d => ofOptStr (mt_en d)
         | None => JNull
         end)])
    (t_waivers result).

(** The [available] property of what [getVoiceCommands] returns. *)
Definition availableOf (r : VoiceCommandsResult) : bool :=
  match r with
  | NoVoiceCommands => false
  | VoiceCommands available _ _ _ => available
  end.

(** A text whose English version is there and not empty. *)
Definition hasEnglish (text : MultilingualText) : Prop :=
  exists s, presentNonEmpty (mt_en text) s.

(** A resolved text that is there and not empty. *)
Definition resolved (o : option string) : Prop :=
  exists t, o = Some t /\ t <> "".


(** * Properties *)

(** ** Completions and loops *)


(** A truthy value is neither [undefined] nor [null]: reading a property
    of it returns. *)
Lemma getProp_truthy (v : JsVal) (key : string) :
  ToBoolean v = true -> exists w, getProp v key = Normal w.
Proof.
  destruct v; simpl; intros H; try discriminate; eauto.
Qed.

Lemma forEach_ext {A S : Type} (f g : S -> A -> Completion S) (l : list A) (s : S) :
  (forall s' a, In a l -> f s' a = g s' a) -> forEach f l s = forEach g l s.
Proof.
  revert s; induction l as [|a l IH]; intros s H; simpl; [reflexivity|].
  rewrite (H s a) by (left; reflexivity).
  destruct (g s a); simpl; [|reflexivity].
  apply IH; intros s' b Hb; apply H; right; exact Hb.
Qed.

Lemma some_ext {A : Type} (p q : A -> Completion bool) (l : list A) :
  (forall a, In a l -> p a = q a) -> some p l = some q l.
Proof.
  induction l as [|a l IH]; intros H; simpl; [reflexivity|].
  rewrite (H a) by (left; reflexivity).
  destruct (q a) as [[|]|]; simpl; try reflexivity.
  apply IH; intros b Hb; apply H; right; exact Hb.
Qed.

(** A loop whose callback returns on every element returns, and its final
    state is the plain left fold. *)
Lemma forEach_pure {A S : Type} (f : S -> A -> Completion S) (g : S -> A -> S)
    (l : list A) (s : S) :
  (forall s' a, In a l -> f s' a = Normal (g s' a)) ->
  forEach f l s = Normal (fold_left g l s).
Proof.
  revert s; induction l as [|a l IH]; intros s H; simpl; [reflexivity|].
  rewrite (H s a) by (left; reflexivity); simpl.
  apply IH; intros s' b Hb; apply H; right; exact Hb.
Qed.

(** [some] over predicates that return is [existsb]. *)
Lemma some_pure {A : Type} (p : A -> Completion bool) (q : A -> bool) (l : list A) :
  (forall a, In a l -> p a = Normal (q a)) -> some p l = Normal (existsb q l).
Proof.
  induction l as [|a l IH]; intros H; simpl; [reflexivity|].
  rewrite (H a) by (left; reflexivity); simpl.
  destruct (q a); simpl; [reflexivity|].
  apply IH; intros b Hb; apply H; right; exact Hb.
Qed.

Lemma existsb_pointwise {A : Type} (p q : A -> bool) (l : list A) :
  (forall a, p a = q a) -> existsb p l = existsb q l.
Proof.
  intros H; induction l as [|a l IH]; simpl; [reflexivity|].
  rewrite H, IH; reflexivity.
Qed.

(** ** Conversion to primitives *)

Section ConversionFacts.
Variable rt : Runtime.

(** A convertible value has a string form. *)
Lemma ToString_convertible : forall v, convertible v = true -> exists s, ToString rt v = Normal s.
Proof.
  fix IH 1. intros [| |[|]|x|s|elems|props]; simpl; intros Hc;
    try (clear IH; eexists; reflexivity).
  - revert elems Hc. fix IHl 1. intros [|e rest]; simpl; intros Hc;
      [clear IH IHl; eexists; reflexivity|].
    apply andb_true_iff in Hc. destruct Hc as [He Hrest].
    assert (Hs : exists s, match e with
                           | JUndefined | JNull => Normal ""
                           | _ => ToString rt e
                           end = Normal s).
    { destruct (IH e He) as [s Hs]. clear IH IHl.
      destruct e; try (exists s; exact Hs); eexists; reflexivity. }
    destruct (IHl rest Hrest) as [t Ht]. clear IH IHl.
    destruct Hs as [s ->]. simpl.
    destruct rest as [|e' rest']; [eexists; reflexivity|].
    rewrite Ht. simpl. eexists; reflexivity.
  - clear IH. destruct (props !! "toString"); [discriminate | eexists; reflexivity].
Qed.

Lemma ToPrimitive_convertible (v : JsVal) :
  convertible v = true -> ToPrimitive rt v = Normal (primitiveOf rt v).
Proof.
  intros Hc. unfold primitiveOf.
  assert (H : exists p, ToPrimitive rt v = Normal p).
  { destruct (ToString_convertible v Hc) as [s Hs].
    destruct v; try (eexists; reflexivity);
      unfold ToPrimitive; rewrite Hs; eexists; reflexivity. }
  destruct H as [p ->]. reflexivity.
Qed.

(** A comparison of two convertible values returns. *)
Lemma compareWith_convertible (op : JsVal -> JsVal -> bool) (x y : JsVal) :
  convertible x = true -> convertible y = true ->
  compareWith rt op x y = Normal (op (primitiveOf rt x) (primitiveOf rt y)).
Proof.
  intros Hx Hy. unfold compareWith.
  rewrite (ToPrimitive_convertible x Hx), (ToPrimitive_convertible y Hy). reflexivity.
Qed.

Lemma includes_convertible (strings : list string) (v : JsVal) :
  convertible v = true ->
  includes rt strings v = Normal (existsb (looseEqualsString rt (primitiveOf rt v)) strings).
Proof.
  intros Hc. unfold includes.
  destruct (isObjectId v) eqn:Eo.
  - destruct v; try discriminate.
    destruct (ToString_convertible _ Hc) as [s Hs].
    assert (Hp : primitiveOf rt (JObj props) = JStr s).
    { unfold primitiveOf, ToPrimitive. rewrite Hs. reflexivity. }
    rewrite Hs, Hp. simpl. apply some_pure. intros a _. reflexivity.
  - simpl. apply some_pure. intros a _.
    rewrite (ToPrimitive_convertible v Hc). reflexivity.
Qed.
End ConversionFacts.

(** An object with an own [toString] cannot be compared, whatever the
    runtime. *)
Example unprintable_not_convertible (rt : Runtime) :
  convertible unprintable = false /\
  ToPrimitive rt unprintable = Throw TypeError /\
  greaterOrEqual rt unprintable (JNum 10) = Throw TypeError /\
  convertible (JArr [JNum 1; JObj ∅; JArr [JNull]]) = true /\
  convertible (JArr [JNum 1; JArr [unprintable]]) = false.
Proof. repeat split; vm_compute; reflexivity. Qed.

(** ** Multilingual resolution *)

Lemma firstTruthy_present (a b : option string) (s : string) :
  presentNonEmpty a s -> firstTruthy a b = Some s.
Proof.
  intros [-> Hs]; simpl.
  destruct (String.eqb_spec s ""); [contradiction | reflexivity].
Qed.

Lemma firstTruthy_absent (a b : option string) :
  absentOrEmpty a -> firstTruthy a b = b.
Proof. intros [-> | ->]; reflexivity. Qed.

(** C8: for every multilingual field and every language code,
    [getFallbackText] returns the text of the requested language when it is
    present and non-empty, else the English text when that is present and
    non-empty, else [null]; [{en: "Hello"}] asked for ["hi"] gives
    ["Hello"], and the empty field gives [null].  A field with a text of
    its own in each of the twelve languages answers each language with that
    text, and a text left empty counts as absent. *)
Theorem getFallbackText_resolution :
  (forall (language : Lang) (field : MultilingualText),
      (forall s, presentNonEmpty (textIn field language) s ->
                 getFallbackText language (Some field) = Some s) /\
      (absentOrEmpty (textIn field language) ->
       forall s, presentNonEmpty (mt_en field) s ->
                 getFallbackText language (Some field) = Some s) /\
      (absentOrEmpty (textIn field language) -> absentOrEmpty (mt_en field) ->
       getFallbackText language (Some field) = None)) /\
  getFallbackText L_hi (Some (english "Hello")) = Some "Hello" /\
  (forall language, getFallbackText language (Some emptyText) = None) /\
  map (fun language => getFallbackText language (Some greeting)) allLanguages
  = [Some "Hello"; Some "Namaste"; Some "Nomoshkar"; Some "Vanakkam"; Some "Namaskaram";
     Some "Namaskar"; Some "Kem cho"; Some "Namaskara"; Some "Namaskaaram";
     Some "Sat sri akal"; Some "Namaskar ji"; Some "Nomoskar"] /\
  getFallbackText L_hi (Some tamilLeftEmpty) = Some "Namaste" /\
  getFallbackText L_ta (Some tamilLeftEmpty) = Some "Hello" /\
  getFallbackText L_bn (Some tamilLeftEmpty) = Some "Hello".
Proof.
  split; [|repeat split; try reflexivity].
  - intros language field; unfold getFallbackText; repeat split.
    + intros s Hs; apply firstTruthy_present; exact Hs.
    + intros Hl s Hs; rewrite (firstTruthy_absent _ _ Hl).
      apply firstTruthy_present; exact Hs.
    + intros Hl He; rewrite (firstTruthy_absent _ _ Hl).
      apply firstTruthy_absent; exact He.
  - intros []; reflexivity.
Qed.

Lemma getFallbackText_resolution_witness :
  presentNonEmpty (textIn greeting L_hi) "Namaste" /\
  getFallbackText L_hi (Some greeting) = Some "Namaste".
Proof.
  assert (Hp : presentNonEmpty (textIn greeting L_hi) "Namaste")
    by (split; [reflexivity | discriminate]).
  split; [exact Hp|].
  exact (proj1 (proj1 getFallbackText_resolution L_hi greeting) "Namaste" Hp).
Defined.

(** The two read projections resolve the service name the same way, with
    the English text as the fallback. *)
Lemma service_name_fallback (this : Service) (language : Lang) (s : string) :
  absentOrEmpty (textIn (name this) language) -> presentNonEmpty (mt_en (name this)) s ->
  sd_name (getDetailsInLanguage this language) = Some s /\
  ss_name (getServiceSummary this language) = Some s.
Proof.
  intros Hl Hs; unfold getDetailsInLanguage, getServiceSummary, getFallbackText; simpl.
  rewrite (firstTruthy_absent _ _ Hl), (firstTruthy_present _ _ s Hs).
  split; reflexivity.
Qed.

(** ** Eligibility *)

(** A value other than [undefined] and [null] lets every property be
    read. *)
Lemma getProp_propertyOf (v : JsVal) (key : string) :
  v <> JUndefined -> v <> JNull -> getProp v key = Normal (propertyOf v key).
Proof. intros H1 H2; destruct v; try reflexivity; contradiction. Qed.

Lemma truthy_not_nullish (v : JsVal) :
  ToBoolean v = true -> v <> JUndefined /\ v <> JNull.
Proof. destruct v; simpl; intros H; split; discriminate. Qed.

Lemma getProp_within (v : JsVal) (key : string) :
  (if ToBoolean v then let* w := getProp v key in Normal (UserValue w)
   else Normal (UserValue JUndefined))
  = Normal (UserValue (within v key)).
Proof.
  unfold within. destruct (ToBoolean v) eqn:E; [|reflexivity].
  destruct (truthy_not_nullish v E) as [H1 H2].
  rewrite (getProp_propertyOf v key H1 H2). reflexivity.
Qed.

Section EligibilityFacts.
Variable rt : Runtime.

(** The first [switch] on user data that can be read. *)
Lemma resolveUserValue_readable (criteria : EligibilityCriteria) (n : string)
    (userData : JsVal) :
  userData <> JUndefined -> userData <> JNull ->
  convertible (inputOf rt criteria userData) = true ->
  resolveUserValue rt criteria n userData
  = Normal (match criteriaType criteria with
            | CT_age =>
                if ToBoolean (inputOf rt criteria userData)
                then UserValue (userValueOf rt criteria userData)
                else ReturnedEarly (mkMissing "dateOfBirth" n)
            | _ => UserValue (userValueOf rt criteria userData)
            end).
Proof.
  intros H1 H2. unfold resolveUserValue, userValueOf, inputOf.
  destruct (criteriaType criteria); intros Hc;
    rewrite ?(getProp_propertyOf userData _ H1 H2); simpl;
    rewrite ?getProp_within; try reflexivity.
  destruct (ToBoolean (propertyOf userData "dateOfBirth")); simpl; [|reflexivity].
  rewrite (ToPrimitive_convertible rt _ Hc). reflexivity.
Qed.

(** The second [switch] on values that can be compared. *)
Lemma evaluateCriterion_convertible (criteria : EligibilityCriteria) (userValue : JsVal) :
  convertible userValue = true ->
  convertible (minValue criteria) = true ->
  convertible (maxValue criteria) = true ->
  evaluateCriterion rt criteria userValue = Normal (criteriaResult rt criteria userValue).
Proof.
  intros Hu Hlo Hhi. unfold evaluateCriterion, criteriaResult.
  unfold greaterOrEqual, lessOrEqual.
  destruct (validationMethod criteria); try reflexivity;
    rewrite ?(compareWith_convertible rt _ _ _ Hu Hlo),
            ?(compareWith_convertible rt _ _ _ Hu Hhi);
    try reflexivity.
  - destruct (strictEquals (minValue criteria) JNull); simpl.
    + destruct (strictEquals (maxValue criteria) JNull); reflexivity.
    + destruct (js_ge rt _ _); simpl; [|reflexivity].
      destruct (strictEquals (maxValue criteria) JNull); reflexivity.
  - apply includes_convertible; exact Hu.
Qed.

Lemma requiredText_convertible (criteria : EligibilityCriteria) :
  convertible (minValue criteria) = true ->
  convertible (maxValue criteria) = true ->
  requiredText rt criteria = Normal (requiredShown criteria).
Proof.
  intros Hlo Hhi. unfold requiredText, requiredShown.
  assert (Hshown : shownBound criteria
                   = if ToBoolean (minValue criteria) then minValue criteria
                     else if ToBoolean (maxValue criteria) then maxValue criteria
                     else JStr "Custom validation") by reflexivity.
  assert (Hs : exists s, ToString rt (shownBound criteria) = Normal s).
  { apply ToString_convertible. rewrite Hshown.
    destruct (ToBoolean (minValue criteria)); [exact Hlo|].
    destruct (ToBoolean (maxValue criteria)); [exact Hhi | reflexivity]. }
  destruct Hs as [s Hs].
  destruct (ToString_convertible rt _ Hlo) as [slo Hslo].
  destruct (ToString_convertible rt _ Hhi) as [shi Hshi].
  destruct (validationMethod criteria); rewrite ?Hslo, ?Hshi, ?Hs; simpl;
    rewrite ?Hshown; reflexivity.
Qed.

Lemma userValueOf_convertible (criteria : EligibilityCriteria) (userData : JsVal) :
  convertible (inputOf rt criteria userData) = true ->
  convertible (userValueOf rt criteria userData) = true.
Proof.
  unfold userValueOf. destruct (criteriaType criteria); auto.
  destruct (ToBoolean _); reflexivity.
Qed.

(** The callback on a criterion that can be evaluated: it returns, and
    records the outcome of the criterion. *)
Lemma checkCriterion_evaluable (userData : JsVal) (results : Results)
    (criteria : EligibilityCriteria) :
  userData <> JUndefined -> userData <> JNull ->
  evaluable rt criteria userData = true ->
  checkCriterion rt userData results criteria
  = Normal (record results (outcomeOf rt userData criteria)).
Proof.
  intros H1 H2 He. unfold evaluable in He.
  apply andb_true_iff in He. destruct He as [He Hhi].
  apply andb_true_iff in He. destruct He as [Hin Hlo].
  pose proof (userValueOf_convertible criteria userData Hin) as Hu.
  unfold checkCriterion.
  rewrite (resolveUserValue_readable criteria _ userData H1 H2 Hin).
  fold (criteriaNameOf criteria). unfold outcomeOf. simpl.
  assert (Hvalue : forall v : JsVal,
             convertible v = true ->
             (if strictEquals v JUndefined
              then Normal (pushMissing
                             (mkMissing (criteriaTypeName (criteriaType criteria))
                                        (criteriaNameOf criteria)) results)
              else
                let* passed := evaluateCriterion rt criteria v in
                if negb passed
                then
                  let* required := requiredText rt criteria in
                  Normal (pushFailed
                            (mkFailed (criteriaType criteria) (criteriaNameOf criteria) v
                                      required) results)
                else Normal results)
             = Normal (record results
                         match v with
                         | JUndefined =>
                             Missing (mkMissing (criteriaTypeName (criteriaType criteria))
                                                (criteriaNameOf criteria))
                         | _ =>
                             if criteriaResult rt criteria v then Passed
                             else Failed (mkFailed (criteriaType criteria)
                                            (criteriaNameOf criteria) v
                                            (requiredShown criteria))
                         end)).
  { intros v Hv.
    rewrite (evaluateCriterion_convertible criteria v Hv Hlo Hhi),
      (requiredText_convertible criteria Hlo Hhi).
    destruct v; simpl; try reflexivity;
      destruct (criteriaResult rt criteria _); reflexivity. }
  unfold missingEntryFor.
  destruct (criteriaType criteria) eqn:Ht;
    try (rewrite (Hvalue _ Hu); unfold userValueOf; rewrite Ht;
         destruct (inputOf rt criteria userData); reflexivity).
  unfold userValueOf in *. rewrite Ht in *.
  destruct (ToBoolean (inputOf rt criteria userData)); [|reflexivity].
  rewrite (Hvalue _ Hu). reflexivity.
Qed.

(** The entries the loop leaves behind, in the order of the criteria. *)
Lemma fold_record (outcomes : list Outcome) (results : Results) :
  fold_left record outcomes results
  = mkResults (r_failedCriteria results ++ omap failedOf outcomes)
              (r_missingData results ++ omap missingOf outcomes).
Proof.
  revert results; induction outcomes as [|o os IH]; intros [fs ms]; simpl.
  - rewrite !app_nil_r; reflexivity.
  - rewrite IH. destruct o; simpl; rewrite <- ?app_assoc; reflexivity.
Qed.

Lemma fold_left_mapped {A B S : Type} (f : S -> B -> S) (g : A -> B) (l : list A) (s : S) :
  fold_left (fun s' a => f s' (g a)) l s = fold_left f (map g l) s.
Proof. revert s; induction l as [|a l IH]; intros s; simpl; [reflexivity | apply IH]. Qed.

(** The whole method on criteria that can all be evaluated. *)
Lemma checkEligibility_evaluable (this : Service) (userData : JsVal) :
  eligibilityCriteria this <> [] ->
  userData <> JUndefined -> userData <> JNull ->
  (forall c, In c (eligibilityCriteria this) -> evaluable rt c userData = true) ->
  checkEligibility rt this userData
  = Normal (decide_eligibility
              (mkResults
                 (omap failedOf (map (outcomeOf rt userData) (eligibilityCriteria this)))
                 (omap missingOf (map (outcomeOf rt userData) (eligibilityCriteria this))))).
Proof.
  intros Hne H1 H2 He; unfold checkEligibility.
  destruct (eligibilityCriteria this) as [|c cs] eqn:E; [contradiction|].
  rewrite (forEach_pure _ (fun s a => record s (outcomeOf rt userData a)))
    by (intros s a Ha; apply checkCriterion_evaluable; auto).
  rewrite fold_left_mapped, fold_record; reflexivity.
Qed.

Lemma failed_nonempty (criteria : list EligibilityCriteria) (userData : JsVal) :
  (0 <? length (omap failedOf (map (outcomeOf rt userData) criteria)))%nat
  = someFails rt criteria userData.
Proof.
  unfold someFails; induction criteria as [|c cs IH]; [reflexivity|].
  simpl. destruct (outcomeOf rt userData c); simpl; auto.
Qed.

Lemma missing_nonempty (criteria : list EligibilityCriteria) (userData : JsVal) :
  (0 <? length (omap missingOf (map (outcomeOf rt userData) criteria)))%nat
  = someMissing rt criteria userData.
Proof.
  unfold someMissing; induction criteria as [|c cs IH]; [reflexivity|].
  simpl. destruct (outcomeOf rt userData c); simpl; auto.
Qed.

(** The aggregate decision, shared by the statements below. *)
Lemma eligible_decided (this : Service) (userData : JsVal) :
  eligibilityCriteria this <> [] ->
  userData <> JUndefined -> userData <> JNull ->
  (forall c, In c (eligibilityCriteria this) -> evaluable rt c userData = true) ->
  exists r,
    checkEligibility rt this userData = Normal r /\
    eligible r =
      (if someFails rt (eligibilityCriteria this) userData then JBool false
       else if someMissing rt (eligibilityCriteria this) userData then JStr "unknown"
       else JBool true) /\
    (eligible r = JStr "unknown" ->
     message r = "Missing required information to determine eligibility") /\
    failedCriteria r
    = Some (omap failedOf (map (outcomeOf rt userData) (eligibilityCriteria this))) /\
    missingData r
    = Some (omap missingOf (map (outcomeOf rt userData) (eligibilityCriteria this))).
Proof.
  intros Hne H1 H2 He. rewrite (checkEligibility_evaluable this userData Hne H1 H2 He).
  eexists; split; [reflexivity|].
  unfold decide_eligibility; cbn [r_failedCriteria r_missingData].
  rewrite failed_nonempty, missing_nonempty.
  destruct (someFails rt _ userData); [|destruct (someMissing rt _ userData)];
    cbn; repeat split; intros; try reflexivity; discriminate.
Qed.
End EligibilityFacts.



(** ** The age of an [age] criterion *)

Lemma userValueOf_age (rt : Runtime) (criteria : EligibilityCriteria) (profile : Profile)
    (dob : JsVal) :
  criteriaType criteria = CT_age ->
  profile !! "dateOfBirth" = Some dob ->
  ToBoolean dob = true ->
  userValueOf rt criteria (JObj profile)
  = JNum (ageOn (now rt) (newDate rt (primitiveOf rt dob))).
Proof.
  intros Ht Hd Hb. unfold userValueOf, inputOf.
  rewrite Ht. simpl. unfold field. rewrite Hd; simpl. rewrite Hb; reflexivity.
Qed.

Lemma ageOn_birthday_ahead (today birth : Calendar) :
  monthDayPrecedes today birth ->
  ageOn today (ValidDate birth)
  = numberOfZ (getFullYear today - getFullYear birth - 1).
Proof.
  intros H; unfold ageOn.
  replace ((getMonth today <? getMonth birth)%Z
           || ((getMonth today =? getMonth birth)%Z && (getDate today <? getDate birth)%Z))
    with true; [reflexivity|].
  symmetry; destruct H as [H | [H1 H2]].
  - apply Z.ltb_lt in H; rewrite H; reflexivity.
  - apply Z.eqb_eq in H1; apply Z.ltb_lt in H2; rewrite H1, H2.
    apply orb_true_r.
Qed.

Lemma ageOn_birthday_reached (today birth : Calendar) :
  ~ monthDayPrecedes today birth ->
  ageOn today (ValidDate birth) = numberOfZ (getFullYear today - getFullYear birth).
Proof.
  intros H; unfold ageOn.
  replace ((getMonth today <? getMonth birth)%Z
           || ((getMonth today =? getMonth birth)%Z && (getDate today <? getDate birth)%Z))
    with false; [rewrite Z.sub_0_r; reflexivity|].
  symmetry; apply orb_false_iff; split.
  - apply Z.ltb_ge. destruct (Z.lt_ge_cases (getMonth today) (getMonth birth)) as [Hlt|Hge];
      [exfalso; apply H; left; exact Hlt | exact Hge].
  - apply andb_false_iff.
    destruct (Z.eqb_spec (getMonth today) (getMonth birth)) as [Heq|Hne]; [right|left; reflexivity].
    apply Z.ltb_ge.
    destruct (Z.lt_ge_cases (getDate today) (getDate birth)) as [Hlt|Hge];
      [exfalso; apply H; right; split; assumption | exact Hge].
Qed.

(** Between the local calendar fields of the clock and those of the
    [Date] built from the date of birth, the age is the year difference,
    less one exactly when the month and day of the clock come before the
    month and day of that [Date]. *)
Lemma age_between_local_dates (rt : Runtime) (criteria : EligibilityCriteria)
    (profile : Profile) (dob : JsVal) (birth : Calendar) :
  criteriaType criteria = CT_age ->
  profile !! "dateOfBirth" = Some dob ->
  ToBoolean dob = true ->
  newDate rt (primitiveOf rt dob) = ValidDate birth ->
  (monthDayPrecedes (now rt) birth ->
   userValueOf rt criteria (JObj profile)
   = JNum (numberOfZ (getFullYear (now rt) - getFullYear birth - 1))) /\
  (~ monthDayPrecedes (now rt) birth ->
   userValueOf rt criteria (JObj profile)
   = JNum (numberOfZ (getFullYear (now rt) - getFullYear birth))).
Proof.
  intros Ht Hd Hb Hv.
  rewrite (userValueOf_age rt criteria profile dob Ht Hd Hb), Hv.
  split; intros H.
  - rewrite (ageOn_birthday_ahead _ _ H); reflexivity.
  - rewrite (ageOn_birthday_reached _ _ H); reflexivity.
Qed.

(** On a server that keeps UTC, and on one east of it, the three dated
    examples come out as the specification says. *)
Example age_on_utc_server :
  userValueOf rtEve (ageBetween (JNum 18) (JNum 60)) (JObj bornMidJune2000) = JNum 23 /\
  userValueOf rtDay (ageBetween (JNum 18) (JNum 60)) (JObj bornMidJune2000) = JNum 24 /\
  userValueOf rtMorrow (ageBetween (JNum 18) (JNum 60)) (JObj bornMidJune2000) = JNum 24 /\
  userValueOf rtEastEve (ageBetween (JNum 18) (JNum 60)) (JObj bornMidJune2000) = JNum 23.
Proof. repeat split; vm_compute; reflexivity. Qed.

(** C5, at the input where the code departs from it: a date of birth
    given as ["2000-06-15"] is read as midnight UTC, and the getters answer
    in the zone of the server.  Five hours west of UTC the [Date] falls on
    14 June 2000; on 14 June 2024, the eve of the birthday, the clock no
    longer comes before it, and the age is 24 where the calendar says 23: a
    maximum age of 23 is reported as not met. *)
Theorem age_one_day_early_west_of_utc :
  now rtWestEve = mkCalendar 2024 5 14 /\
  monthDayPrecedes (now rtWestEve) (mkCalendar 2000 5 15) /\
  newDate rtWestEve (JStr "2000-06-15") = ValidDate (mkCalendar 2000 5 14) /\
  userValueOf rtWestEve (ageBetween (JNum 18) (JNum 60)) (JObj bornMidJune2000) = JNum 24 /\
  checkEligibility rtWestEve
    (serviceWith [criterion CT_age VM_maximum JNull (JNum 23)] [] [])
    (JObj bornMidJune2000)
  = Normal (mkEligibility (JBool false) "User does not meet eligibility criteria"
              (Some [mkFailed CT_age "age" (JNum 24) (MethodColon VM_maximum (JNum 23))])
              (Some [])) /\
  checkEligibility rtEve
    (serviceWith [criterion CT_age VM_maximum JNull (JNum 23)] [] [])
    (JObj bornMidJune2000)
  = Normal (mkEligibility (JBool true) "User meets all eligibility criteria"
              (Some []) (Some [])).
Proof.
  split; [reflexivity|].
  split; [right; split; [reflexivity | vm_compute; reflexivity]|].
  repeat split; vm_compute; reflexivity.
Qed.

(** The failed entry shows the computed age: on the eve of the 24th
    birthday a minimum age of 24 is not met. *)
Example age_shown_in_failed_entry :
  checkEligibility rtEve
    (serviceWith [criterion CT_age VM_minimum (JNum 24) JUndefined] [] [])
    (JObj bornMidJune2000)
  = Normal (mkEligibility (JBool false) "User does not meet eligibility criteria"
              (Some [mkFailed CT_age "age" (JNum 23) (MethodColon VM_minimum (JNum 24))])
              (Some [])).
Proof. vm_compute. reflexivity. Qed.

(** ** The [range] method *)

(** With [null] as the mark of an open side, [range] is the conjunction of
    the two bound tests. *)
Lemma range_null_or_within (rt : Runtime) (criteria : EligibilityCriteria) (userValue : JsVal) :
  validationMethod criteria = VM_range ->
  criteriaResult rt criteria userValue = true <->
  (minValue criteria = JNull \/
   js_ge rt (primitiveOf rt userValue) (primitiveOf rt (minValue criteria)) = true) /\
  (maxValue criteria = JNull \/
   js_le rt (primitiveOf rt userValue) (primitiveOf rt (maxValue criteria)) = true).
Proof.
  intros Hm; unfold criteriaResult; rewrite Hm.
  rewrite andb_true_iff, !orb_true_iff.
  assert (Hnull : forall v, strictEquals v JNull = true <-> v = JNull).
  { intros v; destruct v; simpl; split; intros H; try discriminate; reflexivity. }
  rewrite !Hnull; reflexivity.
Qed.

Example range_18_60 :
  criteriaResult rtDay (ageBetween (JNum 18) (JNum 60)) (JNum 17) = false /\
  criteriaResult rtDay (ageBetween (JNum 18) (JNum 60)) (JNum 18) = true /\
  criteriaResult rtDay (ageBetween (JNum 18) (JNum 60)) (JNum 60) = true /\
  criteriaResult rtDay (ageBetween (JNum 18) (JNum 60)) (JNum 61) = false /\
  criteriaResult rtDay (ageBetween JNull (JNum 60)) (JNum 5) = true /\
  criteriaResult rtDay (ageBetween (JNum 18) JNull) (JNum 99) = true /\
  evaluateCriterion rtDay (ageBetween (JNum 18) (JNum 60)) (JNum 17) = Normal false /\
  evaluateCriterion rtDay (ageBetween (JNum 18) (JNum 60)) (JNum 18) = Normal true /\
  evaluateCriterion rtDay (ageBetween (JNum 18) (JNum 60)) (JNum 60) = Normal true /\
  evaluateCriterion rtDay (ageBetween (JNum 18) (JNum 60)) (JNum 61) = Normal false.
Proof. repeat split; vm_compute; reflexivity. Qed.

(** No value is [<=] or [>=] [undefined]: the comparison turns
    [undefined] into [NaN]. *)
Lemma js_le_undefined (rt : Runtime) (v : JsVal) : js_le rt v JUndefined = false.
Proof. reflexivity. Qed.

Lemma js_ge_undefined (rt : Runtime) (v : JsVal) : js_ge rt v JUndefined = false.
Proof.
  unfold js_ge, IsLessThan.
  assert (H : PrimFloat.is_nan (ToNumber rt JUndefined) = true) by reflexivity.
  destruct v; cbv iota; rewrite ?H, ?orb_true_r; reflexivity.
Qed.

(** A bound that was never set reads as [undefined], which [=== null]
    does not recognise: the criterion then fails for every user value. *)
Lemma range_undefined_bound (rt : Runtime) (criteria : EligibilityCriteria) (userValue : JsVal) :
  validationMethod criteria = VM_range ->
  minValue criteria = JUndefined \/ maxValue criteria = JUndefined ->
  criteriaResult rt criteria userValue = false.
Proof.
  intros Hm [H | H]; unfold criteriaResult; rewrite Hm, H; simpl strictEquals;
    change (primitiveOf rt JUndefined) with JUndefined;
    rewrite ?js_ge_undefined, ?js_le_undefined; simpl.
  - reflexivity.
  - apply andb_false_r.
Qed.

(** C4, at the input where the code departs from it: a [range] criterion
    with lower bound 18 and no upper bound rejects the value 30, and a
    person aged 24 is declared not eligible for "18 or older". *)
Theorem range_unset_bound_rejects :
  criteriaResult rtDay (ageBetween (JNum 18) JUndefined) (JNum 30) = false /\
  criteriaResult rtDay (ageBetween JUndefined (JNum 60)) (JNum 30) = false /\
  checkEligibility rtDay (serviceWith [ageBetween (JNum 18) JUndefined] [] [])
    (JObj bornMidJune2000)
  = Normal (mkEligibility (JBool false) "User does not meet eligibility criteria"
              (Some [mkFailed CT_age "age" (JNum 24) (Between (JNum 18) JUndefined)])
              (Some [])).
Proof. repeat split; vm_compute; reflexivity. Qed.

(** ** Missing data and [null] *)

Section MissingData.
Variable rt : Runtime.

(** A criterion is recorded as missing exactly when [userValue] is
    [undefined], and then with the entry [missingEntryFor]. *)
Lemma missingOf_outcome (userData : JsVal) (criteria : EligibilityCriteria) :
  missingOf (outcomeOf rt userData criteria)
  = match userValueOf rt criteria userData with
    | JUndefined => Some (missingEntryFor criteria)
    | _ => None
    end.
Proof.
  unfold outcomeOf.
  destruct (userValueOf rt criteria userData); try reflexivity;
    destruct (criteriaResult rt criteria _); reflexivity.
Qed.

Lemma missing_entries (userData : JsVal) (criteria : list EligibilityCriteria) :
  omap missingOf (map (outcomeOf rt userData) criteria)
  = map missingEntryFor (undefinedValued rt criteria userData).
Proof.
  unfold undefinedValued; induction criteria as [|c cs IH]; [reflexivity|].
  simpl. rewrite missingOf_outcome.
  destruct (userValueOf rt c userData); simpl; try exact IH.
  f_equal; exact IH.
Qed.

Lemma isMissing_outcome (userData : JsVal) (criteria : EligibilityCriteria) :
  isMissing (outcomeOf rt userData criteria)
  = strictEquals (userValueOf rt criteria userData) JUndefined.
Proof.
  unfold outcomeOf.
  destruct (userValueOf rt criteria userData); try reflexivity;
    destruct (criteriaResult rt criteria _); reflexivity.
Qed.

Lemma isFailed_outcome (userData : JsVal) (criteria : EligibilityCriteria) :
  isFailed (outcomeOf rt userData criteria)
  = negb (strictEquals (userValueOf rt criteria userData) JUndefined)
    && negb (criteriaResult rt criteria (userValueOf rt criteria userData)).
Proof.
  unfold outcomeOf.
  destruct (userValueOf rt criteria userData); try reflexivity;
    destruct (criteriaResult rt criteria _); reflexivity.
Qed.

(** A user value that is present (also [null]) is judged by the
    validation method. *)
Lemma outcomeOf_income (profile : Profile) (criteria : EligibilityCriteria) (v : JsVal) :
  criteriaType criteria = CT_income ->
  profile !! "income" = Some v ->
  v <> JUndefined ->
  userValueOf rt criteria (JObj profile) = v /\
  outcomeOf rt (JObj profile) criteria
  = if criteriaResult rt criteria v then Passed
    else Failed (mkFailed CT_income (criteriaNameOf criteria) v (requiredShown criteria)).
Proof.
  intros Ht Hv Hd.
  assert (Hu : userValueOf rt criteria (JObj profile) = v).
  { unfold userValueOf, inputOf. rewrite Ht. simpl. unfold field. rewrite Hv. reflexivity. }
  split; [exact Hu|]. unfold outcomeOf. rewrite Hu, Ht.
  destruct v; try contradiction; reflexivity.
Qed.

(** [null] counts as the number 0: it is not [>=] a positive number. *)
Lemma null_below_positive (m : float) :
  (0 <? m)%float = true -> js_ge rt JNull (JNum m) = false.
Proof.
  intros Hm; unfold js_ge, IsLessThan; simpl.
  change (ToNumber rt (JNum m)) with m.
  change (ToNumber rt JNull) with 0%float.
  destruct (PrimFloat.is_nan m); [reflexivity|].
  rewrite Hm; reflexivity.
Qed.

Lemma someFails_in (criteria : list EligibilityCriteria) (userData : JsVal)
    (c : EligibilityCriteria) :
  In c criteria -> isFailed (outcomeOf rt userData c) = true ->
  someFails rt criteria userData = true.
Proof.
  intros Hin Hf; unfold someFails; apply existsb_exists; exists c; split; assumption.
Qed.

Lemma failed_entry_in (criteria : list EligibilityCriteria) (userData : JsVal)
    (c : EligibilityCriteria) (f : FailedCriterion) :
  In c criteria -> outcomeOf rt userData c = Failed f ->
  In f (omap failedOf (map (outcomeOf rt userData) criteria)).
Proof.
  intros Hin Hf. induction criteria as [|c' cs IH]; [contradiction|].
  assert (E : omap failedOf (map (outcomeOf rt userData) (c' :: cs))
              = match failedOf (outcomeOf rt userData c') with
                | Some y => y :: omap failedOf (map (outcomeOf rt userData) cs)
                | None => omap failedOf (map (outcomeOf rt userData) cs)
                end) by reflexivity.
  rewrite E. destruct Hin as [-> | Hin].
  - rewrite Hf. left; reflexivity.
  - destruct (failedOf (outcomeOf rt userData c')); [right|]; apply IH, Hin.
Qed.
End MissingData.

(** C10, as amended: on user data whose values can be compared,
    [checkEligibility] records a missing-data entry for exactly the criteria
    whose [userValue] is [undefined] once the first [switch] is over (for an
    [age] criterion, when [dateOfBirth] is falsy); a user value of [null] is
    present and is judged by the validation method, where it compares as the
    number 0: [income: null] fails every criterion with a positive minimum,
    which makes [eligible = false], and is never reported as missing. *)
Theorem missing_iff_undefined (rt : Runtime) :
  (forall (this : Service) (profile : Profile),
      eligibilityCriteria this <> [] ->
      (forall c, In c (eligibilityCriteria this) -> evaluable rt c (JObj profile) = true) ->
      exists r,
        checkEligibility rt this (JObj profile) = Normal r /\
        missingData r
        = Some (map missingEntryFor
                  (undefinedValued rt (eligibilityCriteria this) (JObj profile)))) /\
  (forall (criteria : EligibilityCriteria) (profile : Profile) (results : Results),
      criteriaType criteria = CT_income ->
      profile !! "income" = Some JNull ->
      convertible (minValue criteria) = true ->
      convertible (maxValue criteria) = true ->
      userValueOf rt criteria (JObj profile) = JNull /\
      checkCriterion rt (JObj profile) results criteria
      = Normal (if criteriaResult rt criteria JNull then results
                else pushFailed (mkFailed CT_income (criteriaNameOf criteria) JNull
                                          (requiredShown criteria)) results)) /\
  (forall (this : Service) (criteria : EligibilityCriteria) (profile : Profile) (m : float),
      In criteria (eligibilityCriteria this) ->
      (forall c, In c (eligibilityCriteria this) -> evaluable rt c (JObj profile) = true) ->
      criteriaType criteria = CT_income ->
      validationMethod criteria = VM_minimum ->
      minValue criteria = JNum m ->
      (0 <? m)%float = true ->
      profile !! "income" = Some JNull ->
      exists r failed,
        checkEligibility rt this (JObj profile) = Normal r /\
        eligible r = JBool false /\
        failedCriteria r = Some failed /\
        In (mkFailed CT_income (criteriaNameOf criteria) JNull (requiredShown criteria))
           failed).
Proof.
  split; [|split].
  - intros this profile Hne He.
    destruct (eligible_decided rt this (JObj profile) Hne ltac:(discriminate)
                ltac:(discriminate) He) as (r & Hr & _ & _ & _ & Hm).
    exists r; split; [exact Hr|]. rewrite Hm, missing_entries; reflexivity.
  - intros criteria profile results Ht Hv Hlo Hhi.
    destruct (outcomeOf_income rt profile criteria JNull Ht Hv) as [Hu Ho]; [discriminate|].
    split; [exact Hu|].
    rewrite checkCriterion_evaluable, Ho; try discriminate.
    + destruct (criteriaResult rt criteria JNull); reflexivity.
    + unfold evaluable, inputOf. rewrite Ht, Hlo, Hhi. simpl. unfold field. rewrite Hv.
      reflexivity.
  - intros this criteria profile m Hin He Ht Hmeth Hmin Hpos Hv.
    assert (Hne : eligibilityCriteria this <> []) by (intros E; rewrite E in Hin; exact Hin).
    destruct (eligible_decided rt this (JObj profile) Hne ltac:(discriminate)
                ltac:(discriminate) He) as (r & Hr & Hverdict & _ & Hf & _).
    destruct (outcomeOf_income rt profile criteria JNull Ht Hv) as [_ Ho]; [discriminate|].
    assert (Hres : criteriaResult rt criteria JNull = false).
    { unfold criteriaResult; rewrite Hmeth, Hmin.
      exact (null_below_positive rt m Hpos). }
    rewrite Hres in Ho.
    exists r, (omap failedOf (map (outcomeOf rt (JObj profile)) (eligibilityCriteria this))).
    split; [exact Hr|]. split; [|split; [exact Hf|]].
    + rewrite Hverdict, (someFails_in rt _ _ criteria Hin); [reflexivity|].
      rewrite Ho; reflexivity.
    + apply (failed_entry_in rt _ _ criteria); assumption.
Qed.

Lemma missing_iff_undefined_witness :
  exists r,
    checkEligibility rtDay
      (serviceWith [criterion CT_income VM_minimum (JNum 100000) JUndefined] [] [])
      (JObj (profileOf [("income", JNull)])) = Normal r /\
    eligible r = JBool false /\
    failedCriteria r
    = Some [mkFailed CT_income "income" JNull (MethodColon VM_minimum (JNum 100000))].
Proof.
  destruct (missing_iff_undefined rtDay) as (_ & _ & H).
  destruct (H (serviceWith [criterion CT_income VM_minimum (JNum 100000) JUndefined] [] [])
              (criterion CT_income VM_minimum (JNum 100000) JUndefined)
              (profileOf [("income", JNull)]) 100000%float)
    as (r & failed & Hr & Hv & Hf & _).
  - left; reflexivity.
  - intros c [<- | []]; vm_compute; reflexivity.
  - reflexivity.
  - reflexivity.
  - reflexivity.
  - reflexivity.
  - vm_compute; reflexivity.
  - exists r. split; [exact Hr|]. split; [exact Hv|].
    vm_compute in Hr. inversion Hr. reflexivity.
Defined.

(** C10 as first stated fails: under an income ceiling, a numeric income
    criterion, [income: null] is judged as 0 and passes; no criterion fails
    and the verdict is [eligible = true]. *)
Lemma null_income_passes_ceiling :
  checkEligibility rtDay
    (serviceWith [criterion CT_income VM_maximum JUndefined (JNum 300000)] [] [])
    (JObj (profileOf [("income", JNull)]))
  = Normal (mkEligibility (JBool true) "User meets all eligibility criteria"
              (Some []) (Some [])).
Proof. vm_compute. reflexivity. Qed.

(** For an [age] criterion it is a falsy [dateOfBirth], [null] included,
    that is recorded as missing. *)
Example null_dateOfBirth_is_missing :
  checkEligibility rtDay (serviceWith [ageBetween (JNum 18) (JNum 60)] [] [])
    (JObj (profileOf [("dateOfBirth", JNull)]))
  = Normal (mkEligibility (JStr "unknown")
              "Missing required information to determine eligibility"
              (Some []) (Some [mkMissing "dateOfBirth" "age"])).
Proof. vm_compute. reflexivity. Qed.

(** ** Fees *)

Lemma getProp_object (props : Profile) (key : string) :
  getProp (JObj props) key = Normal (field props key).
Proof. reflexivity. Qed.

Section FeeFacts.
Variable rt : Runtime.

(** The callback of [some] on a profile whose [age] can be compared. *)
Lemma waiverCategoryMatches_object (profile : Profile) (category : string) :
  convertible (field profile "age") = true ->
  waiverCategoryMatches rt (JObj profile) category
  = Normal (categoryApplies rt profile category).
Proof.
  intros Hage. unfold waiverCategoryMatches, categoryApplies, andAlso, greaterOrEqual.
  rewrite !getProp_object.
  destruct (String.eqb_spec category "bpl") as [->|_]; simpl.
  { destruct (ToBoolean (field profile "isBPL")); reflexivity. }
  destruct (String.eqb_spec category "senior") as [->|_]; simpl.
  { rewrite (compareWith_convertible rt _ _ (JNum 60) Hage eq_refl). simpl.
    change (primitiveOf rt (JNum 60)) with (JNum 60).
    destruct (js_ge rt _ (JNum 60)); reflexivity. }
  destruct (String.eqb_spec category "student") as [->|_]; simpl.
  { destruct (ToBoolean (field profile "isStudent")); reflexivity. }
  destruct (String.eqb_spec category "disability") as [->|_]; simpl.
  { destruct (ToBoolean (field profile "hasDisability")); reflexivity. }
  destruct (String.eqb_spec category "female") as [->|_]; simpl.
  { destruct (strictEquals (field profile "gender") (JStr "female")); reflexivity. }
  reflexivity.
Qed.

Lemma some_waiverCategory (profile : Profile) (categories : list string) :
  convertible (field profile "age") = true ->
  some (waiverCategoryMatches rt (JObj profile)) categories
  = Normal (existsb (categoryApplies rt profile) categories).
Proof.
  intros Hage. apply some_pure; intros c _; apply waiverCategoryMatches_object, Hage.
Qed.

(** A rule whose waiver applies and is described: the amount goes to
    [waivers] as it stands, nothing goes to [breakdown] or to the total,
    and no variable factor is applied. *)
Lemma processFee_waived (profile : Profile) (result : Totals) (fee : Fee)
    (w : Waiver) (d : MultilingualText) :
  convertible (field profile "age") = true ->
  waiver fee = Some w ->
  w_description w = Some d ->
  waiverApplies rt profile fee = true ->
  processFee rt (JObj profile) result fee
  = Normal (mkTotals (t_totalAmount result) (t_breakdown result)
              (t_waivers result ++
               [mkWaiverEntry (feeType fee) (ofOptStr (mt_en (fee_name fee))) (amount fee)
                  (strOr (mt_en d) "Eligible for fee waiver")])).
Proof.
  intros Hage Hw Hd Ha. unfold waiverApplies in Ha; rewrite Hw in Ha.
  unfold processFee, checkWaiver. rewrite Hw.
  destruct (w_eligibility w) as [|c cs] eqn:Ec; [discriminate|].
  cbn [length Nat.ltb Nat.leb]. rewrite (some_waiverCategory _ _ Hage), Ha; simpl.
  rewrite Hd; reflexivity.
Qed.

(** A rule whose waiver applies but carries no description: the callback
    throws while it builds the waiver entry. *)
Lemma processFee_waiver_undescribed (profile : Profile) (result : Totals) (fee : Fee)
    (w : Waiver) :
  convertible (field profile "age") = true ->
  waiver fee = Some w ->
  w_description w = None ->
  waiverApplies rt profile fee = true ->
  processFee rt (JObj profile) result fee = Throw TypeError.
Proof.
  intros Hage Hw Hd Ha. unfold waiverApplies in Ha; rewrite Hw in Ha.
  unfold processFee, checkWaiver. rewrite Hw.
  destruct (w_eligibility w) as [|c cs] eqn:Ec; [discriminate|].
  cbn [length Nat.ltb Nat.leb]. rewrite (some_waiverCategory _ _ Hage), Ha; simpl.
  rewrite Hd; reflexivity.
Qed.

(** The income factor on an income that is truthy and can be compared. *)
Lemma applyFactor_income (profile : Profile) (feeAmount : float) (f : VariableFactor) :
  factor f = Some "income" ->
  ToBoolean (field profile "income") = true ->
  convertible (field profile "income") = true ->
  applyFactor rt (JObj profile) feeAmount f
  = Normal (incomeScaled rt (field profile "income") feeAmount).
Proof.
  intros Hf Hi Hc. unfold applyFactor, incomeScaled, lessThan, greaterThan.
  rewrite Hf, !getProp_object; simpl. rewrite Hi.
  rewrite (compareWith_convertible rt _ _ (JNum 300000) Hc eq_refl),
    (compareWith_convertible rt _ _ (JNum 1000000) Hc eq_refl).
  change (primitiveOf rt (JNum 300000)) with (JNum 300000).
  change (primitiveOf rt (JNum 1000000)) with (JNum 1000000). simpl.
  destruct (js_lt rt _ (JNum 300000)); [reflexivity|].
  destruct (js_gt rt _ (JNum 1000000)); reflexivity.
Qed.

(** The income factor on a falsy income, the number 0 included: no
    adjustment. *)
Lemma applyFactor_income_falsy (profile : Profile) (feeAmount : float) (f : VariableFactor) :
  factor f = Some "income" ->
  ToBoolean (field profile "income") = false ->
  applyFactor rt (JObj profile) feeAmount f = Normal feeAmount.
Proof.
  intros Hf Hi. unfold applyFactor.
  rewrite Hf, !getProp_object; simpl. rewrite Hi. reflexivity.
Qed.

(** The age factor on an age that is truthy and can be compared. *)
Lemma applyFactor_age (profile : Profile) (feeAmount : float) (f : VariableFactor) :
  factor f = Some "age" ->
  ToBoolean (field profile "age") = true ->
  convertible (field profile "age") = true ->
  applyFactor rt (JObj profile) feeAmount f
  = Normal (ageScaled rt (field profile "age") feeAmount).
Proof.
  intros Hf Ha Hc. unfold applyFactor, ageScaled, lessThan, greaterOrEqual.
  rewrite Hf, !getProp_object; simpl. rewrite Ha.
  rewrite (compareWith_convertible rt _ _ (JNum 18) Hc eq_refl),
    (compareWith_convertible rt _ _ (JNum 60) Hc eq_refl).
  change (primitiveOf rt (JNum 18)) with (JNum 18).
  change (primitiveOf rt (JNum 60)) with (JNum 60). simpl.
  destruct (js_lt rt _ (JNum 18)); [reflexivity|].
  destruct (js_ge rt _ (JNum 60)); reflexivity.
Qed.

(** The fee callback reads the profile through six properties. *)
Lemma processFee_same_reads (p q : Profile) (result : Totals) (fee : Fee) :
  (forall key, In key feeKeys -> p !! key = q !! key) ->
  processFee rt (JObj p) result fee = processFee rt (JObj q) result fee.
Proof.
  intros H.
  assert (Hget : forall key, In key feeKeys -> getProp (JObj p) key = getProp (JObj q) key).
  { intros key Hk. rewrite !getProp_object. unfold field. rewrite (H key Hk). reflexivity. }
  assert (Hcat : forall c, waiverCategoryMatches rt (JObj p) c
                           = waiverCategoryMatches rt (JObj q) c).
  { intros c; unfold waiverCategoryMatches.
    rewrite (Hget "isBPL"), (Hget "age"), (Hget "isStudent"), (Hget "hasDisability"),
      (Hget "gender") by (simpl; tauto).
    reflexivity. }
  assert (Hfac : forall a f, applyFactor rt (JObj p) a f = applyFactor rt (JObj q) a f).
  { intros a f; unfold applyFactor.
    rewrite (Hget "income"), (Hget "age") by (simpl; tauto). reflexivity. }
  assert (Hloop : forall l a,
             forEach (applyFactor rt (JObj p)) l a = forEach (applyFactor rt (JObj q)) l a).
  { intros l a; apply forEach_ext; intros s f _; apply Hfac. }
  unfold processFee, checkWaiver.
  destruct (waiver fee) as [w|]; simpl; rewrite ?Hloop; [|reflexivity].
  rewrite (some_ext _ _ _ (fun c _ => Hcat c)). reflexivity.
Qed.

Lemma processFee_agree (p q : Profile) (result : Totals) (fee : Fee) :
  agreeExceptDateOfBirth p q ->
  processFee rt (JObj p) result fee = processFee rt (JObj q) result fee.
Proof.
  intros H. apply processFee_same_reads. intros key Hk. apply H.
  simpl in Hk. intros ->. repeat destruct Hk as [Hk | Hk]; try discriminate. exact Hk.
Qed.
End FeeFacts.

(** C9: for every list of fee rules and every two user profiles that agree
    on all fields except [dateOfBirth], [calculateFees] returns the same
    result: the senior waiver and the ["age"] factor read [userData.age]
    and nothing is derived from the date of birth. *)
Theorem calculateFees_ignores_dateOfBirth (rt : Runtime) (this : Service) (p q : Profile) :
  agreeExceptDateOfBirth p q ->
  calculateFees rt this (JObj p) = calculateFees rt this (JObj q).
Proof.
  intros H; unfold calculateFees.
  destruct (fees this) as [|first rest]; [reflexivity|].
  rewrite (forEach_ext (processFee rt (JObj p)) (processFee rt (JObj q)) (first :: rest));
    [reflexivity|].
  intros s fee _; apply processFee_agree; exact H.
Qed.

Lemma calculateFees_ignores_dateOfBirth_witness :
  agreeExceptDateOfBirth (<["dateOfBirth" := JStr "1990-01-01"]> richSenior) richSenior /\
  calculateFees rtDay (serviceWith [] [seniorWaivedFee (Some (english "Senior citizen"))] [])
    (JObj (<["dateOfBirth" := JStr "1990-01-01"]> richSenior))
  = calculateFees rtDay (serviceWith [] [seniorWaivedFee (Some (english "Senior citizen"))] [])
      (JObj richSenior).
Proof.
  assert (H : agreeExceptDateOfBirth (<["dateOfBirth" := JStr "1990-01-01"]> richSenior)
                richSenior).
  { intros key Hk; apply lookup_insert_ne; intros E; apply Hk; symmetry; exact E. }
  split; [exact H|].
  exact (calculateFees_ignores_dateOfBirth rtDay _ _ _ H).
Defined.

(** The waiver of the specification's example: amount 1000, waived for
    seniors, age 65, income 1500000.  The amount is recorded in [waivers],
    not scaled to 1500, and adds nothing to the total. *)
Example waiver_skips_income_factor :
  calculateFees rtDay
    (serviceWith [] [seniorWaivedFee (Some (english "Senior citizen"))] [])
    (JObj richSenior)
  = Normal (mkFeeResult 0 "INR" []
              (Some [mkWaiverEntry "application" (JStr "Application fee") 1000
                       "Senior citizen"])
              None None).
Proof. vm_compute. reflexivity. Qed.

(** C2, at the input where the code departs from it: the same rule with a
    waiver that has categories but no description.  Building the waiver
    entry throws, the [catch] block answers with the error object, and
    neither this rule nor any other rule of the service is reported. *)
Theorem waiver_without_description_fails :
  waiverApplies rtDay richSenior (seniorWaivedFee None) = true /\
  calculateFees rtDay (serviceWith [] [seniorWaivedFee None] []) (JObj richSenior)
  = Normal (mkFeeResult 0 "INR" [] None None (Some "Error calculating fees")) /\
  calculateFees rtDay (serviceWith [] [incomeScaledFee; seniorWaivedFee None] [])
    (JObj richSenior)
  = Normal (mkFeeResult 0 "INR" [] None None (Some "Error calculating fees")).
Proof. repeat split; vm_compute; reflexivity. Qed.

(** The income factor of the specification's example on base amount 1000:
    500 for income 250000, 1500 for 1500000, 1000 for 500000. *)
Example income_factor_on_1000 :
  calculateFees rtDay (serviceWith [] [incomeScaledFee] []) (JObj (withIncome (JNum 250000)))
  = Normal (mkFeeResult 500 "INR"
              [mkBreakdown "processing" (JStr "Processing fee") 500 JNull] (Some []) None None) /\
  calculateFees rtDay (serviceWith [] [incomeScaledFee] []) (JObj (withIncome (JNum 1500000)))
  = Normal (mkFeeResult 1500 "INR"
              [mkBreakdown "processing" (JStr "Processing fee") 1500 JNull] (Some []) None None) /\
  calculateFees rtDay (serviceWith [] [incomeScaledFee] []) (JObj (withIncome (JNum 500000)))
  = Normal (mkFeeResult 1000 "INR"
              [mkBreakdown "processing" (JStr "Processing fee") 1000 JNull] (Some []) None None).
Proof. repeat split; vm_compute; reflexivity. Qed.

(** C3, at the input where the code departs from it: an income of 0 is
    present and below 300000, yet the truthiness test [userData.income]
    skips the adjustment and the fee stays 1000 instead of 500. *)
Theorem zero_income_not_discounted :
  withIncome (JNum 0) !! "income" = Some (JNum 0) /\
  js_lt rtDay (field (withIncome (JNum 0)) "income") (JNum 300000) = true /\
  calculateFees rtDay (serviceWith [] [incomeScaledFee] []) (JObj (withIncome (JNum 0)))
  = Normal (mkFeeResult 1000 "INR"
              [mkBreakdown "processing" (JStr "Processing fee") 1000 JNull] (Some []) None None).
Proof. repeat split; vm_compute; reflexivity. Qed.

(** An income that cannot be compared is caught inside the method. *)
Example unprintable_income_is_caught :
  calculateFees rtDay (serviceWith [] [incomeScaledFee] []) (JObj (withIncome unprintable))
  = Normal (mkFeeResult 0 "INR" [] None None (Some "Error calculating fees")).
Proof. vm_compute. reflexivity. Qed.

(** ** Documents *)

Lemma strictEquals_hasType (d : JsVal) (t : string) :
  strictEquals (typeOf d) (JStr t) = hasType d t.
Proof. unfold hasType. destruct (typeOf d); reflexivity. Qed.

Lemma find_requirementFor (reqs : list Requirement) (d : JsVal) :
  find (fun r => strictEquals (JStr (documentType r)) (typeOf d)) reqs = requirementFor reqs d.
Proof.
  assert (Hsym : forall t, strictEquals (JStr t) (typeOf d) = hasType d t).
  { intros t. unfold hasType. destruct (typeOf d); try reflexivity.
    simpl. apply String.eqb_sym. }
  unfold find. induction reqs as [|r reqs IH]; [reflexivity|].
  cbn [List.find requirementFor]. rewrite IH, Hsym. reflexivity.
Qed.

Lemma afterLastDotFrom_lastSegment (s cur : string) :
  afterLastDotFrom s cur = if dotFree s then cur else lastSegment s.
Proof.
  revert cur; induction s as [|c s IH]; intros cur; simpl; [reflexivity|].
  rewrite !IH. destruct (Ascii.eqb c "."); simpl; [reflexivity|].
  destruct (dotFree s); reflexivity.
Qed.

(** [split('.').pop()] gives what follows the last dot. *)
Lemma splitDotPop_lastSegment (s : string) : splitDotPop s = lastSegment s.
Proof.
  unfold splitDotPop. rewrite afterLastDotFrom_lastSegment.
  destruct s as [|c s]; simpl; [reflexivity|].
  destruct (Ascii.eqb c "."); simpl; [reflexivity|].
  destruct (dotFree s); reflexivity.
Qed.

Section DocumentFacts.
Variable rt : Runtime.

Lemma checkMandatory_wellFormed (documents : list JsVal) (result : Validation)
    (r : Requirement) :
  (forall d, In d documents -> wellFormedDocument d) ->
  checkMandatory documents result r = Normal (noteMissing documents result r).
Proof.
  intros Hwf. unfold checkMandatory, noteMissing, missingRequirement, missingEntry.
  destruct (isMandatory r); [|reflexivity].
  rewrite (some_pure _ (fun d => hasType d (documentType r))).
  - simpl. destruct (existsb _ documents); reflexivity.
  - intros d Hd. destruct (Hwf d Hd) as (props & file & -> & _).
    rewrite getProp_object. unfold hasType, typeOf, propertyOf. simpl.
    destruct (field props "type"); reflexivity.
Qed.

Lemma includes_extension (allowed : list string) (ext : string) :
  includes rt allowed (JStr ext) = Normal (existsb (String.eqb ext) allowed).
Proof.
  rewrite includes_convertible by reflexivity. reflexivity.
Qed.

Lemma exceedsMaxSize_convertible (r : Requirement) (d : JsVal) :
  convertible (sizeOf d) = true ->
  exceedsMaxSize rt r (sizeOf d) = Normal (sizeExcess rt r d).
Proof.
  intros Hc. unfold exceedsMaxSize, sizeExcess, greaterThan.
  destruct (maxFileSizeKB r) as [limit|]; [|reflexivity].
  cbn [ofOptNum]. rewrite (compareWith_convertible rt _ _ (JNum limit) Hc eq_refl).
  change (primitiveOf rt (JNum limit)) with (JNum limit).
  destruct (ToBoolean (JNum limit)); reflexivity.
Qed.

Lemma validateDocument_wellFormed (reqs : list Requirement) (result : Validation)
    (document : JsVal) :
  wellFormedDocument document ->
  validateDocument rt reqs result document = Normal (fileDocument rt reqs result document).
Proof.
  intros (props & file & -> & Hf & Hsize).
  unfold validateDocument, fileDocument.
  rewrite getProp_object; cbn [bind].
  change (field props "type") with (typeOf (JObj props)).
  rewrite find_requirementFor.
  destruct (requirementFor reqs (JObj props)) as [r|]; [|reflexivity].
  assert (Hmismatch :
            (if (0 <? length (allowedFileTypes r))%nat
             then let* fileExtension := fileExtensionOf rt (JObj props) in
                  let* listed := includes rt (allowedFileTypes r) (JStr fileExtension) in
                  Normal (negb listed)
             else Normal false)
            = Normal (fileTypeMismatch rt r (JObj props))).
  { assert (Hfile : field props "file" = JStr file)
      by (unfold field; rewrite Hf; reflexivity).
    unfold fileTypeMismatch, fileExtensionOf, fileOf, propertyOf.
    rewrite getProp_object, !Hfile. cbn [bind].
    rewrite splitDotPop_lastSegment.
    destruct (allowedFileTypes r) as [|a rest]; [reflexivity|].
    cbn [length Nat.ltb Nat.leb]. rewrite includes_extension. reflexivity. }
  rewrite Hmismatch; cbn [bind].
  destruct (fileTypeMismatch rt r (JObj props)); [reflexivity|].
  rewrite getProp_object; cbn [bind].
  change (field props "sizeKB") with (sizeOf (JObj props)).
  rewrite (exceedsMaxSize_convertible r (JObj props) Hsize); cbn [bind].
  destruct (sizeExcess rt r (JObj props)); reflexivity.
Qed.

(** The first loop: [valid] falls exactly when a mandatory requirement
    is missing, and every such requirement is listed. *)
Lemma fold_noteMissing (documents : list JsVal) (reqs : list Requirement)
    (result : Validation) :
  fold_left (noteMissing documents) reqs result
  = mkValidation (valid result && negb (existsb (missingRequirement documents) reqs))
      (validDocuments result) (invalidDocuments result)
      (missingMandatory result ++
       map missingEntry (List.filter (missingRequirement documents) reqs)).
Proof.
  revert result; induction reqs as [|r reqs IH]; intros [v vd ivd mm]; simpl.
  - rewrite andb_true_r, app_nil_r; reflexivity.
  - rewrite IH. unfold noteMissing.
    destruct (missingRequirement documents r); simpl.
    + rewrite andb_false_r, <- app_assoc; reflexivity.
    + reflexivity.
Qed.

Lemma fileDocument_valid (reqs : list Requirement) (result : Validation) (d : JsVal) :
  valid (fileDocument rt reqs result d) = valid result && negb (rejected rt reqs d).
Proof.
  unfold fileDocument, rejected.
  destruct (requirementFor reqs d) as [r|]; [|simpl; rewrite andb_true_r; reflexivity].
  destruct (fileTypeMismatch rt r d); simpl; [rewrite andb_false_r; reflexivity|].
  destruct (sizeExcess rt r d); simpl; [rewrite andb_false_r | rewrite andb_true_r];
    reflexivity.
Qed.

Lemma fileDocument_missing (reqs : list Requirement) (result : Validation) (d : JsVal) :
  missingMandatory (fileDocument rt reqs result d) = missingMandatory result.
Proof.
  unfold fileDocument.
  destruct (requirementFor reqs d) as [r|]; [|reflexivity].
  destruct (fileTypeMismatch rt r d); [reflexivity|].
  destruct (sizeExcess rt r d); reflexivity.
Qed.

Lemma fileDocument_keeps_invalid (reqs : list Requirement) (result : Validation)
    (d : JsVal) (x : InvalidDocument) :
  In x (invalidDocuments result) -> In x (invalidDocuments (fileDocument rt reqs result d)).
Proof.
  intros Hx. unfold fileDocument.
  destruct (requirementFor reqs d) as [r|]; simpl; [|apply in_or_app; left; exact Hx].
  destruct (fileTypeMismatch rt r d); simpl; [apply in_or_app; left; exact Hx|].
  destruct (sizeExcess rt r d); simpl; [apply in_or_app; left; exact Hx | exact Hx].
Qed.

Lemma fileDocument_unrequired (reqs : list Requirement) (result : Validation) (d : JsVal) :
  requirementFor reqs d = None ->
  In (mkInvalid (typeOf d) NotRequiredForService)
     (invalidDocuments (fileDocument rt reqs result d)).
Proof.
  intros H; unfold fileDocument; rewrite H; simpl.
  apply in_or_app; right; left; reflexivity.
Qed.

(** The second loop. *)
Lemma fold_fileDocument (reqs : list Requirement) (documents : list JsVal)
    (result : Validation) :
  let final := fold_left (fileDocument rt reqs) documents result in
  valid final = valid result && negb (existsb (rejected rt reqs) documents) /\
  missingMandatory final = missingMandatory result /\
  (forall x, In x (invalidDocuments result) -> In x (invalidDocuments final)) /\
  (forall d, In d documents -> requirementFor reqs d = None ->
             In (mkInvalid (typeOf d) NotRequiredForService) (invalidDocuments final)).
Proof.
  revert result; induction documents as [|d ds IH]; intros result; simpl.
  - rewrite andb_true_r; repeat split; auto. intros d [].
  - destruct (IH (fileDocument rt reqs result d)) as (Hv & Hm & Hk & Hu).
    repeat split.
    + rewrite Hv, fileDocument_valid, negb_orb, andb_assoc; reflexivity.
    + rewrite Hm; apply fileDocument_missing.
    + intros x Hx; apply Hk, fileDocument_keeps_invalid, Hx.
    + intros d' [<- | Hd'] Hnone.
      * apply Hk, fileDocument_unrequired, Hnone.
      * apply Hu; assumption.
Qed.

(** The whole method on an array of well-formed documents. *)
Lemma validateDocuments_wellFormed (this : Service) (documents : list JsVal) :
  (forall d, In d documents -> wellFormedDocument d) ->
  validateDocuments rt this (JArr documents)
  = Normal (let result :=
              fold_left (fileDocument rt (requirements this)) documents
                (fold_left (noteMissing documents) (requirements this)
                   (mkValidation true [] [] [])) in
            Checked result (resultMessageOf result)).
Proof.
  intros Hwf. unfold validateDocuments.
  rewrite (forEach_pure _ (noteMissing documents))
    by (intros s r _; apply checkMandatory_wellFormed; exact Hwf).
  simpl.
  rewrite (forEach_pure _ (fileDocument rt (requirements this)))
    by (intros s d Hd; apply validateDocument_wellFormed, Hwf, Hd).
  reflexivity.
Qed.
End DocumentFacts.

Lemma documentOf_wellFormed (type file : string) (sizeKB : float) :
  wellFormedDocument (documentOf type file sizeKB).
Proof.
  exists (profileOf [("type", JStr type); ("file", JStr file); ("sizeKB", JNum sizeKB)]), file.
  split; [reflexivity|]. split; reflexivity.
Qed.

(** C6: for every requirements list and every list of submitted
    documents of the shape [{type, file, sizeKB}], [valid] is false exactly
    when a mandatory requirement has no document of its type or a document
    breaks the file-type or size rule of its requirement; a document whose
    type matches no requirement is listed in [invalidDocuments] as not
    required and does not change [valid]; and every mandatory requirement
    without a document is listed in [missingMandatory] and forces
    [valid = false], whatever the submitted documents are.  With an Aadhar
    card required as PDF or JPEG up to 500 KB and an optional photograph as
    JPEG up to 200 KB: files within the rules pass, a limit met exactly
    included; a wrong extension and an oversize file are each rejected; a
    PAN card nobody asked for is listed and leaves [valid] true; a
    photograph alone leaves the Aadhar card missing. *)
Theorem validateDocuments_validity :
  (forall (rt : Runtime) (this : Service) (documents : list JsVal),
      (forall d, In d documents -> wellFormedDocument d) ->
      exists (result : Validation) (msg : string),
        validateDocuments rt this (JArr documents) = Normal (Checked result msg) /\
        (valid result = false <->
         (exists r, In r (requirements this) /\ missingRequirement documents r = true) \/
         (exists d, In d documents /\ rejected rt (requirements this) d = true)) /\
        (forall d, In d documents -> requirementFor (requirements this) d = None ->
                   In (mkInvalid (typeOf d) NotRequiredForService) (invalidDocuments result) /\
                   rejected rt (requirements this) d = false) /\
        (forall r, In r (requirements this) -> missingRequirement documents r = true ->
                   In (missingEntry r) (missingMandatory result) /\ valid result = false)) /\
  validateDocuments rtDay (serviceWith [] [] [aadhar; photo])
    (JArr [documentOf "aadhar" "scan.v2.PDF" 500; documentOf "photo" "me.jpg" 120])
  = Normal (Checked
              (mkValidation true
                 [mkNamed (JStr "aadhar") (JStr "Aadhar card");
                  mkNamed (JStr "photo") (JStr "Photograph")] [] [])
              "All required documents validated successfully") /\
  validateDocuments rtDay (serviceWith [] [] [aadhar; photo])
    (JArr [documentOf "aadhar" "card.docx" 10; documentOf "photo" "me.jpg" 900])
  = Normal (Checked
              (mkValidation false []
                 [mkInvalid (JStr "aadhar") (InvalidFileType ["pdf"; "jpg"]);
                  mkInvalid (JStr "photo") (FileTooLarge (JNum 200))] [])
              "Some documents failed validation") /\
  validateDocuments rtDay (serviceWith [] [] [aadhar; photo])
    (JArr [documentOf "aadhar" "card.pdf" 501])
  = Normal (Checked
              (mkValidation false [] [mkInvalid (JStr "aadhar") (FileTooLarge (JNum 500))] [])
              "Some documents failed validation") /\
  validateDocuments rtDay (serviceWith [] [] [photo])
    (JArr [documentOf "pan" "pan.pdf" 10])
  = Normal (Checked
              (mkValidation true [] [mkInvalid (JStr "pan") NotRequiredForService] [])
              "All required documents validated successfully") /\
  validateDocuments rtDay (serviceWith [] [] [aadhar; photo])
    (JArr [documentOf "photo" "me.JPG" 120])
  = Normal (Checked
              (mkValidation false [mkNamed (JStr "photo") (JStr "Photograph")] []
                 [mkNamed (JStr "aadhar") (JStr "Aadhar card")])
              "Missing mandatory documents").
Proof.
  split; [|repeat split; vm_compute; reflexivity].
  intros rt this documents Hwf.
  rewrite (validateDocuments_wellFormed rt this documents Hwf).
  cbv zeta. rewrite fold_noteMissing.
  cbn [valid validDocuments invalidDocuments missingMandatory andb app].
  set (start := mkValidation _ _ _ _).
  destruct (fold_fileDocument rt (requirements this) documents start) as (Hv & Hm & _ & Hu).
  cbv zeta in Hv, Hm, Hu.
  subst start; cbn [valid missingMandatory] in Hv, Hm.
  assert (Hvalid : forall b1 b2 : bool,
             negb b1 && negb b2 = false <-> b1 = true \/ b2 = true)
    by (intros [|] [|]; simpl; split; auto; intros [H|H]; discriminate).
  eexists; eexists; split; [reflexivity|].
  split; [|split].
  - rewrite Hv, Hvalid. split; intros [Hf|Hf]; [left | right | left | right];
      apply existsb_exists; exact Hf.
  - intros d Hd Hnone. split; [apply Hu; assumption|].
    unfold rejected; rewrite Hnone; reflexivity.
  - intros r Hr Hmiss. split.
    + rewrite Hm. apply in_map, filter_In. split; assumption.
    + rewrite Hv. apply Hvalid. left. apply existsb_exists. exists r. split; assumption.
Qed.

Lemma validateDocuments_validity_witness :
  (forall d, In d [documentOf "aadhar" "card.docx" 10; documentOf "pan" "pan.pdf" 10] ->
             wellFormedDocument d) /\
  rejected rtDay [aadhar; photo] (documentOf "aadhar" "card.docx" 10) = true /\
  requirementFor [aadhar; photo] (documentOf "pan" "pan.pdf" 10) = None /\
  exists (result : Validation) (msg : string),
    validateDocuments rtDay (serviceWith [] [] [aadhar; photo])
      (JArr [documentOf "aadhar" "card.docx" 10; documentOf "pan" "pan.pdf" 10])
    = Normal (Checked result msg) /\
    valid result = false /\
    In (mkInvalid (JStr "pan") NotRequiredForService) (invalidDocuments result).
Proof.
  assert (Hwf : forall d, In d [documentOf "aadhar" "card.docx" 10;
                                documentOf "pan" "pan.pdf" 10] -> wellFormedDocument d).
  { intros d [<- | [<- | []]]; apply documentOf_wellFormed. }
  assert (Hrej : rejected rtDay [aadhar; photo] (documentOf "aadhar" "card.docx" 10) = true)
    by (vm_compute; reflexivity).
  assert (Hnone : requirementFor [aadhar; photo] (documentOf "pan" "pan.pdf" 10) = None)
    by (vm_compute; reflexivity).
  split; [exact Hwf | split; [exact Hrej | split; [exact Hnone|]]].
  destruct (proj1 validateDocuments_validity rtDay (serviceWith [] [] [aadhar; photo])
              [documentOf "aadhar" "card.docx" 10; documentOf "pan" "pan.pdf" 10] Hwf)
    as (result & msg & Hr & Hvalid & Hunreq & _).
  exists result, msg. split; [exact Hr|]. split.
  - apply Hvalid. right. exists (documentOf "aadhar" "card.docx" 10).
    split; [left; reflexivity | exact Hrej].
  - apply (Hunreq (documentOf "pan" "pan.pdf" 10)); [right; left; reflexivity | exact Hnone].
Defined.

(** The specification's example: the mandatory [aadhar] is not submitted,
    the one submitted document passes its own checks, and [valid] is
    false. *)
Example missing_aadhar_invalidates :
  validateDocuments rtDay (serviceWith [] [] [aadhar; photo])
    (JArr [documentOf "photo" "me.JPG" 120])
  = Normal (Checked
              (mkValidation false [mkNamed (JStr "photo") (JStr "Photograph")] []
                 [mkNamed (JStr "aadhar") (JStr "Aadhar card")])
              "Missing mandatory documents").
Proof. vm_compute. reflexivity. Qed.

(** A size that cannot be compared is caught inside the method. *)
Example unprintable_size_is_caught :
  validateDocuments rtDay (serviceWith [] [] [aadhar; photo])
    (JArr [JObj (profileOf [("type", JStr "aadhar"); ("file", JStr "card.pdf");
                            ("sizeKB", unprintable)])])
  = Normal ValidationError.
Proof. vm_compute. reflexivity. Qed.

(** ** Exceptions *)








(** A malformed entry of the array is caught inside the method. *)
Example malformed_entry_is_caught :
  validateDocuments rtDay (serviceWith [] [] [aadhar; photo]) (JArr [JNull])
  = Normal ValidationError /\
  validateDocuments rtDay (serviceWith [] [] [aadhar; photo])
    (JArr [JObj (profileOf [("type", JStr "aadhar")])])
  = Normal ValidationError.
Proof. split; vm_compute; reflexivity. Qed.

(** * Further properties *)

(** ** Fees: totals, accounting, composition *)

Lemma sumAmounts_snoc (amounts : list float) (a : float) :
  sumAmounts (amounts ++ [a]) = (sumAmounts amounts + a)%float.
Proof. unfold sumAmounts; rewrite fold_left_app; reflexivity. Qed.

(** What one fee rule does to the running [result], whenever the callback
    returns: it is either waived, and then only [waivers] grows, or billed,
    and then [breakdown] grows by one entry whose amount is added to the
    total. *)
Lemma processFee_shape (rt : Runtime) (userData : JsVal) (result result' : Totals) (fee : Fee) :
  processFee rt userData result fee = Normal result' ->
  (exists e, result' = mkTotals (t_totalAmount result) (t_breakdown result)
                                (t_waivers result ++ [e])) \/
  (exists b, result' = mkTotals (t_totalAmount result + b_amount b)%float
                                (t_breakdown result ++ [b]) (t_waivers result)).
Proof.
  unfold processFee.
  destruct (checkWaiver rt userData result fee) as [[waived result1]|e] eqn:Ew;
    [|discriminate].
  assert (Hw : (waived = false /\ result1 = result) \/
               (waived = true /\ exists e, result1 = mkTotals (t_totalAmount result)
                                              (t_breakdown result) (t_waivers result ++ [e]))).
  { unfold checkWaiver in Ew.
    destruct (waiver fee) as [w|]; [|left; inversion Ew; auto].
    destruct (0 <? length (w_eligibility w))%nat; [|left; inversion Ew; auto].
    destruct (some _ (w_eligibility w)) as [[|]|]; simpl in Ew;
      [|left; inversion Ew; auto|discriminate].
    destruct (w_description w); simpl in Ew; [|discriminate].
    right; inversion Ew; eauto. }
  simpl. destruct Hw as [[-> ->] | [-> [e ->]]]; simpl.
  - destruct (if (0 <? length (variableFactors fee))%nat
              then forEach (applyFactor rt userData) (variableFactors fee) (amount fee)
              else Normal (amount fee)) as [x|]; simpl; [|discriminate].
    intros H; inversion H; right.
    exists (mkBreakdown (feeType fee) (ofOptStr (mt_en (fee_name fee))) x
              (match fee_description fee with
               | Some d => ofOptStr (mt_en d)
               | None => JNull
               end)).
    reflexivity.
  - intros H; inversion H; left; eexists; reflexivity.
Qed.

Lemma forEach_processFee_sum (rt : Runtime) (userData : JsVal) (feeList : list Fee)
    (result result' : Totals) :
  forEach (processFee rt userData) feeList result = Normal result' ->
  t_totalAmount result = sumAmounts (map b_amount (t_breakdown result)) ->
  t_totalAmount result' = sumAmounts (map b_amount (t_breakdown result')).
Proof.
  revert result; induction feeList as [|fee rest IH]; intros result; simpl.
  - intros H; inversion H; auto.
  - destruct (processFee rt userData result fee) as [r1|] eqn:E; simpl; [|discriminate].
    intros H Hsum. apply (IH r1 H).
    destruct (processFee_shape rt userData result r1 fee E) as [[e ->] | [b ->]]; simpl.
    + exact Hsum.
    + rewrite map_app. cbn [map]. rewrite sumAmounts_snoc, Hsum; reflexivity.
Qed.

Lemma forEach_processFee_count (rt : Runtime) (userData : JsVal) (feeList : list Fee)
    (result result' : Totals) :
  forEach (processFee rt userData) feeList result = Normal result' ->
  length (t_breakdown result') + length (t_waivers result')
  = length (t_breakdown result) + length (t_waivers result) + length feeList.
Proof.
  revert result; induction feeList as [|fee rest IH]; intros result; simpl.
  - intros H; inversion H; lia.
  - destruct (processFee rt userData result fee) as [r1|] eqn:E; simpl; [|discriminate].
    intros H. rewrite (IH r1 H).
    destruct (processFee_shape rt userData result r1 fee E) as [[e ->] | [b ->]]; simpl;
      rewrite length_app; simpl; lia.
Qed.

(** X1: whatever the service and the user data, the [totalAmount] that
    [calculateFees] returns is the sum of the amounts listed in
    [breakdown], added in list order. *)
Theorem total_is_sum_of_breakdown (rt : Runtime) (this : Service) (userData : JsVal) :
  exists r,
    calculateFees rt this userData = Normal r /\
    totalAmount r = sumAmounts (map b_amount (breakdown r)).
Proof.
  unfold calculateFees. destruct (fees this) as [|first rest]; [eexists; split; reflexivity|].
  destruct (forEach (processFee rt userData) (first :: rest) (mkTotals 0 [] [])) as [r|e] eqn:E;
    simpl; eexists; (split; [reflexivity|]); simpl; [|reflexivity].
  apply (forEach_processFee_sum rt userData (first :: rest) _ r E). reflexivity.
Qed.

(** X2: when [calculateFees] reports no error, every fee rule of the
    service is accounted for exactly once, in [breakdown] or in [waivers];
    when it reports an error, it reports nothing else: total 0, empty
    breakdown, no waivers. *)
Theorem every_fee_accounted_once (rt : Runtime) (this : Service) (userData : JsVal) :
  exists r,
    calculateFees rt this userData = Normal r /\
    (feeError r = None ->
     length (breakdown r) + length (default [] (waivers r)) = length (fees this)) /\
    (feeError r <> None ->
     totalAmount r = 0%float /\ breakdown r = [] /\ waivers r = None).
Proof.
  unfold calculateFees. destruct (fees this) as [|first rest].
  { eexists; split; [reflexivity|]. split; [reflexivity | intros H; contradiction]. }
  destruct (forEach (processFee rt userData) (first :: rest) (mkTotals 0 [] [])) as [r|e] eqn:E;
    simpl; eexists; (split; [reflexivity|]); simpl.
  - split; [intros _ | intros H; contradiction].
    apply (forEach_processFee_count rt userData (first :: rest) _ r E).
  - split; [discriminate | auto].
Qed.

Lemma every_fee_accounted_once_witness :
  exists r,
    calculateFees rtDay
      (serviceWith [] [seniorWaivedFee (Some (english "Senior citizen")); incomeScaledFee] [])
      (JObj richSenior) = Normal r /\
    length (breakdown r) + length (default [] (waivers r)) = 2.
Proof.
  destruct (every_fee_accounted_once rtDay
              (serviceWith [] [seniorWaivedFee (Some (english "Senior citizen"));
                               incomeScaledFee] [])
              (JObj richSenior)) as (r & Hr & Hcount & _).
  exists r; split; [exact Hr|].
  apply Hcount.
  vm_compute in Hr. inversion Hr. reflexivity.
Defined.

(** A factor whose name is neither ["income"] nor ["age"] leaves the
    amount alone and reads nothing. *)
Lemma applyFactor_unrecognised (rt : Runtime) (userData : JsVal) (feeAmount : float)
    (f : VariableFactor) :
  factor f <> Some "income" -> factor f <> Some "age" ->
  applyFactor rt userData feeAmount f = Normal feeAmount.
Proof.
  intros Hi Ha. unfold applyFactor.
  assert (Hne : forall n, factor f <> Some n ->
                          strictEquals (ofOptStr (factor f)) (JStr n) = false).
  { intros n Hn. destruct (factor f) as [s|]; simpl; [|reflexivity].
    destruct (String.eqb_spec s n) as [->|]; [contradiction | reflexivity]. }
  rewrite (Hne _ Hi), (Hne _ Ha). reflexivity.
Qed.

Lemma processFee_plain (rt : Runtime) (userData : JsVal) (result : Totals) (fee : Fee) :
  plainFee fee ->
  processFee rt userData result fee = Normal (billInFull result fee).
Proof.
  intros [Hw Hf]. unfold processFee, billInFull.
  assert (Hcw : checkWaiver rt userData result fee = Normal (false, result)).
  { unfold checkWaiver. destruct (waiver fee) as [w|]; [|reflexivity].
    rewrite (Hw w eq_refl). reflexivity. }
  rewrite Hcw; simpl.
  assert (Hloop : forall l a, (forall f, In f l -> factor f <> Some "income" /\
                                                   factor f <> Some "age") ->
                              forEach (applyFactor rt userData) l a = Normal a).
  { induction l as [|f l IH]; intros a Hl; simpl; [reflexivity|].
    destruct (Hl f (or_introl eq_refl)) as [Hi Ha].
    rewrite (applyFactor_unrecognised rt userData a f Hi Ha); simpl.
    apply IH; intros g Hg; apply Hl; right; exact Hg. }
  rewrite (Hloop _ _ Hf).
  destruct (0 <? length (variableFactors fee))%nat; reflexivity.
Qed.

Lemma fold_billInFull (feeList : list Fee) (start : Totals) :
  t_totalAmount (fold_left billInFull feeList start)
  = fold_left (fun sum fee => (sum + amount fee)%float) feeList (t_totalAmount start) /\
  length (t_breakdown (fold_left billInFull feeList start))
  = length (t_breakdown start) + length feeList.
Proof.
  revert start; induction feeList as [|fee rest IH]; intros start; simpl.
  - split; [reflexivity | lia].
  - destruct (IH (billInFull start fee)) as [-> ->]. simpl.
    rewrite length_app; simpl. split; [reflexivity | lia].
Qed.

(** X3: for a service whose fee rules declare no waiver category and no
    ["income"] or ["age"] factor, [calculateFees] charges every user, and
    even an absent user, the same total: the [feeEstimate] of
    [getServiceSummary], with one [breakdown] entry per rule. *)
Theorem plain_fees_total_is_estimate (rt : Runtime) (this : Service) (userData : JsVal)
    (language : Lang) :
  (forall fee, In fee (fees this) -> plainFee fee) ->
  exists r,
    calculateFees rt this userData = Normal r /\
    feeError r = None /\
    totalAmount r = feeEstimate (getServiceSummary this language) /\
    length (breakdown r) = length (fees this).
Proof.
  intros Hplain. unfold calculateFees, getServiceSummary; simpl.
  destruct (fees this) as [|first rest] eqn:Ef; [eexists; repeat split; reflexivity|].
  rewrite <- Ef in *.
  rewrite (forEach_pure _ billInFull)
    by (intros s fee Hfee; apply processFee_plain, Hplain, Hfee).
  simpl. eexists; split; [reflexivity|]; simpl. split; [reflexivity|].
  destruct (fold_billInFull (fees this) (mkTotals 0 [] [])) as [Ht Hl].
  rewrite Ht, Hl. split; reflexivity.
Qed.

Lemma plain_fees_total_is_estimate_witness :
  (forall fee, In fee (fees (serviceWith [] [plainCertificateFee; plainCertificateFee] [])) ->
               plainFee fee) /\
  exists r,
    calculateFees rtDay (serviceWith [] [plainCertificateFee; plainCertificateFee] []) JNull
    = Normal r /\
    totalAmount r = 500%float.
Proof.
  assert (Hplain : forall fee,
             In fee (fees (serviceWith [] [plainCertificateFee; plainCertificateFee] [])) ->
             plainFee fee).
  { intros fee [<- | [<- | []]]; (split; [intros w Hw; inversion Hw; reflexivity|]);
      intros f [<- | []]; split; discriminate. }
  split; [exact Hplain|].
  destruct (plain_fees_total_is_estimate rtDay
              (serviceWith [] [plainCertificateFee; plainCertificateFee] []) JNull L_en Hplain)
    as (r & Hr & _ & Ht & _).
  exists r; split; [exact Hr|]. rewrite Ht. vm_compute. reflexivity.
Defined.

(** X4: variable factors compound in list order.  For a rule that
    declares no waiver category and whose factors are ["income"] then
    ["age"], and a profile whose income and age are both truthy and can be
    compared, the billed amount is the base amount scaled by the income rule
    and then by the age rule (times 0.5 below 18, times 0.75 from 60 on). *)
Theorem factors_compound_in_order (rt : Runtime) (this : Service) (profile : Profile) (fee : Fee)
    (byIncome byAge : VariableFactor) :
  fees this = [fee] ->
  (forall w, waiver fee = Some w -> w_eligibility w = []) ->
  variableFactors fee = [byIncome; byAge] ->
  factor byIncome = Some "income" ->
  factor byAge = Some "age" ->
  ToBoolean (field profile "income") = true ->
  ToBoolean (field profile "age") = true ->
  convertible (field profile "income") = true ->
  convertible (field profile "age") = true ->
  exists r,
    calculateFees rt this (JObj profile) = Normal r /\
    map b_amount (breakdown r)
    = [ageScaled rt (field profile "age")
         (incomeScaled rt (field profile "income") (amount fee))] /\
    waivers r = Some [] /\
    feeError r = None.
Proof.
  intros Hfees Hw Hvf Hi Ha Hti Hta Hci Hca.
  unfold calculateFees; rewrite Hfees; simpl.
  assert (Hcw : forall result, checkWaiver rt (JObj profile) result fee
                               = Normal (false, result)).
  { intros result. unfold checkWaiver. destruct (waiver fee) as [w|]; [|reflexivity].
    rewrite (Hw w eq_refl). reflexivity. }
  unfold processFee; rewrite Hcw, Hvf; simpl.
  rewrite (applyFactor_income rt profile (amount fee) byIncome Hi Hti Hci); simpl.
  rewrite (applyFactor_age rt profile _ byAge Ha Hta Hca); simpl.
  eexists; repeat split.
Qed.

Lemma factors_compound_in_order_witness :
  exists r,
    calculateFees rtDay (serviceWith [] [incomeAndAgeFee] []) (JObj poorSenior) = Normal r /\
    map b_amount (breakdown r) = [375%float].
Proof.
  destruct (factors_compound_in_order rtDay (serviceWith [] [incomeAndAgeFee] []) poorSenior
              incomeAndAgeFee incomeFactor ageFactor eq_refl)
    as (r & Hr & Hb & _); try reflexivity.
  - intros w Hw. inversion Hw. reflexivity.
  - exists r; split; [exact Hr|]. rewrite Hb. vm_compute. reflexivity.
Defined.

(** The factors of the example, one profile after the other: a child of a
    poor household pays a quarter, a senior of a rich one nine eighths. *)
Example factors_on_1000 :
  calculateFees rtDay (serviceWith [] [incomeAndAgeFee] [])
    (JObj (profileOf [("age", JNum 12); ("income", JNum 250000)]))
  = Normal (mkFeeResult 250 "INR"
              [mkBreakdown "processing" (JStr "Processing fee") 250 JNull] (Some []) None None) /\
  calculateFees rtDay (serviceWith [] [incomeAndAgeFee] []) (JObj richSenior)
  = Normal (mkFeeResult 1125 "INR"
              [mkBreakdown "processing" (JStr "Processing fee") 1125 JNull] (Some []) None None) /\
  calculateFees rtDay (serviceWith [] [incomeAndAgeFee] [])
    (JObj (profileOf [("age", JNum 40); ("income", JNum 500000)]))
  = Normal (mkFeeResult 1000 "INR"
              [mkBreakdown "processing" (JStr "Processing fee") 1000 JNull] (Some []) None None).
Proof. repeat split; vm_compute; reflexivity. Qed.

(** ** What the two engines read *)

Lemma processFee_agreeOn (rt : Runtime) (p q : Profile) (result : Totals) (fee : Fee) :
  agreeOn feeKeys p q ->
  processFee rt (JObj p) result fee = processFee rt (JObj q) result fee.
Proof. intros H. apply processFee_same_reads. exact H. Qed.

(** X5: [calculateFees] depends on the user profile only through the six
    properties [isBPL], [age], [isStudent], [hasDisability], [gender] and
    [income]: two profiles that agree on them are charged alike, whatever
    else they hold. *)
Theorem calculateFees_reads_six_fields (rt : Runtime) (this : Service) (p q : Profile) :
  agreeOn feeKeys p q ->
  calculateFees rt this (JObj p) = calculateFees rt this (JObj q).
Proof.
  intros H; unfold calculateFees.
  destruct (fees this) as [|first rest]; [reflexivity|].
  rewrite (forEach_ext (processFee rt (JObj p)) (processFee rt (JObj q)) (first :: rest));
    [reflexivity|].
  intros s fee _; apply processFee_agreeOn; exact H.
Qed.

Lemma calculateFees_reads_six_fields_witness :
  agreeOn feeKeys (<["category" := JStr "general"]> richSenior) richSenior /\
  calculateFees rtDay (serviceWith [] [incomeScaledFee] [])
    (JObj (<["category" := JStr "general"]> richSenior))
  = calculateFees rtDay (serviceWith [] [incomeScaledFee] []) (JObj richSenior).
Proof.
  assert (H : agreeOn feeKeys (<["category" := JStr "general"]> richSenior) richSenior).
  { intros key Hk; apply lookup_insert_ne; intros <-.
    simpl in Hk; repeat destruct Hk as [Hk | Hk]; try discriminate; exact Hk. }
  split; [exact H|].
  exact (calculateFees_reads_six_fields rtDay _ _ _ H).
Defined.

Lemma resolveUserValue_agreeOn (rt : Runtime) (p q : Profile) (criteria : EligibilityCriteria)
    (n : string) :
  toLowerCase rt "other" = "other" ->
  agreeOn eligibilityKeys p q ->
  resolveUserValue rt criteria n (JObj p) = resolveUserValue rt criteria n (JObj q).
Proof.
  intros Hlow H. unfold resolveUserValue.
  destruct (criteriaType criteria); rewrite !getProp_object; unfold field;
    try (simpl criteriaTypeName; rewrite Hlow);
    match goal with
    | |- context [p !! ?k] => rewrite (H k) by (simpl; tauto)
    end; reflexivity.
Qed.

(** X6: [checkEligibility] depends on the user profile only through
    [dateOfBirth], [income], [address], [education], [gender],
    [maritalStatus], [occupation], [category], [hasDisability] and
    [other]; in particular it never reads [userData.age], the property the
    fee calculator takes the age from. *)
Theorem checkEligibility_reads_ten_fields (rt : Runtime) (this : Service) (p q : Profile) :
  toLowerCase rt "other" = "other" ->
  agreeOn eligibilityKeys p q ->
  checkEligibility rt this (JObj p) = checkEligibility rt this (JObj q).
Proof.
  intros Hlow H; unfold checkEligibility.
  destruct (eligibilityCriteria this) as [|c cs]; [reflexivity|].
  rewrite (forEach_ext (checkCriterion rt (JObj p)) (checkCriterion rt (JObj q)) (c :: cs));
    [reflexivity|].
  intros s criteria _. unfold checkCriterion.
  rewrite (resolveUserValue_agreeOn rt p q criteria _ Hlow H). reflexivity.
Qed.

Lemma checkEligibility_reads_ten_fields_witness :
  toLowerCase rtDay "other" = "other" /\
  agreeOn eligibilityKeys (<["age" := JNum 17]> bornMidJune2000) bornMidJune2000 /\
  checkEligibility rtDay (serviceWith [ageBetween (JNum 18) (JNum 60)] [] [])
    (JObj (<["age" := JNum 17]> bornMidJune2000))
  = checkEligibility rtDay (serviceWith [ageBetween (JNum 18) (JNum 60)] [] [])
      (JObj bornMidJune2000).
Proof.
  assert (Hlow : toLowerCase rtDay "other" = "other") by reflexivity.
  assert (H : agreeOn eligibilityKeys (<["age" := JNum 17]> bornMidJune2000) bornMidJune2000).
  { intros key Hk; apply lookup_insert_ne; intros <-.
    simpl in Hk; repeat destruct Hk as [Hk | Hk]; try discriminate; exact Hk. }
  split; [exact Hlow | split; [exact H|]].
  exact (checkEligibility_reads_ten_fields rtDay _ _ _ Hlow H).
Defined.

(** ** Eligibility: order, and dates that do not parse *)

Lemma failedOf_name (rt : Runtime) (userData : JsVal) (criteria : EligibilityCriteria)
    (f : FailedCriterion) :
  failedOf (outcomeOf rt userData criteria) = Some f -> fc_name f = criteriaNameOf criteria.
Proof.
  unfold outcomeOf.
  destruct (userValueOf rt criteria userData); simpl; try discriminate;
    destruct (criteriaResult rt criteria _); simpl; try discriminate;
    intros H; inversion H; reflexivity.
Qed.

Lemma missingOf_name (rt : Runtime) (userData : JsVal) (criteria : EligibilityCriteria)
    (m : MissingDatum) :
  missingOf (outcomeOf rt userData criteria) = Some m -> md_criteria m = criteriaNameOf criteria.
Proof.
  rewrite missingOf_outcome.
  destruct (userValueOf rt criteria userData); try discriminate.
  intros H; inversion H; reflexivity.
Qed.

Lemma entries_in_order (rt : Runtime) (userData : JsVal) (criteria : list EligibilityCriteria) :
  sublist (map fc_name (omap failedOf (map (outcomeOf rt userData) criteria)))
          (map criteriaNameOf criteria) /\
  sublist (map md_criteria (omap missingOf (map (outcomeOf rt userData) criteria)))
          (map criteriaNameOf criteria) /\
  length (omap failedOf (map (outcomeOf rt userData) criteria))
  + length (omap missingOf (map (outcomeOf rt userData) criteria))
  <= length criteria.
Proof.
  induction criteria as [|c cs (IHf & IHm & IHl)].
  - simpl; repeat split; constructor.
  - pose proof (failedOf_name rt userData c) as Hf.
    pose proof (missingOf_name rt userData c) as Hm.
    change (map (outcomeOf rt userData) (c :: cs))
      with (outcomeOf rt userData c :: map (outcomeOf rt userData) cs).
    change (map criteriaNameOf (c :: cs)) with (criteriaNameOf c :: map criteriaNameOf cs).
    set (os := map (outcomeOf rt userData) cs) in *.
    assert (Ef : forall o, omap failedOf (o :: os)
                           = match failedOf o with
                             | Some y => y :: omap failedOf os
                             | None => omap failedOf os
                             end) by reflexivity.
    assert (Em : forall o, omap missingOf (o :: os)
                           = match missingOf o with
                             | Some y => y :: omap missingOf os
                             | None => omap missingOf os
                             end) by reflexivity.
    rewrite Ef, Em.
    destruct (outcomeOf rt userData c) as [m|f|]; cbn [failedOf missingOf map length] in *.
    + rewrite (Hm m eq_refl). repeat split;
        [apply sublist_cons; exact IHf | apply sublist_skip; exact IHm | lia].
    + rewrite (Hf f eq_refl). repeat split;
        [apply sublist_skip; exact IHf | apply sublist_cons; exact IHm | lia].
    + repeat split; [apply sublist_cons; exact IHf | apply sublist_cons; exact IHm | lia].
Qed.

(** X7: on user data whose values can be compared, [checkEligibility]
    reports every criterion at most once and in the order of the service:
    the names in [failedCriteria] and the names in [missingData] each read
    off the criteria list from first to last with gaps, and the two lists
    together are no longer than [eligibilityCriteriaCount]. *)
Theorem criteria_reported_in_order (rt : Runtime) (this : Service) (userData : JsVal)
    (language : Lang) :
  eligibilityCriteria this <> [] ->
  userData <> JUndefined -> userData <> JNull ->
  (forall c, In c (eligibilityCriteria this) -> evaluable rt c userData = true) ->
  exists r failed missing,
    checkEligibility rt this userData = Normal r /\
    failedCriteria r = Some failed /\
    missingData r = Some missing /\
    sublist (map fc_name failed) (map criteriaNameOf (eligibilityCriteria this)) /\
    sublist (map md_criteria missing) (map criteriaNameOf (eligibilityCriteria this)) /\
    length failed + length missing
    <= eligibilityCriteriaCount (getServiceSummary this language).
Proof.
  intros Hne Hu Hn He.
  destruct (eligible_decided rt this userData Hne Hu Hn He) as (r & Hr & _ & _ & Hf & Hm).
  destruct (entries_in_order rt userData (eligibilityCriteria this)) as (H1 & H2 & H3).
  exists r; eexists; eexists. repeat split; eauto.
Qed.

Lemma criteria_reported_in_order_witness :
  exists r,
    checkEligibility rtDay scholarship (JObj (delete "gender" outsider)) = Normal r /\
    option_map (map fc_name) (failedCriteria r)
    = Some ["age"; "income"; "education"; "residence"; "disability"] /\
    option_map (map md_criteria) (missingData r) = Some ["gender"; "other"].
Proof.
  destruct (criteria_reported_in_order rtDay scholarship (JObj (delete "gender" outsider)) L_en)
    as (r & failed & missing & Hr & Hf & Hm & _).
  - discriminate.
  - discriminate.
  - discriminate.
  - intros c Hc. simpl in Hc.
    repeat destruct Hc as [<- | Hc]; try (vm_compute; reflexivity). contradiction.
  - exists r. split; [exact Hr|].
    vm_compute in Hr. inversion Hr. split; reflexivity.
Defined.

(** [NaN] is neither [>=] nor [<=] anything. *)
Lemma js_ge_nan (rt : Runtime) (v : JsVal) : js_ge rt (JNum nan) v = false.
Proof. unfold js_ge, IsLessThan. destruct v; reflexivity. Qed.

Lemma js_le_nan (rt : Runtime) (v : JsVal) : js_le rt (JNum nan) v = false.
Proof.
  unfold js_le, IsLessThan.
  assert (H : PrimFloat.is_nan (ToNumber rt (JNum nan)) = true) by reflexivity.
  destruct v; cbv iota; rewrite ?H, ?orb_true_r; reflexivity.
Qed.

(** X8: a [dateOfBirth] that is there but that the [Date] constructor
    cannot read gives the age [NaN].  The criterion is then not reported as
    missing: under the methods [minimum] and [maximum] it fails, and, the
    values of the other criteria being comparable, the verdict is
    [eligible = false], not ["unknown"]. *)
Theorem unreadable_dateOfBirth_fails (rt : Runtime) (this : Service)
    (criteria : EligibilityCriteria) (profile : Profile) (dob : JsVal) :
  In criteria (eligibilityCriteria this) ->
  (forall c, In c (eligibilityCriteria this) -> evaluable rt c (JObj profile) = true) ->
  criteriaType criteria = CT_age ->
  validationMethod criteria = VM_minimum \/ validationMethod criteria = VM_maximum ->
  profile !! "dateOfBirth" = Some dob ->
  ToBoolean dob = true ->
  newDate rt (primitiveOf rt dob) = InvalidDate ->
  exists r failed missing,
    checkEligibility rt this (JObj profile) = Normal r /\
    eligible r = JBool false /\
    failedCriteria r = Some failed /\
    missingData r = Some missing /\
    In (mkFailed CT_age (criteriaNameOf criteria) (JNum nan) (requiredShown criteria)) failed /\
    ~ In (missingEntryFor criteria) missing.
Proof.
  intros Hin He Ht Hmeth Hd Hb Hinv.
  assert (Hu : userValueOf rt criteria (JObj profile) = JNum nan).
  { rewrite (userValueOf_age rt criteria profile dob Ht Hd Hb), Hinv. reflexivity. }
  assert (Hres : criteriaResult rt criteria (JNum nan) = false).
  { unfold criteriaResult.
    destruct Hmeth as [-> | ->]; change (primitiveOf rt (JNum nan)) with (JNum nan);
      rewrite ?js_ge_nan, ?js_le_nan; reflexivity. }
  assert (Ho : outcomeOf rt (JObj profile) criteria
               = Failed (mkFailed CT_age (criteriaNameOf criteria) (JNum nan)
                                  (requiredShown criteria))).
  { unfold outcomeOf. rewrite Hu, Hres, Ht. reflexivity. }
  assert (Hne : eligibilityCriteria this <> []) by (intros E; rewrite E in Hin; exact Hin).
  destruct (eligible_decided rt this (JObj profile) Hne ltac:(discriminate)
              ltac:(discriminate) He) as (r & Hr & Hv & _ & Hf & Hm).
  exists r, (omap failedOf (map (outcomeOf rt (JObj profile)) (eligibilityCriteria this))),
         (map missingEntryFor (undefinedValued rt (eligibilityCriteria this) (JObj profile))).
  split; [exact Hr|]. split; [|split; [exact Hf|split; [|split]]].
  - rewrite Hv, (someFails_in rt _ _ criteria Hin); [reflexivity|].
    rewrite Ho; reflexivity.
  - rewrite Hm, missing_entries; reflexivity.
  - apply (failed_entry_in rt _ _ criteria); assumption.
  - intros Hmiss. apply in_map_iff in Hmiss. destruct Hmiss as (c & Hc & Hcin).
    unfold undefinedValued in Hcin. apply filter_In in Hcin. destruct Hcin as [Hcin Hundef].
    assert (Htype : criteriaType c = CT_age).
    { unfold missingEntryFor in Hc. inversion Hc as [[Hfield Hname]].
      rewrite Ht in Hfield.
      destruct (criteriaType c); try reflexivity; discriminate. }
    rewrite (userValueOf_age rt c profile dob Htype Hd Hb) in Hundef. discriminate.
Qed.

Lemma unreadable_dateOfBirth_fails_witness :
  exists r,
    checkEligibility rtDay (serviceWith [criterion CT_age VM_maximum JNull (JNum 35)] [] [])
      (JObj (profileOf [("dateOfBirth", JStr "unknown")])) = Normal r /\
    eligible r = JBool false /\
    missingData r = Some [].
Proof.
  destruct (unreadable_dateOfBirth_fails rtDay
              (serviceWith [criterion CT_age VM_maximum JNull (JNum 35)] [] [])
              (criterion CT_age VM_maximum JNull (JNum 35))
              (profileOf [("dateOfBirth", JStr "unknown")]) (JStr "unknown"))
    as (r & failed & missing & Hr & Hv & _).
  - left; reflexivity.
  - intros c [<- | []]; vm_compute; reflexivity.
  - reflexivity.
  - right; reflexivity.
  - vm_compute; reflexivity.
  - reflexivity.
  - reflexivity.
  - exists r. split; [exact Hr|]. split; [exact Hv|].
    vm_compute in Hr. inversion Hr. reflexivity.
Defined.

(** ** Documents: counts, the empty submission, the message, the extension *)

Lemma fileDocument_counts (rt : Runtime) (reqs : list Requirement) (result : Validation)
    (d : JsVal) :
  length (validDocuments (fileDocument rt reqs result d))
  + length (invalidDocuments (fileDocument rt reqs result d))
  = S (length (validDocuments result) + length (invalidDocuments result)).
Proof.
  unfold fileDocument.
  destruct (requirementFor reqs d) as [r|]; simpl; [|rewrite length_app; simpl; lia].
  destruct (fileTypeMismatch rt r d); simpl; [rewrite length_app; simpl; lia|].
  destruct (sizeExcess rt r d); simpl; rewrite length_app; simpl; lia.
Qed.

Lemma fold_fileDocument_counts (rt : Runtime) (reqs : list Requirement)
    (documents : list JsVal) (result : Validation) :
  length (validDocuments (fold_left (fileDocument rt reqs) documents result))
  + length (invalidDocuments (fold_left (fileDocument rt reqs) documents result))
  = length (validDocuments result) + length (invalidDocuments result) + length documents.
Proof.
  revert result; induction documents as [|d ds IH]; intros result; simpl; [lia|].
  rewrite IH, fileDocument_counts. lia.
Qed.

(** X9: every submitted document is filed exactly once: the lengths of
    [validDocuments] and [invalidDocuments] add up to the number of
    documents, and [missingMandatory] lists, in the order of the
    requirements, exactly the mandatory requirements for which no document
    of their type was submitted, whether or not the submitted ones pass. *)
Theorem documents_filed_once (rt : Runtime) (this : Service) (documents : list JsVal) :
  (forall d, In d documents -> wellFormedDocument d) ->
  exists (result : Validation) (msg : string),
    validateDocuments rt this (JArr documents) = Normal (Checked result msg) /\
    length (validDocuments result) + length (invalidDocuments result) = length documents /\
    missingMandatory result
    = map missingEntry (List.filter (missingRequirement documents) (requirements this)).
Proof.
  intros Hwf. rewrite (validateDocuments_wellFormed rt this documents Hwf). cbv zeta.
  eexists; eexists; split; [reflexivity|]. split.
  - rewrite fold_fileDocument_counts, fold_noteMissing. simpl. lia.
  - destruct (fold_fileDocument rt (requirements this) documents
                (fold_left (noteMissing documents) (requirements this)
                   (mkValidation true [] [] []))) as (_ & Hm & _).
    cbv zeta in Hm. rewrite Hm, fold_noteMissing. reflexivity.
Qed.

Lemma documents_filed_once_witness :
  exists (result : Validation) (msg : string),
    validateDocuments rtDay (serviceWith [] [] [aadhar; photo])
      (JArr [documentOf "aadhar" "card.docx" 10; documentOf "pan" "pan.pdf" 10])
    = Normal (Checked result msg) /\
    length (validDocuments result) + length (invalidDocuments result) = 2 /\
    missingMandatory result = [].
Proof.
  destruct (documents_filed_once rtDay (serviceWith [] [] [aadhar; photo])
              [documentOf "aadhar" "card.docx" 10; documentOf "pan" "pan.pdf" 10])
    as (result & msg & Hr & Hc & Hm).
  - intros d [<- | [<- | []]]; apply documentOf_wellFormed.
  - exists result, msg. split; [exact Hr|]. split; [exact Hc|].
    rewrite Hm. vm_compute. reflexivity.
Defined.

Lemma filter_pointwise {A : Type} (p q : A -> bool) (l : list A) :
  (forall a, p a = q a) -> List.filter p l = List.filter q l.
Proof.
  intros H; induction l as [|a l IH]; simpl; [reflexivity|].
  rewrite H, IH; reflexivity.
Qed.

(** X10: an empty array of documents is valid exactly when the service has
    no mandatory requirement; it reports as missing as many requirements as
    [mandatoryRequirementCount] of [getServiceSummary], and their types are
    the types that a [documents] argument that is not an array is answered
    with. *)
Theorem empty_submission (rt : Runtime) (this : Service) (language : Lang) :
  exists (result : Validation) (msg : string) (missingTypes : list string),
    validateDocuments rt this (JArr []) = Normal (Checked result msg) /\
    validateDocuments rt this JNull = Normal (InvalidFormat missingTypes) /\
    valid result = negb (existsb isMandatory (requirements this)) /\
    validDocuments result = [] /\
    invalidDocuments result = [] /\
    length (missingMandatory result) = mandatoryRequirementCount (getServiceSummary this language) /\
    map nd_type (missingMandatory result) = map JStr missingTypes.
Proof.
  assert (Hm : forall r, missingRequirement [] r = isMandatory r)
    by (intros r; unfold missingRequirement; simpl; apply andb_true_r).
  rewrite (validateDocuments_wellFormed rt this []) by (intros d []).
  cbv zeta. simpl fold_left at 1. rewrite fold_noteMissing.
  rewrite (existsb_pointwise _ _ _ Hm), (filter_pointwise _ _ _ Hm).
  eexists; eexists; eexists. split; [reflexivity|]. split; [reflexivity|].
  simpl. repeat split.
  - rewrite length_map. reflexivity.
  - rewrite !map_map. reflexivity.
Qed.

(** X11: the message of a checked submission names its gravest finding:
    success exactly when [valid] holds, "Missing mandatory documents"
    exactly when a mandatory requirement is missing, also if documents
    failed as well, and "Some documents failed validation" exactly when
    nothing is missing but a document broke a file rule. *)
Theorem message_names_gravest_finding (rt : Runtime) (this : Service) (documents : list JsVal) :
  (forall d, In d documents -> wellFormedDocument d) ->
  exists (result : Validation) (msg : string),
    validateDocuments rt this (JArr documents) = Normal (Checked result msg) /\
    (msg = "All required documents validated successfully" <-> valid result = true) /\
    (msg = "Missing mandatory documents" <->
     existsb (missingRequirement documents) (requirements this) = true) /\
    (msg = "Some documents failed validation" <->
     existsb (missingRequirement documents) (requirements this) = false /\
     existsb (rejected rt (requirements this)) documents = true).
Proof.
  intros Hwf. rewrite (validateDocuments_wellFormed rt this documents Hwf). cbv zeta.
  set (result := fold_left _ documents _).
  destruct (fold_fileDocument rt (requirements this) documents
              (fold_left (noteMissing documents) (requirements this)
                 (mkValidation true [] [] []))) as (Hv & Hm & _).
  cbv zeta in Hv, Hm. fold result in Hv, Hm. rewrite fold_noteMissing in Hv, Hm.
  cbn [valid missingMandatory andb app] in Hv, Hm.
  assert (Hlen : (0 <? length (missingMandatory result))%nat
                 = existsb (missingRequirement documents) (requirements this)).
  { rewrite Hm, length_map. clear.
    induction (requirements this) as [|r rs IH]; simpl; [reflexivity|].
    destruct (missingRequirement documents r); simpl; [reflexivity | exact IH]. }
  exists result, (resultMessageOf result). split; [reflexivity|].
  unfold resultMessageOf. rewrite Hlen, Hv.
  destruct (existsb (missingRequirement documents) (requirements this));
    destruct (existsb (rejected rt (requirements this)) documents); simpl;
    repeat split; intros; try discriminate; try reflexivity;
    match goal with H : _ /\ _ |- _ => destruct H; discriminate end.
Qed.

Lemma message_names_gravest_finding_witness :
  exists (result : Validation) (msg : string),
    validateDocuments rtDay (serviceWith [] [] [aadhar; photo])
      (JArr [documentOf "photo" "me.png" 120]) = Normal (Checked result msg) /\
    msg = "Missing mandatory documents".
Proof.
  destruct (message_names_gravest_finding rtDay (serviceWith [] [] [aadhar; photo])
              [documentOf "photo" "me.png" 120])
    as (result & msg & Hr & _ & Hmiss & _).
  - intros d [<- | []]; apply documentOf_wellFormed.
  - exists result, msg. split; [exact Hr|]. apply Hmiss. vm_compute. reflexivity.
Defined.

Lemma afterLastDotFrom_dotFree (s cur : string) :
  dotFree s = true -> afterLastDotFrom s cur = cur.
Proof.
  revert cur; induction s as [|c s IH]; intros cur; simpl; [reflexivity|].
  destruct (Ascii.eqb c "."); simpl; [discriminate | apply IH].
Qed.

Lemma splitDotPop_extension (base ext : string) :
  dotFree ext = true ->
  splitDotPop (String.append base (String "." ext)) = ext.
Proof.
  intros Hext. unfold splitDotPop.
  generalize (String.append base (String "." ext)) at 2 as cur.
  induction base as [|c base IH]; intros cur; simpl.
  - apply afterLastDotFrom_dotFree; exact Hext.
  - destruct (Ascii.eqb c "."); apply IH.
Qed.

(** X12: the file-type rule looks only at what follows the last dot of the
    file name, lower-cased: for [base.ext] with a dot-free [ext] the
    extension that is compared is [ext], whatever dots [base] holds, and for
    a name without any dot it is the whole name; a [file] that is not a
    string makes the callback throw. *)
Theorem file_extension_is_last_segment (rt : Runtime) (props : Profile) :
  (forall base ext,
      props !! "file" = Some (JStr (String.append base (String "." ext))) ->
      dotFree ext = true ->
      fileExtensionOf rt (JObj props) = Normal (toLowerCase rt ext)) /\
  (forall file,
      props !! "file" = Some (JStr file) ->
      dotFree file = true ->
      fileExtensionOf rt (JObj props) = Normal (toLowerCase rt file)) /\
  ((forall file, props !! "file" <> Some (JStr file)) ->
   fileExtensionOf rt (JObj props) = Throw TypeError).
Proof.
  unfold fileExtensionOf; rewrite getProp_object; unfold field. repeat split.
  - intros base ext Hfile Hext. rewrite Hfile; simpl.
    rewrite (splitDotPop_extension base ext Hext). reflexivity.
  - intros file Hfile Hfree. rewrite Hfile; simpl. unfold splitDotPop.
    rewrite (afterLastDotFrom_dotFree _ _ Hfree). reflexivity.
  - intros Hnot. destruct (props !! "file") as [[| | | |s| |]|]; simpl; try reflexivity.
    exfalso; exact (Hnot s eq_refl).
Qed.

Lemma file_extension_is_last_segment_witness :
  fileExtensionOf rtDay
    (JObj (profileOf [("type", JStr "aadhar"); ("file", JStr "scan.pdf.EXE")]))
  = Normal "exe".
Proof.
  destruct (file_extension_is_last_segment rtDay
              (profileOf [("type", JStr "aadhar"); ("file", JStr "scan.pdf.EXE")]))
    as [H _].
  rewrite (H "scan.pdf" "EXE"); [reflexivity | vm_compute; reflexivity | reflexivity].
Defined.

(** ** Resolved texts *)

Lemma firstTruthy_not_empty (a b : option string) :
  b <> Some "" -> firstTruthy a b <> Some "".
Proof.
  intros Hb. destruct a as [s|]; simpl; [|exact Hb].
  destruct (String.eqb_spec s "") as [->|Hs]; [exact Hb|].
  intros H; inversion H; contradiction.
Qed.

Lemma getFallbackText_resolved (language : Lang) (text : MultilingualText) :
  hasEnglish text -> resolved (getFallbackText language (Some text)).
Proof.
  intros [s Hs]. unfold getFallbackText, resolved.
  rewrite (firstTruthy_present (mt_en text) None s Hs).
  destruct (textIn text language) as [t|] eqn:Et; simpl.
  - destruct (String.eqb_spec t "") as [->|Ht]; [|exists t; split; auto].
    exists s; split; [reflexivity | apply Hs].
  - exists s; split; [reflexivity | apply Hs].
Qed.

(** X13: a resolved text is never the empty string, and wherever the
    English text is there and not empty the resolution does not come back
    [null], whatever language is asked for; so the service name, the
    description and every requirement name of [getDetailsInLanguage] are
    non-empty texts as soon as their English versions are. *)
Theorem resolution_never_empty (language : Lang) :
  (forall fieldText : option MultilingualText,
      getFallbackText language fieldText <> Some "") /\
  (forall text : MultilingualText,
      hasEnglish text -> resolved (getFallbackText language (Some text))) /\
  (forall this : Service,
      hasEnglish (name this) ->
      hasEnglish (description this) ->
      (forall req, In req (requirements this) -> hasEnglish (req_name req)) ->
      resolved (sd_name (getDetailsInLanguage this language)) /\
      resolved (sd_description (getDetailsInLanguage this language)) /\
      resolved (ss_name (getServiceSummary this language)) /\
      forall e, In e (sd_requirements (getDetailsInLanguage this language)) ->
                resolved (le_name e)).
Proof.
  split; [|split].
  - intros [text|]; simpl; [|discriminate].
    apply firstTruthy_not_empty, firstTruthy_not_empty. discriminate.
  - intros text; apply getFallbackText_resolved.
  - intros this Hn Hd Hreq. unfold getDetailsInLanguage, getServiceSummary; simpl.
    repeat split; try (apply getFallbackText_resolved; assumption).
    intros e He. apply in_map_iff in He. destruct He as (req & <- & Hin). simpl.
    apply getFallbackText_resolved, Hreq, Hin.
Qed.

Lemma resolution_never_empty_witness :
  hasEnglish (english "Aadhar card") /\
  resolved (getFallbackText L_ta (Some (english "Aadhar card"))).
Proof.
  assert (H : hasEnglish (english "Aadhar card"))
    by (exists "Aadhar card"; split; [reflexivity | discriminate]).
  split; [exact H|].
  exact (proj1 (proj2 (resolution_never_empty L_ta)) (english "Aadhar card") H).
Defined.

(** ** Voice commands *)

Lemma filter_nonempty {A : Type} (p : A -> bool) (l : list A) :
  (0 <? length (List.filter p l))%nat = existsb p l.
Proof.
  induction l as [|a l IH]; simpl; [reflexivity|].
  destruct (p a); simpl; [reflexivity | exact IH].
Qed.

Lemma length_zero_nil {A : Type} (l : list A) : (length l =? 0)%nat = true -> l = [].
Proof. destruct l; simpl; [reflexivity | discriminate]. Qed.

(** X14: [getVoiceCommands] lists exactly the stored commands of the
    language it reports, in stored order; [available] tells whether that
    list is non-empty; it reports a fallback only to English, only for a
    request in another language that has no command of its own, and
    otherwise reports the requested language; it gives up only when neither
    the requested language nor English has a command. *)
Theorem voice_commands_of_reported_language (this : ServiceDocument) (language : string) :
  match getVoiceCommands this language with
  | NoVoiceCommands =>
      language <> "en" /\ commandsIn this language = [] /\ commandsIn this "en" = []
  | VoiceCommands available reported isFallback commands =>
      commands = map viewOf (commandsIn this reported) /\
      available = (0 <? length commands)%nat /\
      (isFallback = true ->
       reported = "en" /\ language <> "en" /\ commandsIn this language = [] /\
       available = true) /\
      (isFallback = false -> reported = language)
  end.
Proof.
  unfold getVoiceCommands.
  destruct (length (commandsIn this language) =? 0)%nat eqn:El; simpl.
  - destruct (String.eqb_spec language "en") as [->|Hne]; simpl.
    + rewrite length_map. repeat split; auto; discriminate.
    + destruct (length (commandsIn this "en") =? 0)%nat eqn:Ee.
      * repeat split; auto using length_zero_nil.
      * rewrite length_map. repeat split; auto using length_zero_nil; try discriminate.
        destruct (commandsIn this "en"); [discriminate | reflexivity].
  - rewrite length_map. repeat split; auto; discriminate.
Qed.

(** X15: the [voiceEnabled] flag of [getServiceSummary] agrees with
    [getVoiceCommands]: for every language it is true exactly when
    [getVoiceCommands] for that language reports [available]. *)
Theorem voiceEnabled_iff_available (this : ServiceDocument) (language : string) :
  voiceEnabled this language = availableOf (getVoiceCommands this language).
Proof.
  unfold voiceEnabled, getVoiceCommands, commandsIn.
  assert (Hor : forall l : list VoiceCommand,
             existsb (fun cmd => String.eqb (vc_language cmd) language
                                 || String.eqb (vc_language cmd) "en") l
             = existsb (fun cmd => String.eqb (vc_language cmd) language) l
               || existsb (fun cmd => String.eqb (vc_language cmd) "en") l).
  { induction l as [|c l IH]; simpl; [reflexivity|]. rewrite IH.
    destruct (String.eqb (vc_language c) language), (String.eqb (vc_language c) "en");
      simpl; rewrite ?orb_true_r; reflexivity. }
  assert (Hz : forall l : list VoiceCommand, (length l =? 0)%nat = negb (0 <? length l)%nat)
    by (intros [|]; reflexivity).
  rewrite Hor, !Hz, <- !filter_nonempty.
  destruct (String.eqb_spec language "en") as [->|Hne]; simpl.
  - rewrite andb_false_r; simpl. rewrite orb_diag. reflexivity.
  - rewrite andb_true_r.
    destruct (0 <? length (List.filter _ (voiceCommands this)))%nat; simpl; [reflexivity|].
    destruct (0 <? length (List.filter _ (voiceCommands this)))%nat; reflexivity.
Qed.

Example hindi_request_falls_back_to_english :
  getVoiceCommands (pensionDocument [command "en" "apply for pension"; command "ta" "oivuthiyam"]
                                    "active") "hi"
  = VoiceCommands true "en" true [mkVoiceView ["apply for pension"] [] [] None].
Proof. vm_compute. reflexivity. Qed.

Lemma voice_commands_of_reported_language_witness :
  match getVoiceCommands
          (pensionDocument [command "en" "apply for pension"; command "ta" "oivuthiyam"] "active")
          "hi" with
  | NoVoiceCommands => False
  | VoiceCommands available reported _ _ => reported = "en" /\ available = true
  end.
Proof.
  pose proof (voice_commands_of_reported_language
                (pensionDocument [command "en" "apply for pension"; command "ta" "oivuthiyam"]
                                 "active") "hi") as H.
  destruct (getVoiceCommands _ "hi") as [|available reported isFallback commands] eqn:E.
  - vm_compute in E. discriminate.
  - destruct H as (_ & _ & Hf & _).
    assert (Hfb : isFallback = true) by (vm_compute in E; inversion E; reflexivity).
    destruct (Hf Hfb) as (Hr & _ & _ & Ha). split; assumption.
Defined.

(** ** The controllers *)

Lemma validateDocuments_array_returns (rt : Runtime) (this : Service) (docs : list JsVal) :
  validateDocuments rt this (JArr docs) = Normal ValidationError \/
  exists result msg, validateDocuments rt this (JArr docs) = Normal (Checked result msg).
Proof.
  unfold validateDocuments, tryCatch.
  destruct (forEach (checkMandatory docs) (requirements this) _) as [r1|]; simpl; [|auto].
  destruct (forEach (validateDocument rt (requirements this)) docs r1) as [r2|]; simpl;
    [right; eauto | auto].
Qed.



(** X17: the document endpoint answers 500 for a body that is [undefined]
    or [null], 400 unless [documents] is an array, 404 for an unknown
    service and 200 otherwise, whatever the status of the service: an
    inactive service, refused by the other two endpoints, still validates
    documents.  Its own array test shields the method: the 200 body is a
    checked result or the error object, never the method's answer to a
    non-array. *)
Theorem document_endpoint_status (rt : Runtime) (reqBody : JsVal)
    (found : option ServiceDocument) :
  (reqBody = JUndefined \/ reqBody = JNull ->
   statusCode (validateDocumentsController rt reqBody (Normal found)) = 500) /\
  (forall documents,
      getProp reqBody "documents" = Normal documents ->
      (forall l, documents <> JArr l) ->
      statusCode (validateDocumentsController rt reqBody (Normal found)) = 400) /\
  (forall docs,
      getProp reqBody "documents" = Normal (JArr docs) ->
      match found with
      | None => statusCode (validateDocumentsController rt reqBody (Normal found)) = 404
      | Some s =>
          exists data,
            validateDocumentsController rt reqBody (Normal found)
            = Ok (ofOptStr (mt_en (name (doc s)))) (shortName s) data /\
            validateDocuments rt (doc s) (JArr docs) = Normal data /\
            (forall missingTypes, data <> InvalidFormat missingTypes)
      end).
Proof.
  unfold validateDocumentsController. repeat split.
  - intros [-> | ->]; reflexivity.
  - intros documents Hd Hna. rewrite Hd; simpl.
    destruct documents; try reflexivity. exfalso; exact (Hna elems eq_refl).
  - intros docs Hd. rewrite Hd; cbn -[validateDocuments].
    destruct found as [s|]; cbn -[validateDocuments]; [|reflexivity].
    destruct (validateDocuments_array_returns rt (doc s) docs) as [H | (result & msg & H)];
      rewrite H; cbn; eexists; (split; [reflexivity|]); split;
      try reflexivity; intros; discriminate.
Qed.

Lemma document_endpoint_status_witness :
  statusCode (validateDocumentsController rtDay
                (JObj (profileOf [("documents", JArr [documentOf "aadhar" "card.pdf" 40])]))
                (Normal (Some (pensionDocument [] "inactive")))) = 200 /\
  statusCode (checkEligibilityController rtDay
                (JObj (profileOf [("documents", JArr [documentOf "aadhar" "card.pdf" 40])]))
                (Normal (Some (pensionDocument [] "inactive")))) = 400.
Proof.
  destruct (document_endpoint_status rtDay
              (JObj (profileOf [("documents", JArr [documentOf "aadhar" "card.pdf" 40])]))
              (Some (pensionDocument [] "inactive"))) as (_ & _ & H).
  destruct (H [documentOf "aadhar" "card.pdf" 40]) as (data & Hresp & _).
  - vm_compute; reflexivity.
  - split; [rewrite Hresp; reflexivity | vm_compute; reflexivity].
Defined.

(** ** The save hook *)

Section ShortNameFacts.
Variable isSpace : ascii -> bool.

Lemma underscoreRuns_no_space (inRun : bool) (s : string) :
  isSpace "_" = false -> hasSpace isSpace (underscoreRuns isSpace inRun s) = false.
Proof.
  intros Hu; revert inRun; induction s as [|c s IH]; intros inRun; simpl; [reflexivity|].
  destruct (isSpace c) eqn:Ec.
  - destruct inRun; simpl; rewrite ?Hu; apply IH.
  - simpl. rewrite Ec. apply IH.
Qed.

Lemma trimStart_no_space (s : string) : hasSpace isSpace s = false -> trimStart isSpace s = s.
Proof.
  destruct s as [|c s]; simpl; [reflexivity|].
  destruct (isSpace c); [discriminate | reflexivity].
Qed.

Lemma trimEnd_no_space (s : string) : hasSpace isSpace s = false -> trimEnd isSpace s = s.
Proof.
  induction s as [|c s IH]; simpl; [reflexivity|].
  destruct (isSpace c) eqn:Ec; [discriminate|]. simpl. intros Hs.
  rewrite (IH Hs). destruct s; reflexivity.
Qed.

Lemma underscoreRuns_no_space_id (inRun : bool) (s : string) :
  hasSpace isSpace s = false -> underscoreRuns isSpace inRun s = s.
Proof.
  revert inRun; induction s as [|c s IH]; intros inRun; simpl; [reflexivity|].
  destruct (isSpace c); [discriminate|]. simpl. intros Hs. rewrite (IH false Hs). reflexivity.
Qed.

End ShortNameFacts.

(** X18: the save hook stores a [shortName] without white space, and
    saving again changes nothing: normalising is idempotent, provided that
    the underscore is no white space and that lower-casing is idempotent
    and makes no white space. *)
Theorem shortName_normal_form (isSpace : ascii -> bool) (rt : Runtime) :
  isSpace "_"%char = false ->
  (forall s, hasSpace isSpace s = false -> hasSpace isSpace (toLowerCase rt s) = false) ->
  (forall s, toLowerCase rt (toLowerCase rt s) = toLowerCase rt s) ->
  forall this : ServiceDocument,
    hasSpace isSpace (shortName (preSave isSpace rt this)) = false /\
    preSave isSpace rt (preSave isSpace rt this) = preSave isSpace rt this.
Proof.
  intros Hu Hkeep Hidem this.
  assert (Hns : forall s, hasSpace isSpace (normalizeShortName isSpace rt s) = false).
  { intros s; unfold normalizeShortName. apply Hkeep, underscoreRuns_no_space, Hu. }
  split; [apply Hns|].
  unfold preSave; simpl. f_equal.
  unfold normalizeShortName at 1. unfold trim.
  rewrite (trimStart_no_space isSpace _ (Hns _)), (trimEnd_no_space isSpace _ (Hns _)),
    (underscoreRuns_no_space_id isSpace false _ (Hns _)).
  unfold normalizeShortName. apply Hidem.
Qed.

Lemma asciiLower_keeps_no_space (c : ascii) :
  asciiSpace c = false -> asciiSpace (asciiLower c) = false.
Proof.
  destruct c as [[] [] [] [] [] [] [] []]; vm_compute; intros H; first [reflexivity | exact H].
Qed.

Lemma asciiLower_idempotent (c : ascii) : asciiLower (asciiLower c) = asciiLower c.
Proof. destruct c as [[] [] [] [] [] [] [] []]; vm_compute; reflexivity. Qed.

Lemma shortName_normal_form_witness :
  shortName (preSave asciiSpace rtDay (pensionDocument [] "draft")) = "old_age_pension" /\
  shortName (preSave asciiSpace rtDay
               (mkDocument (serviceWith [] [] []) "  Old  Age Pension " "draft" []))
  = "old_age_pension" /\
  forall this : ServiceDocument,
    hasSpace asciiSpace (shortName (preSave asciiSpace rtDay this)) = false /\
    preSave asciiSpace rtDay (preSave asciiSpace rtDay this) = preSave asciiSpace rtDay this.
Proof.
  split; [vm_compute; reflexivity | split; [vm_compute; reflexivity|]].
  apply (shortName_normal_form asciiSpace rtDay).
  - reflexivity.
  - intros s; simpl. induction s as [|c s IH]; simpl; [reflexivity|].
    destruct (asciiSpace c) eqn:Ec; simpl; [discriminate|].
    intros Hs. rewrite (asciiLower_keeps_no_space c Ec). apply IH, Hs.
  - intros s; simpl. induction s as [|c s IH]; simpl; [reflexivity|].
    rewrite asciiLower_idempotent, IH. reflexivity.
Defined.
